(** * Oregon energy-burden dashboard: the analytics core of [src/App.jsx]

    A shallow embedding of the computations the dashboard performs on its
    in-memory tables: cross-utility sums and the customer-weighted average
    bill, the rolling three-month trend classifier, and the geographic view
    (ZIP-level filtering, ranking, projection and colour scale).

    Numbers.  The source computes with IEEE-754 doubles.  Here a finite
    number is an exact rational ([Q]); the three non-finite doubles are kept
    as separate values, so that what a division by zero produces is visible
    in the model.  Rounding error of binary64 arithmetic and the sign of zero
    are not represented: every zero divisor met in the modelled code is the
    result of [x - x] or of a sum started at [0], which is [+0] in the
    source.  The source and the model can therefore differ in the last place
    of a quotient, which shows where the exact result sits on a threshold or
    on a rounding tie: at the edges of the band of [getTrend], or before a
    digit 5 that [toFixed] rounds away. *)

From Stdlib Require Import QArith Qround Qminmax Qabs Lqa ZArith Lia.
From Stdlib Require Import List String Sorted Permutation DecimalString.
From stdpp Require Import gmap strings.
Import ListNotations.
Local Open Scope Q_scope.

(* ===================================================================== *)
(** ** JavaScript numbers *)
(* ===================================================================== *)

Module JsNum.

Inductive num : Type :=
  | Fin (q : Q)
  | PInf
  | NInf
  | NaN.

Definition Qltb (a b : Q) : bool := negb (Qle_bool b a).

Definition is_finite (x : num) : bool :=
  match x with Fin _ => true | _ => false end.

Definition neg (x : num) : num :=
  match x with
  | Fin q => Fin (- q)
  | PInf => NInf
  | NInf => PInf
  | NaN => NaN
  end.

Definition add (x y : num) : num :=
  match x, y with
  | NaN, _ | _, NaN => NaN
  | Fin a, Fin b => Fin (a + b)
  | PInf, NInf | NInf, PInf => NaN
  | PInf, _ | _, PInf => PInf
  | NInf, _ | _, NInf => NInf
  end.

Definition sub (x y : num) : num :=
  match x, y with
  | Fin a, Fin b => Fin (a - b)
  | _, _ => add x (neg y)
  end.

(** An infinity of the sign of [pos], multiplied by the finite [q]. *)
Definition scale_inf (pos : bool) (q : Q) : num :=
  if Qeq_bool q 0 then NaN
  else if Bool.eqb pos (Qltb 0 q) then PInf else NInf.

Definition mul (x y : num) : num :=
  match x, y with
  | NaN, _ | _, NaN => NaN
  | Fin a, Fin b => Fin (a * b)
  | PInf, Fin b => scale_inf true b
  | NInf, Fin b => scale_inf false b
  | Fin a, PInf => scale_inf true a
  | Fin a, NInf => scale_inf false a
  | PInf, PInf | NInf, NInf => PInf
  | PInf, NInf | NInf, PInf => NInf
  end.

(** [a / b] on finite operands: a zero divisor gives an infinity of the sign
    of the dividend, or [NaN] for [0 / 0]. *)
Definition Qdiv_js (a b : Q) : num :=
  if Qeq_bool b 0 then
    (if Qltb 0 a then PInf else if Qltb a 0 then NInf else NaN)
  else Fin (a / b).

Definition div (x y : num) : num :=
  match x, y with
  | NaN, _ | _, NaN => NaN
  | Fin a, Fin b => Qdiv_js a b
  | Fin _, _ => Fin 0
  | PInf, Fin b => if Qltb b 0 then NInf else PInf
  | NInf, Fin b => if Qltb b 0 then PInf else NInf
  | _, _ => NaN
  end.

(** [x > y]; every comparison with [NaN] is false. *)
Definition gt (x y : num) : bool :=
  match x, y with
  | NaN, _ | _, NaN => false
  | Fin a, Fin b => Qltb b a
  | PInf, (Fin _ | NInf) => true
  | Fin _, NInf => true
  | _, _ => false
  end.

Definition lt (x y : num) : bool := gt y x.

(** [Math.round]: the nearest integer, halves going up. *)
Definition Math_round (x : num) : num :=
  match x with
  | Fin q => Fin (inject_Z (Qfloor (q + (1 # 2))))
  | _ => x
  end.

(** Equality of numbers up to the representation of a rational. *)
Definition eqv (x y : num) : Prop :=
  match x, y with
  | Fin a, Fin b => a == b
  | PInf, PInf | NInf, NInf | NaN, NaN => True
  | _, _ => False
  end.

(** [Number.prototype.toFixed(1)].  The sign is printed first, then the
    integer [n] nearest to ten times the magnitude (the larger one on a tie)
    with a point before its last digit.  From [1e21] on the source prints the
    shortest digits of the double instead, which this model does not
    represent: the result is [None] there. *)
Definition toFixed1 (x : num) : option string :=
  match x with
  | NaN => Some "NaN"%string
  | PInf => Some "Infinity"%string
  | NInf => Some "-Infinity"%string
  | Fin q =>
      let a := Qabs q in
      if Qle_bool (inject_Z (10 ^ 21)) a then None
      else
        let n := Qfloor (a * 10 + (1 # 2)) in
        let digits z := NilZero.string_of_uint (N.to_uint (Z.to_N z)) in
        let body := String.append (digits (n / 10)%Z)
                      (String.append "." (digits (n mod 10)%Z)) in
        Some (if Qltb q 0 then String.append "-" body else body)
  end.

End JsNum.

Import JsNum.

(* ===================================================================== *)
(** ** JavaScript arrays *)
(* ===================================================================== *)

Module JsArray.

(** [Array.prototype.slice(start, end)]: a negative index counts from the
    end, both indices are clamped to the array, an absent [end] is the
    length.  The receiver is not modified; the result is a new array. *)
Definition slice {A : Type} (l : list A) (start : Z) (end_ : option Z) : list A :=
  let len := Z.of_nat (List.length l) in
  let rel i := if (i <? 0)%Z then Z.max (len + i) 0 else Z.min i len in
  let k := rel start in
  let final := match end_ with None => len | Some e => rel e end in
  firstn (Z.to_nat (final - k)) (skipn (Z.to_nat k) l).

(** [arr[i]]: [undefined] (here [None]) outside the array. *)
Definition index {A : Type} (l : list A) (i : Z) : option A :=
  if (i <? 0)%Z then None else nth_error l (Z.to_nat i).

(** [arr?.[i]] on a possibly missing array. *)
Definition opt_index {A : Type} (o : option (list A)) (i : Z) : option A :=
  match o with
  | None => None
  | Some l => index l i
  end.

(** [v || 0] on a possibly missing number: [undefined] and [0] are falsy. *)
Definition or_zero (o : option Q) : Q :=
  match o with
  | Some q => if Qeq_bool q 0 then 0 else q
  | None => 0
  end.

(** [arr.reduce((a, b) => a + b, 0)]. *)
Definition sum (l : list Q) : Q := fold_left Qplus l 0.

End JsArray.

Import JsArray.

(* ===================================================================== *)
(** ** Trend classifier: [getTrend] *)
(* ===================================================================== *)

Inductive Direction : Type := up | down | flat.

(** The [change] field of a trend: the number literal [0] of the early
    return, or the string [c.toFixed(1)] of the computed change [c]. *)
Inductive Change : Type :=
  | ChangeZero
  | ChangeFixed (c : num).

Record Trend : Type := mkTrend { direction : Direction; change : Change }.

(** The text of the [change] field once it is shown. *)
Definition change_text (c : Change) : option string :=
  match c with
  | ChangeZero => Some "0"%string
  | ChangeFixed c => toFixed1 c
  end.

Definition classify (change : num) : Direction :=
  if gt change (Fin 2) then up
  else if lt change (Fin (- (2))) then down
  else flat.

(** [getTrend(data, periods)]; [None] stands for a missing [data]. *)
Definition getTrend (data : option (list Q)) (periods : Z) : Trend :=
  match data with
  | None => mkTrend flat ChangeZero
  | Some data =>
      if (Z.of_nat (List.length data) <? periods + 1)%Z
      then mkTrend flat ChangeZero
      else
        let recent :=
          div (Fin (sum (slice data (- periods)%Z None))) (Fin (inject_Z periods)) in
        let prior :=
          div (Fin (sum (slice data (- (periods * 2))%Z (Some (- periods)%Z))))
              (Fin (inject_Z periods)) in
        let change := mul (div (sub recent prior) prior) (Fin 100) in
        mkTrend (classify change) (ChangeFixed change)
  end.

(** The call [getTrend(data)] with the default [periods = 3]. *)
Definition getTrend3 (data : list Q) : Trend := getTrend (Some data) 3.

(* ===================================================================== *)
(** ** The time-series tables *)
(* ===================================================================== *)

Module Utility.
Record t : Type := mk {
  id : string; name : string; short : string; type : string; color : string
}.
End Utility.

Definition months : list string :=
  [ "Jan 24"; "Feb 24"; "Mar 24"; "Apr 24"; "May 24"; "Jun 24";
    "Jul 24"; "Aug 24"; "Sep 24"; "Oct 24"; "Nov 24"; "Dec 24";
    "Jan 25"; "Feb 25"; "Mar 25"; "Apr 25"; "May 25"; "Jun 25";
    "Jul 25"; "Aug 25"; "Sep 25" ]%string.

Definition utilities : list Utility.t :=
  [ Utility.mk "pge" "Portland General Electric" "PGE" "Electric" "#1E3A5F";
    Utility.mk "pac" "Pacific Power" "PacifiCorp" "Electric" "#DC2626";
    Utility.mk "ipco" "Idaho Power" "IPCO" "Electric" "#059669";
    Utility.mk "nwn" "NW Natural" "NWN" "Gas" "#7C3AED";
    Utility.mk "cng" "Cascade Natural Gas" "Cascade" "Gas" "#EA580C";
    Utility.mk "avista" "Avista Utilities" "Avista" "Gas" "#0891B2" ]%string.

Definition disconnections : gmap string (list Q) :=
  list_to_map [
    ("pge"%string,
      [761; 2216; 2403; 4521; 4044; 3269; 3087; 3300; 3428; 4180; 2541; 336; 365; 1376; 2610; 4600; 4753; 3138; 3871; 2088; 4081]);
    ("pac"%string,
      [3245; 2600; 2463; 3129; 2255; 2534; 1938; 2094; 2017; 2979; 1509; 850; 366; 478; 1295; 1554; 3916; 3190; 2627; 1874; 2833]);
    ("ipco"%string,
      [43; 69; 86; 55; 52; 46; 10; 57; 43; 71; 18; 12; 45; 36; 37; 72; 39; 58; 51; 47; 47]);
    ("nwn"%string,
      [590; 938; 633; 906; 1209; 869; 1058; 997; 56; 872; 646; 400; 462; 899; 1527; 1803; 999; 1426; 1594; 1023; 826]);
    ("cng"%string,
      [1; 3; 29; 62; 81; 47; 80; 98; 99; 33; 10; 5; 0; 0; 12; 92; 126; 54; 46; 26; 30]);
    ("avista"%string,
      [140; 135; 105; 187; 138; 140; 156; 100; 45; 79; 49; 72; 68; 107; 111; 114; 98; 63; 71; 47; 83]) ].

Definition accounts : gmap string (list Q) :=
  list_to_map [
    ("pge"%string,
      [822345; 824585; 825786; 826711; 828581; 829774; 830947; 832291; 831582; 833100; 834785; 835058; 835265; 837706; 838355; 839466; 839880; 840422; 840707; 841383; 841869]);
    ("pac"%string,
      [520138; 519816; 520585; 521119; 521566; 522229; 522499; 523443; 523236; 523493; 523212; 523152; 523938; 524477; 525758; 526185; 526977; 527535; 527778; 528166; 528315]);
    ("ipco"%string,
      [14641; 14603; 14639; 14649; 14704; 14656; 14681; 14684; 14698; 14711; 14683; 14716; 14700; 14686; 14695; 14690; 14742; 14764; 14765; 14808; 14812]);
    ("nwn"%string,
      [642904; 642992; 643112; 643915; 644027; 644368; 643678; 643683; 643502; 645109; 645848; 647425; 648145; 648230; 648494; 649069; 649069; 649110; 648638; 648421; 648036]);
    ("cng"%string,
      [73546; 73585; 73747; 73836; 73911; 73855; 73990; 73916; 73938; 74237; 74451; 74691; 74787; 74897; 75031; 75155; 75122; 75112; 75141; 75129; 75260]);
    ("avista"%string,
      [96285; 95323; 95334; 96344; 94870; 94982; 95090; 95019; 95055; 95226; 95547; 95669; 95727; 94361; 94525; 94450; 94325; 94206; 93140; 93110; 93103]) ].

Definition avgBill : gmap string (list Q) :=
  list_to_map [
    ("pge"%string,
      [219; 182; 163; 152; 113; 103; 123; 158; 116; 124; 128; 197; 226; 212; 190; 158; 108; 133; 126; 139; 102]);
    ("pac"%string,
      [196; 174; 166; 146; 131; 116; 136; 144; 119; 130; 139; 194; 215; 213; 175; 155; 124; 125; 146; 137; 138]);
    ("ipco"%string,
      [174; 173; 148; 110; 96; 88; 109; 125; 92; 77; 115; 164; 172; 190; 157; 112; 89; 96; 120; 117; 112]);
    ("nwn"%string,
      [140; 105; 110; 75; 60; 40; 28; 24; 26; 34; 70; 133; 146; 131; 113; 85; 54; 39; 31; 28; 28]);
    ("cng"%string,
      [144; 115; 101; 75; 55; 35; 23; 20; 21; 32; 61; 97; 113; 116; 85; 62; 40; 28; 25; 21; 23]);
    ("avista"%string,
      [104; 94; 93; 72; 55; 37; 30; 28; 30; 35; 62; 97; 104; 112; 87; 65; 46; 35; 29; 27; 28]) ].

(* ===================================================================== *)
(** ** Aggregation: [totals], [getWeightedAvgBillByMonth], [getChartData] *)
(* ===================================================================== *)

Module ChartRow.
Record t : Type := mk { month : string; value : Q }.
End ChartRow.

(** The functions below close over the module-level [utilities], [accounts]
    and [avgBill] in the source; here they take them as section variables,
    so that the statements hold for every table and every utility list. *)
Section Aggregation.

Variable utilities : list Utility.t.
Variables accounts avgBill : gmap string (list Q).

(** [obj[u.id]?.[idx] || 0] *)
Definition entry (obj : gmap string (list Q)) (uid : string) (idx : Z) : Q :=
  or_zero (opt_index (obj !! uid) idx).

Definition sumArray (obj : gmap string (list Q)) (idx : Z) : Q :=
  fold_left (fun sum u => sum + entry obj (Utility.id u) idx) utilities 0.

Definition totalAccounts (monthIdx : Z) : Q :=
  fold_left (fun sum u => sum + entry accounts (Utility.id u) monthIdx)
    utilities 0.

Definition weightedSum (monthIdx : Z) : Q :=
  fold_left
    (fun sum u =>
       let acct := entry accounts (Utility.id u) monthIdx in
       let bill := entry avgBill (Utility.id u) monthIdx in
       sum + acct * bill)
    utilities 0.

(** [avgBillWeighted] of [totals], at the month the memo is computed for. *)
Definition avgBillWeighted (currentMonth : Z) : num :=
  if Qltb 0 (totalAccounts currentMonth)
  then Math_round (div (Fin (weightedSum currentMonth))
                       (Fin (totalAccounts currentMonth)))
  else Fin 0.

(** [getWeightedAvgBillByMonth] of [trends]: the same ratio, not rounded. *)
Definition getWeightedAvgBillByMonth (monthIdx : Z) : num :=
  if Qltb 0 (totalAccounts monthIdx)
  then div (Fin (weightedSum monthIdx)) (Fin (totalAccounts monthIdx))
  else Fin 0.

(** The value of one chart row. *)
Definition chartValue (dataObj : gmap string (list Q))
    (selectedUtility : string) (i : Z) : Q :=
  if String.eqb selectedUtility "all"
  then fold_left (fun sum u => sum + entry dataObj (Utility.id u) i) utilities 0
  else entry dataObj selectedUtility i.

Definition getChartData (months : list string)
    (dataObj : gmap string (list Q)) (selectedUtility : string) : list ChartRow.t :=
  imap (fun i month => ChartRow.mk month
                         (chartValue dataObj selectedUtility (Z.of_nat i)))
       months.

End Aggregation.

Definition currentMonth : Z := 20.

(** [totals.avgBill] and [totals.disconnections] of the dashboard. *)
Definition totals_avgBill : num :=
  avgBillWeighted utilities accounts avgBill currentMonth.

Definition totals_disconnections : Q :=
  sumArray utilities disconnections currentMonth.

(** Completion of a call: it returns a value or throws.  No function of the
    modelled source contains a [throw], and the operations of the bodies
    below (arithmetic, optional chaining, [||], array methods on arrays)
    complete normally, so these calls are [Normal] completions.  The abrupt
    completions of the model are type errors: in the geographic tab the
    destructuring of a missing region, the call of [forEach] on a member of
    [geoZipData] that is not an array and the call of [cfg.format] for a
    metric that has no configuration; in the bill-discount charts and the
    export the read of an index of a missing series. *)
Inductive completion (A : Type) : Type :=
  | Normal (v : A)
  | Throw (msg : string).
Arguments Normal {A} v.
Arguments Throw {A} msg.

Definition call_sumArray (utilities : list Utility.t)
    (obj : gmap string (list Q)) (idx : Z) : completion Q :=
  Normal (sumArray utilities obj idx).

Definition call_chartValue (utilities : list Utility.t)
    (dataObj : gmap string (list Q)) (selectedUtility : string) (i : Z)
  : completion Q :=
  Normal (chartValue utilities dataObj selectedUtility i).

(* ===================================================================== *)
(** ** Geographic data *)
(* ===================================================================== *)

Module Snapshot.
Record t : Type := mk { active : Q; arrears : Q; disc : Q }.
End Snapshot.

Module GeoRecord.
Record t : Type := mk {
  zip : string; lat : Q; lng : Q;
  apr : option Snapshot.t; may : option Snapshot.t; jun : option Snapshot.t
}.
End GeoRecord.

(** [d[month]] read as a snapshot.  Under any key other than the three month
    keys the source finds no object with an [active] field, which all its
    uses treat like a missing snapshot. *)
Definition month_entry (d : GeoRecord.t) (month : string) : option Snapshot.t :=
  if String.eqb month "apr" then GeoRecord.apr d
  else if String.eqb month "may" then GeoRecord.may d
  else if String.eqb month "jun" then GeoRecord.jun d
  else None.

Module Region.
Record t : Type := mk {
  name : string; latMin : Q; latMax : Q; lngMin : Q; lngMax : Q
}.
End Region.

(** One line of the [geoZipData] literal. *)
Definition row (zip : string) (lat lng : Q)
    (a1 r1 d1 a2 r2 d2 a3 r3 d3 : Q) : GeoRecord.t :=
  GeoRecord.mk zip lat lng
    (Some (Snapshot.mk a1 r1 d1)) (Some (Snapshot.mk a2 r2 d2))
    (Some (Snapshot.mk a3 r3 d3)).

Definition geoZipData_pge : list GeoRecord.t :=
  [
    row "97003" 45.527 (-122.887)  11334 1862 69  11323 1821 84  11325 1941 68;
    row "97005" 45.492 (-122.791)  12929 2349 110  12918 2642 116  12921 2626 69;
    row "97006" 45.532 (-122.849)  19823 3084 96  20014 2912 145  20011 2963 76;
    row "97007" 45.47 (-122.846)  19861 1923 62  19886 1955 56  19906 1993 50;
    row "97008" 45.457 (-122.789)  11967 1850 73  11968 1813 86  11966 1860 50;
    row "97015" 45.403 (-122.549)  9307 1538 61  9307 1563 82  9302 1611 43;
    row "97030" 45.506 (-122.437)  15700 3428 168  15696 3363 166  15701 3522 123;
    row "97045" 45.358 (-122.579)  22990 2950 108  22985 3071 113  22992 2679 88;
    row "97080" 45.496 (-122.427)  17047 2484 79  17074 2579 107  17099 2585 75;
    row "97086" 45.448 (-122.52)  13969 2142 90  13965 2054 87  13998 2133 70;
    row "97123" 45.462 (-122.975)  19636 2101 110  19682 1922 115  19704 2082 68;
    row "97124" 45.535 (-122.957)  21879 2520 114  21876 2492 119  21879 2592 70;
    row "97202" 45.483 (-122.641)  20912 3038 74  20914 2891 93  20916 2955 58;
    row "97206" 45.474 (-122.6)  22587 3284 79  22577 3280 99  22584 3422 59;
    row "97209" 45.535 (-122.685)  16511 3774 117  16514 3758 89  16501 3869 54;
    row "97222" 45.442 (-122.62)  16093 2890 107  16102 2831 100  16117 2381 57;
    row "97223" 45.441 (-122.782)  21762 3201 108  21753 3203 123  21743 3322 97;
    row "97229" 45.558 (-122.819)  28913 2634 102  28932 2627 85  28952 2311 60;
    row "97230" 45.56 (-122.5)  15846 2821 165  15862 2613 136  15844 2785 78;
    row "97233" 45.517 (-122.5)  15703 4343 229  15697 4228 233  15684 4428 164;
    row "97236" 45.482 (-122.51)  14294 3208 183  14272 3061 148  14289 3192 116;
    row "97266" 45.482 (-122.557)  13597 2858 96  13602 2919 102  13607 3045 99;
    row "97301" 44.932 (-122.999)  20152 4868 227  20175 4753 242  20315 4846 158;
    row "97302" 44.908 (-123.034)  17894 2264 114  17888 2142 109  17891 2225 52;
    row "97305" 44.978 (-122.948)  16305 3903 163  16301 3685 200  16308 3893 119 ].

Definition geoZipData_nwn : list GeoRecord.t :=
  [
    row "97003" 45.527 (-122.887)  7027 665 29  7032 709 0  7039 689 32;
    row "97006" 45.532 (-122.849)  9418 703 26  9385 722 12  9424 713 21;
    row "97007" 45.47 (-122.846)  14541 698 25  14539 767 15  14554 758 40;
    row "97045" 45.358 (-122.579)  11607 1074 21  11585 1092 8  11593 1041 41;
    row "97080" 45.496 (-122.427)  11607 1161 43  4411 1225 0  11647 854 33;
    row "97086" 45.448 (-122.52)  9643 859 19  9566 841 18  9640 803 16;
    row "97123" 45.462 (-122.975)  12736 623 31  12742 1360 49  12763 932 21;
    row "97124" 45.535 (-122.957)  10799 428 41  10802 658 27  10812 645 20;
    row "97202" 45.483 (-122.641)  11785 893 31  5220 989 0  11774 730 9;
    row "97206" 45.474 (-122.6)  14103 1339 41  2655 1459 0  14042 941 6;
    row "97211" 45.576 (-122.638)  10561 760 49  10560 971 28  10544 850 17;
    row "97217" 45.591 (-122.693)  10683 962 33  10674 1129 31  10665 1020 39;
    row "97222" 45.442 (-122.62)  8165 856 28  7762 871 5  8133 838 5;
    row "97223" 45.441 (-122.782)  13106 820 22  13085 849 5  13124 809 34;
    row "97229" 45.558 (-122.819)  21977 1250 44  21986 1292 26  22031 1286 31;
    row "97230" 45.56 (-122.5)  9478 1103 30  8478 1152 2  9467 992 25;
    row "97301" 44.932 (-122.999)  8990 997 61  8975 1102 57  8983 1275 24;
    row "97302" 44.908 (-123.034)  10458 680 33  10426 733 2  10451 702 28;
    row "97305" 44.978 (-122.948)  7063 665 38  7038 695 24  7046 674 46 ].

Definition geoZipData_avista : list GeoRecord.t :=
  [
    row "97470" 43.22 (-123.35)  3328 527 4  3323 550 3  3320 570 2;
    row "97471" 43.28 (-123.38)  5195 430 6  5190 579 5  5180 565 3;
    row "97502" 42.3 (-122.92)  9199 1116 11  9162 1401 10  9144 1357 6;
    row "97503" 42.38 (-122.83)  6404 697 8  6406 717 7  6401 689 4;
    row "97520" 42.2 (-122.7)  13106 997 16  13097 1122 14  13115 1141 9;
    row "97524" 42.45 (-122.85)  7039 442 8  7050 468 7  7057 486 5;
    row "97527" 42.42 (-123.33)  6332 771 8  6328 804 7  6313 796 4;
    row "97530" 42.12 (-122.9)  5544 537 7  5535 539 6  5515 534 4;
    row "97601" 42.22 (-121.75)  6433 803 8  6407 783 7  6362 857 4;
    row "97603" 42.18 (-121.72)  8852 990 11  8816 1016 9  8801 986 6;
    row "97850" 45.33 (-118.08)  4853 314 6  4857 317 5  4851 334 3 ].

Definition geoZipData_cng : list GeoRecord.t :=
  [
    row "97701" 44.06 (-121.31)  10842 576 2  10821 621 14  10857 625 1;
    row "97702" 43.99 (-121.35)  14441 801 8  14446 844 18  14458 798 3;
    row "97703" 44.12 (-121.29)  10056 459 5  10056 446 3  10048 442 2;
    row "97707" 43.88 (-121.5)  3976 82 1  3983 101 0  3987 110 1;
    row "97741" 44.59 (-121.13)  1598 171 3  1599 176 6  1592 158 0;
    row "97754" 44.27 (-120.9)  2989 356 2  3004 367 3  2996 352 7;
    row "97756" 44.27 (-121.17)  9870 524 5  9879 540 11  9896 535 2;
    row "97801" 45.67 (-118.78)  4896 524 17  4883 521 23  4859 536 9;
    row "97814" 44.78 (-117.83)  3511 341 5  3509 354 6  3494 314 6;
    row "97838" 45.83 (-119.17)  4271 477 8  4262 506 12  4261 522 4;
    row "97914" 44.05 (-116.97)  2778 334 16  2763 324 11  2746 317 11 ].

Definition geoZipData_pac : list GeoRecord.t :=
  [
    row "97756" 44.27 (-121.17)  14291 2764 31  14300 2794 82  14313 2690 57;
    row "97471" 43.28 (-123.38)  10913 1963 24  10899 2645 45  10900 1960 74;
    row "97211" 45.576 (-122.638)  15281 2477 34  15342 2547 80  15348 2348 48;
    row "97351" 44.87 (-123.02)  4098 1008 17  4113 1122 37  4102 1037 22;
    row "97701" 44.06 (-121.31)  14440 2592 21  14497 2508 61  14518 2446 26;
    row "97520" 42.2 (-122.7)  2030 350 2  2032 346 8  2040 330 4;
    row "97527" 42.42 (-123.33)  16394 3526 48  16375 3445 134  16399 3175 68;
    row "97530" 42.12 (-122.9)  4056 706 4  4044 684 31  4043 675 10;
    row "97525" 42.43 (-123.0)  2542 631 9  2549 597 17  2543 578 14;
    row "97212" 45.546 (-122.643)  11954 1682 17  11978 1704 56  11991 1619 32;
    row "97504" 42.35 (-122.85)  21326 3898 70  21335 5239 108  21359 3808 213;
    row "97470" 43.22 (-123.35)  9661 2539 30  9652 2453 124  9641 2369 43;
    row "97138" 46.0 (-123.92)  7030 1254 28  7025 1252 42  7032 1254 23;
    row "97601" 42.22 (-121.75)  11714 2576 67  11703 2785 69  11720 2538 151;
    row "97540" 42.12 (-122.82)  3785 683 8  3818 672 39  3800 659 7;
    row "97031" 45.68 (-121.52)  6684 904 12  6687 927 18  6675 854 20;
    row "97217" 45.591 (-122.693)  5907 1068 15  5921 1107 35  5965 1002 41;
    row "97338" 44.97 (-123.35)  9557 1986 11  9574 1991 40  9537 1827 30;
    row "97367" 44.88 (-124.02)  7553 1296 19  7578 1291 45  7566 1243 23;
    row "97524" 42.45 (-122.85)  6983 1664 31  6999 1584 82  7016 1504 23;
    row "97501" 42.33 (-122.87)  19469 4844 90  19520 4640 178  19540 4340 201;
    row "97703" 44.12 (-121.29)  14183 1178 11  14206 1486 24  14247 1186 18;
    row "97321" 44.65 (-123.07)  12830 2183 24  12834 2274 57  12879 1930 75;
    row "97333" 44.55 (-123.25)  9981 1636 23  10042 1731 61  10139 1630 35;
    row "97702" 43.99 (-121.35)  20298 2867 26  20390 2853 89  20424 2693 70;
    row "97330" 44.58 (-123.27)  14260 1892 23  14290 2008 35  14531 1811 56;
    row "97754" 44.27 (-120.9)  7879 1724 30  7879 1793 51  7878 1679 55;
    row "97526" 42.45 (-123.32)  16814 3630 40  16806 3852 62  16870 3286 158;
    row "97801" 45.67 (-118.78)  8943 2282 30  8962 2184 93  8956 2094 48;
    row "97503" 42.38 (-122.83)  4668 1469 15  4689 1404 68  4686 1299 29;
    row "97322" 44.63 (-123.1)  14414 3771 35  14445 3675 129  14433 3389 58;
    row "97502" 42.3 (-122.92)  12616 2597 31  12609 2456 81  12626 2326 99;
    row "97603" 42.18 (-121.72)  14095 3479 67  14100 3426 122  14087 3297 110;
    row "97103" 46.18 (-123.83)  8590 1417 11  8609 1611 33  8619 1461 41;
    row "97213" 45.538 (-122.6)  11324 1462 13  11400 1759 42  11384 1542 25 ].

Definition geoZipData_ipco : list GeoRecord.t :=
  [
    row "97834" 44.98 (-117.17)  661 34 0  660 48 0  661 36 0;
    row "97870" 44.77 (-117.18)  434 23 0  436 32 0  437 31 1;
    row "97901" 43.88 (-117.03)  377 36 0  379 36 1  377 40 1;
    row "97907" 44.15 (-117.42)  378 43 1  382 51 0  383 42 2;
    row "97910" 43.12 (-117.02)  368 30 1  382 34 1  382 27 0;
    row "97913" 44.02 (-116.97)  2274 388 10  2294 366 6  2289 356 7;
    row "97914" 44.05 (-116.97)  7106 1223 41  7117 1171 22  7132 1110 35;
    row "97918" 43.97 (-117.25)  1993 270 18  1996 238 9  2003 241 10 ].

Definition geoZipData : gmap string (list GeoRecord.t) :=
  list_to_map [
    ("pge"%string, geoZipData_pge);
    ("nwn"%string, geoZipData_nwn);
    ("avista"%string, geoZipData_avista);
    ("cng"%string, geoZipData_cng);
    ("pac"%string, geoZipData_pac);
    ("ipco"%string, geoZipData_ipco) ].

Definition geoRegions : gmap string Region.t :=
  list_to_map [
    ("statewide"%string, Region.mk "🗺️ Entire State" 41.95 46.30 (-124.60) (-116.45));
    ("portland"%string, Region.mk "Portland Metro" 45.30 45.75 (-123.15) (-122.25));
    ("salem"%string, Region.mk "Salem/Albany" 44.10 45.30 (-123.85) (-122.35));
    ("southern"%string, Region.mk "Southern Oregon" 41.95 43.70 (-124.20) (-120.80));
    ("central"%string, Region.mk "Central Oregon" 43.40 45.00 (-122.10) (-119.70));
    ("coast"%string, Region.mk "Oregon Coast" 44.10 46.30 (-124.25) (-123.30));
    ("eastern"%string, Region.mk "Eastern Oregon" 41.95 46.05 (-120.10) (-116.85)) ].

(* ===================================================================== *)
(** ** The geographic view *)
(* ===================================================================== *)

(** An element of [allGeoData]: [{ ...d, utility: uk, value }]. *)
Module GeoPoint.
Record t : Type := mk { rec : GeoRecord.t; utility : string; value : Q }.
End GeoPoint.

(** An element of [filteredGeoData]: [{ ...d, x, y }]. *)
Module Projected.
Record t : Type := mk { pt : GeoPoint.t; x : num; y : num }.
End Projected.

Module Hsl.
Record t : Type := mk { hue : Z; saturation : Z; lightness : num }.
End Hsl.

(** [Array.prototype.sort(cmp)]: the specification requires a stable sort,
    and for a comparator that orders its arguments consistently the result
    is then determined; insertion from the right computes it.  [x] goes
    before [y] when [cmp x y <= 0]. *)
Fixpoint sort_insert {A : Type} (cmp : A -> A -> Q) (x : A) (l : list A) : list A :=
  match l with
  | [] => [x]
  | y :: l' => if Qle_bool (cmp x y) 0 then x :: y :: l'
               else y :: sort_insert cmp x l'
  end.

Definition Array_sort {A : Type} (cmp : A -> A -> Q) (l : list A) : list A :=
  fold_right (sort_insert cmp) [] l.

(** [Math.min(...l)] and [Math.max(...l)]. *)
Definition Math_min (l : list Q) : num :=
  match l with
  | [] => PInf
  | v :: vs => Fin (fold_left Qmin vs v)
  end.

Definition Math_max (l : list Q) : num :=
  match l with
  | [] => NInf
  | v :: vs => Fin (fold_left Qmax vs v)
  end.

Definition mapWidth : Q := 850.
Definition mapHeight : Q := 520.

Definition getGeoMetricValue (data : GeoRecord.t) (month metric : string) : Q :=
  match month_entry data month with
  | None => 0
  | Some d =>
      if Qeq_bool (Snapshot.active d) 0 then 0
      else if String.eqb metric "arrears_rate" then
        (if Qltb 0 (Snapshot.active d)
         then Snapshot.arrears d / Snapshot.active d * 100 else 0)
      else if String.eqb metric "disc_rate" then
        (if Qltb 0 (Snapshot.active d)
         then Snapshot.disc d / Snapshot.active d * 100 else 0)
      else if String.eqb metric "arrears_count" then Snapshot.arrears d
      else if String.eqb metric "disconnections" then Snapshot.disc d
      else 0
  end.

(** What the tab computes for one selection of the four controls. *)
Module GeoView.
Record t : Type := mk {
  all : list GeoPoint.t;
  filtered : list Projected.t;
  minVal : num;
  maxVal : num;
  top : list GeoPoint.t
}.
End GeoView.

(** The names every object literal inherits from [Object.prototype].  A
    lookup [obj[k]] under one of them, when [obj] has no property of its own
    called [k], yields the inherited member: a function, or the prototype
    itself for [__proto__]; each is truthy and none is an array. *)
Definition Object_prototype_keys : list string :=
  [ "constructor"; "__defineGetter__"; "__defineSetter__"; "hasOwnProperty";
    "__lookupGetter__"; "__lookupSetter__"; "isPrototypeOf";
    "propertyIsEnumerable"; "toString"; "valueOf"; "__proto__";
    "toLocaleString" ]%string.

Definition inherited (k : string) : bool :=
  existsb (String.eqb k) Object_prototype_keys.

(** [geoMetricConfig]: the label and the number format of each metric. *)
Module MetricConfig.
Inductive format : Type :=
  | Percent (digits : nat)   (* [v.toFixed(digits) + '%'] *)
  | Count.                   (* [v.toLocaleString()] *)
Record t : Type := mk { label : string; fmt : format }.
End MetricConfig.

Definition geoMetricConfig : gmap string MetricConfig.t :=
  list_to_map
    [ ("arrears_rate"%string,
       MetricConfig.mk "Arrears Rate (%)" (MetricConfig.Percent 1));
      ("disc_rate"%string,
       MetricConfig.mk "Disconnection Rate (%)" (MetricConfig.Percent 2));
      ("arrears_count"%string,
       MetricConfig.mk "Accounts in Arrears" MetricConfig.Count);
      ("disconnections"%string,
       MetricConfig.mk "Disconnections" MetricConfig.Count) ].

(** The tab body mutates one array, [allGeoData] ([push] in the loops, then
    [sort] in place); a computation of the body threads the content of that
    array, and either returns a value or throws.  What was pushed before a
    throw stays in the array.  [filter], [map] and [slice] only read their
    receiver. *)
Definition GeoM (A : Type) : Type :=
  list GeoPoint.t -> completion A * list GeoPoint.t.

Definition ret {A : Type} (a : A) : GeoM A := fun s => (Normal a, s).

Definition throw {A : Type} (msg : string) : GeoM A := fun s => (Throw msg, s).

Definition bind {A B : Type} (m : GeoM A) (k : A -> GeoM B) : GeoM B :=
  fun s => match m s with
           | (Normal a, s') => k a s'
           | (Throw msg, s') => (Throw msg, s')
           end.

Notation "x <- m ;; k" := (bind m (fun x => k))
  (at level 100, m at next level, right associativity).
Notation "m ;;; k" := (bind m (fun _ => k))
  (at level 100, right associativity).

Definition push (p : GeoPoint.t) : GeoM unit :=
  fun s => (Normal tt, s ++ [p]).

Definition sort_in_place (cmp : GeoPoint.t -> GeoPoint.t -> Q) : GeoM unit :=
  fun s => (Normal tt, Array_sort cmp s).

Definition read {A : Type} (f : list GeoPoint.t -> A) : GeoM A :=
  fun s => (Normal (f s), s).

Fixpoint forEach {A : Type} (l : list A) (f : A -> GeoM unit) : GeoM unit :=
  match l with
  | [] => ret tt
  | a :: l' => f a ;;; forEach l' f
  end.

(** The body of the geographic tab.  [bounds] is [geoRegions[geoRegion]]. *)
Section GeographicView.

Variable geoZipData : gmap string (list GeoRecord.t).
Variables geoMonth geoMetric geoUtility geoRegion : string.
Variable bounds : Region.t.

Let latMin := Region.latMin bounds.
Let latMax := Region.latMax bounds.
Let lngMin := Region.lngMin bounds.
Let lngMax := Region.lngMax bounds.

Definition xScale (lng : Q) : num :=
  add (mul (div (sub (Fin lng) (Fin lngMin)) (sub (Fin lngMax) (Fin lngMin)))
           (sub (Fin mapWidth) (Fin 60)))
      (Fin 30).

Definition yScale (lat : Q) : num :=
  sub (sub (Fin mapHeight) (Fin 30))
      (mul (div (sub (Fin lat) (Fin latMin)) (sub (Fin latMax) (Fin latMin)))
           (sub (Fin mapHeight) (Fin 60))).

Definition utilKeys : list string :=
  if String.eqb geoUtility "all"
  then [ "pge"; "nwn"; "avista"; "cng"; "pac"; "ipco" ]%string
  else [ geoUtility ].

(** [d[geoMonth]?.active > 20] *)
Definition enough_accounts (d : GeoRecord.t) : bool :=
  match month_entry d geoMonth with
  | Some s => Qltb 20 (Snapshot.active s)
  | None => false
  end.

(** The loops [utilKeys.forEach(uk => ... geoZipData[uk].forEach(d => ...))]
    that fill [allGeoData].  [geoZipData !! uk] is the table's own property
    [uk].  Without one, [geoZipData[uk]] is [undefined] and the test skips
    the key, unless [uk] names an inherited member: that one passes the
    test, and calling its [forEach] throws. *)
Definition collect : GeoM unit :=
  forEach utilKeys
    (fun uk =>
       match geoZipData !! uk with
       | Some ds =>
           forEach ds
             (fun d =>
                if enough_accounts d
                then push (GeoPoint.mk d uk (getGeoMetricValue d geoMonth geoMetric))
                else ret tt)
       | None =>
           if inherited uk
           then throw "TypeError: geoZipData[uk].forEach is not a function"
           else ret tt
       end).

(** [allGeoData] after the loops, started from [let allGeoData = []]. *)
Definition allGeoData_pushed : list GeoPoint.t := snd (collect []).

(** [allGeoData] from [allGeoData.sort((a, b) => b.value - a.value)] on. *)
Definition allGeoData : list GeoPoint.t :=
  snd (sort_in_place (fun a b => GeoPoint.value b - GeoPoint.value a)
         allGeoData_pushed).

Definition in_bounds (d : GeoPoint.t) : bool :=
  Qle_bool latMin (GeoRecord.lat (GeoPoint.rec d))
  && Qle_bool (GeoRecord.lat (GeoPoint.rec d)) latMax
  && Qle_bool lngMin (GeoRecord.lng (GeoPoint.rec d))
  && Qle_bool (GeoRecord.lng (GeoPoint.rec d)) lngMax.

Definition filteredGeoData : list Projected.t :=
  List.map
    (fun d => Projected.mk d (xScale (GeoRecord.lng (GeoPoint.rec d)))
                             (yScale (GeoRecord.lat (GeoPoint.rec d))))
    (List.filter in_bounds allGeoData).

Definition geoValues : list Q :=
  List.filter (fun v => Qltb 0 v) (List.map GeoPoint.value allGeoData).

Definition geoMinVal : num :=
  if (List.length geoValues =? 0)%nat then Fin 0 else Math_min geoValues.

Definition geoMaxVal : num :=
  if (List.length geoValues =? 0)%nat then Fin 1 else Math_max geoValues.

(** The normalised position [t] of [getGeoColor]. *)
Definition geoColor_t (value : num) : num :=
  if gt geoMaxVal geoMinVal
  then div (sub value geoMinVal) (sub geoMaxVal geoMinVal)
  else Fin 0.

Definition getGeoColor (value : num) (util : string) : Hsl.t :=
  let t := geoColor_t value in
  let l := sub (Fin 82) (mul t (Fin 42)) in
  if String.eqb util "pge" then Hsl.mk 142 65 l
  else if String.eqb util "nwn" then Hsl.mk 217 80 l
  else if String.eqb util "avista" then Hsl.mk 25 85 l
  else if String.eqb util "cng" then Hsl.mk 271 70 l
  else if String.eqb util "ipco" then Hsl.mk 188 85 l
  else Hsl.mk 0 70 l.

Definition isStatewide : bool := String.eqb geoRegion "statewide".

(** The rows of the "Top by" list:
    [(isStatewide ? allGeoData : filteredGeoData).slice(0, 50)].  A row shows
    the ZIP code, the utility and the value of its point. *)
Definition ranking : list GeoPoint.t :=
  if isStatewide then slice allGeoData 0 (Some 50%Z)
  else List.map Projected.pt (slice filteredGeoData 0 (Some 50%Z)).

(** The statements of the tab body in order, as one computation. *)
Definition geoTab : GeoM GeoView.t :=
  collect ;;;
  sort_in_place (fun a b => GeoPoint.value b - GeoPoint.value a) ;;;
  filtered <- read (fun all =>
      List.map
        (fun d => Projected.mk d (xScale (GeoRecord.lng (GeoPoint.rec d)))
                                 (yScale (GeoRecord.lat (GeoPoint.rec d))))
        (List.filter in_bounds all)) ;;
  values <- read (fun all =>
      List.filter (fun v => Qltb 0 v) (List.map GeoPoint.value all)) ;;
  let minVal := if (List.length values =? 0)%nat then Fin 0 else Math_min values in
  let maxVal := if (List.length values =? 0)%nat then Fin 1 else Math_max values in
  top <- (if isStatewide then read (fun all => slice all 0 (Some 50%Z))
          else ret (List.map Projected.pt (slice filtered 0 (Some 50%Z)))) ;;
  all <- read (fun all => all) ;;
  ret (GeoView.mk all filtered minVal maxVal top).

End GeographicView.

(** The tab reads [geoRegions[geoRegion]] first; the destructuring of a
    missing region throws.  (Under an inherited name the destructuring
    passes and the tab throws later, when the element maps over the member
    found in [geoCities]; the model reports the first failure for both.)
    Then the body runs.  The element it returns shows [cfg.label] and calls
    [cfg.format] in the legend, with [cfg = geoMetricConfig[geoMetric]]: a
    metric without configuration throws there, since [undefined] has no
    [label] and an inherited member has no [format].  The message of a
    [Throw] names the failing operation; it is not the text of an engine. *)
Definition geographicView (geoZipData : gmap string (list GeoRecord.t))
    (geoRegions : gmap string Region.t)
    (geoMonth geoMetric geoUtility geoRegion : string) : completion GeoView.t :=
  match geoRegions !! geoRegion with
  | None => Throw "TypeError: cannot destructure property of undefined"
  | Some bounds =>
      match fst (geoTab geoZipData geoMonth geoMetric geoUtility geoRegion
                   bounds []) with
      | Throw msg => Throw msg
      | Normal view =>
          match geoMetricConfig !! geoMetric with
          | Some cfg => Normal view
          | None =>
              if inherited geoMetric
              then Throw "TypeError: cfg.format is not a function"
              else Throw "TypeError: cannot read properties of undefined"
          end
      end
  end.

(** The selection for which the loops throw: one utility key that the table
    does not have but every object inherits. *)
Definition collect_throws (data : gmap string (list GeoRecord.t))
    (util : string) : bool :=
  negb (String.eqb util "all")
  && match data !! util with Some _ => false | None => inherited util end.

(** The projector applied to one location: both coordinates. *)
Definition call_project (bounds : Region.t) (lat lng : Q) : completion (num * num) :=
  Normal (xScale bounds lng, yScale bounds lat).

(* ===================================================================== *)
(** ** Ranking order and colour population in the specification's words *)
(* ===================================================================== *)

(** Descending by metric value, ties broken by ZIP code ascending. *)
Definition spec_rank_before (a b : GeoPoint.t) : bool :=
  Qltb (GeoPoint.value b) (GeoPoint.value a)
  || (Qeq_bool (GeoPoint.value a) (GeoPoint.value b)
      && String.leb (GeoRecord.zip (GeoPoint.rec a))
                    (GeoRecord.zip (GeoPoint.rec b))).

(** Every element stands in [R] to every later one. *)
Fixpoint sortedb {A : Type} (R : A -> A -> bool) (l : list A) : bool :=
  match l with
  | [] => true
  | a :: l' => forallb (R a) l' && sortedb R l'
  end.

(** The positive metric values of the visible (region-filtered) points. *)
Definition spec_visible_values (filtered : list Projected.t) : list Q :=
  List.filter (fun v => Qltb 0 v)
    (List.map (fun d => GeoPoint.value (Projected.pt d)) filtered).

Definition spec_minVal (filtered : list Projected.t) : num :=
  if (List.length (spec_visible_values filtered) =? 0)%nat then Fin 0
  else Math_min (spec_visible_values filtered).

Definition spec_maxVal (filtered : list Projected.t) : num :=
  if (List.length (spec_visible_values filtered) =? 0)%nat then Fin 1
  else Math_max (spec_visible_values filtered).

(** A normalised position inside the closed unit interval. *)
Definition in_unit_interval (t : num) : bool :=
  match t with
  | Fin q => Qle_bool 0 q && Qle_bool q 1
  | _ => false
  end.

(** The Σ of the formulas: a sum over a list of terms. *)
Definition Qsum (l : list Q) : Q := fold_right Qplus 0 l.

(** [n] is the integer nearest to [q], the upper one when two are. *)
Definition nearest_integer (n : Z) (q : Q) : Prop :=
  inject_Z n - (1 # 2) <= q /\ q < inject_Z n + (1 # 2).

(** The record of a point has a snapshot for the month, with strictly more
    than 20 active accounts. *)
Definition has_accounts (month : string) (p : GeoPoint.t) : Prop :=
  exists s : Snapshot.t,
    month_entry (GeoPoint.rec p) month = Some s /\ 20 < Snapshot.active s.

(** The points a record contributes to [allGeoData] under a utility key. *)
Definition points_of (month metric uk : string) (d : GeoRecord.t) : list GeoPoint.t :=
  if enough_accounts month d
  then [ GeoPoint.mk d uk (getGeoMetricValue d month metric) ]
  else [].

(** The location of a record lies in the bounding box, sides included. *)
Definition inside_box (b : Region.t) (d : GeoRecord.t) : Prop :=
  Region.latMin b <= GeoRecord.lat d /\ GeoRecord.lat d <= Region.latMax b /\
  Region.lngMin b <= GeoRecord.lng d /\ GeoRecord.lng d <= Region.lngMax b.

(** A bounding box with positive width and height. *)
Definition nondegenerate (b : Region.t) : Prop :=
  Region.latMin b < Region.latMax b /\ Region.lngMin b < Region.lngMax b.

(** Two bounding boxes used in the examples: the Portland entry of
    [geoRegions], and a box of zero height. *)
Definition portland_bounds : Region.t :=
  Region.mk "Portland Metro" 45.30 45.75 (-123.15) (-122.25).

Definition flat_region : Region.t := Region.mk "flat" 45 45 (-123) (-122).

(** A table used in the examples: the one record of [geoZipData] that has no
    disconnection in any of the three months. *)
Definition quiet_table : gmap string (list GeoRecord.t) :=
  list_to_map
    [ ("ipco"%string,
       [ row "97834" 44.98 (-117.17)  661 34 0  660 48 0  661 36 0 ]) ].

(* ===================================================================== *)
(** ** Further definitions *)
(* ===================================================================== *)

(** *** The trend indicator of the arrears tab *)

(** [getAvg(arr, start, count)]: the sum of the slice over [count]. *)
Definition getAvg (arr : list Q) (start count : Z) : num :=
  div (Fin (sum (slice arr start (Some (start + count)%Z))))
      (Fin (inject_Z count)).

Definition recentMonths : Z := 3.

(** [custChange] and [balChange], as computed from their series. *)
Definition tabChange (data : list Q) : num :=
  let len := Z.of_nat (List.length data) in
  let recent := getAvg data (len - recentMonths)%Z recentMonths in
  let prior := getAvg data (len - recentMonths * 2)%Z recentMonths in
  mul (div (sub recent prior) prior) (Fin 100).

Module TrendIcon.
Record t : Type := mk { icon : string; color : string; text : string }.
End TrendIcon.

Definition getTrendIcon (change : num) : TrendIcon.t :=
  if gt change (Fin 2) then TrendIcon.mk "↑" "#DC2626" "Trending Up"
  else if lt change (Fin (- (2))) then TrendIcon.mk "↓" "#059669" "Trending Down"
  else TrendIcon.mk "→" "#6B7280" "Flat".

(** *** The offset of markers that share a ZIP code *)

(** The offset added to [d.x] for the element [d] at position [idx] of
    [filteredGeoData].  The elements are fresh objects, so
    [sameZip.indexOf(d)] is the number of elements of the same ZIP code
    before position [idx]. *)
Definition markerOffset (isStatewide : bool) (filteredGeoData : list Projected.t)
    (idx : nat) (d : Projected.t) : Q :=
  let same (x : Projected.t) :=
    String.eqb (GeoRecord.zip (GeoPoint.rec (Projected.pt x)))
               (GeoRecord.zip (GeoPoint.rec (Projected.pt d))) in
  let sameZip := List.filter same filteredGeoData in
  let zipIdx := List.length (List.filter same (firstn idx filteredGeoData)) in
  if (1 <? List.length sameZip)%nat
  then (inject_Z (Z.of_nat zipIdx)
        - (inject_Z (Z.of_nat (List.length sameZip)) - 1) / 2)
       * (if isStatewide then 6 else 12)
  else 0.

(** The centre of the marker on the horizontal axis: [cx = d.x + offset]. *)
Definition markerCx (isStatewide : bool) (filteredGeoData : list Projected.t)
    (idx : nat) (d : Projected.t) : num :=
  add (Projected.x d) (Fin (markerOffset isStatewide filteredGeoData idx d)).

(** The records of one ZIP code have one location. *)
Definition one_location_per_zip (l : list GeoRecord.t) : bool :=
  forallb
    (fun a =>
       forallb
         (fun b =>
            implb (String.eqb (GeoRecord.zip a) (GeoRecord.zip b))
                  (Qeq_bool (GeoRecord.lat a) (GeoRecord.lat b)
                   && Qeq_bool (GeoRecord.lng a) (GeoRecord.lng b)))
         l)
    l.

(** *** Electric and gas account totals of [totals] *)

Definition electricUtils : list string := [ "pge"; "pac"; "ipco" ]%string.
Definition gasUtils : list string := [ "nwn"; "cng"; "avista" ]%string.

Definition electricAccounts (accounts : gmap string (list Q)) (currentMonth : Z) : Q :=
  fold_left (fun sum u => sum + entry accounts u currentMonth) electricUtils 0.

Definition gasAccounts (accounts : gmap string (list Q)) (currentMonth : Z) : Q :=
  fold_left (fun sum u => sum + entry accounts u currentMonth) gasUtils 0.

(** *** Bill-discount rates by utility *)

Definition billDiscountDisconnections : gmap string (list Q) :=
  list_to_map [
    ("pge"%string,
      [266; 833; 908; 1653; 1534; 1257; 1236; 1318; 1292; 1483; 857; 95; 0; 0; 0; 1182; 2054; 1440; 1752; 1001; 1822]);
    ("pac"%string,
      [264; 265; 268; 288; 263; 265; 249; 245; 262; 262; 225; 153; 219; 222; 330; 364; 420; 393; 995; 708; 1016]);
    ("nwn"%string,
      [217; 342; 238; 362; 494; 322; 425; 408; 25; 380; 281; 169; 176; 371; 620; 756; 397; 559; 614; 436; 327]);
    ("avista"%string,
      [10; 20; 15; 30; 23; 16; 24; 17; 7; 18; 11; 14; 10; 20; 15; 30; 23; 16; 26; 16; 17]);
    ("cng"%string,
      [0; 0; 5; 16; 28; 13; 29; 41; 39; 13; 3; 1; 0; 0; 1; 29; 47; 12; 6; 1; 1]);
    ("ipco"%string,
      [0; 0; 0; 0; 0; 0; 0; 0; 0; 0; 0; 0; 1; 1; 2; 2; 0; 1; 0; 0; 0]) ].

Definition billDiscountParticipants : gmap string (list Q) :=
  list_to_map [
    ("avista"%string,
      [7864; 8307; 8454; 9694; 9910; 8803; 10139; 10123; 9034; 10444; 9397; 11009; 10912; 10287; 11365; 11401; 11343; 11268; 11145; 10996; 10855]);
    ("pge"%string,
      [63969; 67475; 77393; 82662; 84925; 85445; 85446; 85781; 85796; 85982; 84412; 87592; 89009; 91879; 95225; 97757; 99074; 99769; 100371; 99848; 101371]);
    ("pac"%string,
      [43831; 45761; 47412; 48698; 50349; 48877; 51379; 53740; 51420; 59601; 54802; 61842; 64169; 64734; 68895; 70482; 71505; 72194; 68294; 71194; 66673]);
    ("ipco"%string,
      [0; 0; 0; 0; 0; 0; 0; 0; 0; 0; 3; 222; 726; 897; 1113; 1246; 1314; 1378; 1408; 1429; 1451]);
    ("nwn"%string,
      [35217; 37323; 38842; 39862; 40491; 40636; 40710; 41040; 41272; 43418; 42839; 43298; 44446; 45084; 45634; 46254; 39548; 46396; 46268; 46007; 46107]);
    ("cng"%string,
      [3547; 3781; 3975; 4063; 4077; 4073; 4082; 4072; 4035; 3845; 3925; 4067; 4236; 4421; 4524; 4617; 4640; 4637; 4615; 4620; 4641]) ].

Definition billDiscountParticipantsWithArrears : gmap string (list Q) :=
  list_to_map [
    ("pge"%string,
      [19897; 19584; 20376; 21440; 22766; 23571; 22211; 22799; 24328; 22225; 23534; 24566; 22906; 27639; 29613; 24800; 25542; 26290; 26621; 26934; 28618]);
    ("pac"%string,
      [17121; 18286; 18978; 19485; 20391; 19590; 19988; 19968; 18894; 21162; 18854; 21652; 25262; 25880; 29210; 30020; 30366; 28742; 27702; 26124; 24694]);
    ("nwn"%string,
      [7876; 8433; 8863; 8806; 9082; 9249; 8982; 8974; 9018; 9660; 9486; 9522; 9963; 10466; 10190; 10457; 8994; 9835; 10063; 10304; 9939]);
    ("avista"%string,
      [2104; 1997; 2138; 2206; 2291; 2403; 2313; 2441; 2347; 2284; 2368; 2396; 2256; 2156; 2321; 2395; 2491; 2468; 2412; 2470; 2325]);
    ("cng"%string,
      [1086; 1225; 1305; 1318; 1297; 1311; 1305; 1200; 1217; 1068; 1096; 1266; 1298; 1315; 1459; 1461; 1513; 1501; 1482; 1544; 1538]);
    ("ipco"%string,
      [0; 0; 0; 0; 0; 0; 0; 0; 0; 0; 1; 40; 155; 160; 200; 196; 185; 145; 167; 213; 176]) ].

(** [obj[uid][i]]: reading an index of a missing series throws.  Under a
    name that [obj] lacks but inherits, the member found has no element at
    any index and the read gives [undefined]. *)
Definition strict_index (obj : gmap string (list Q)) (uid : string) (i : Z)
  : completion (option Q) :=
  match obj !! uid with
  | Some series => Normal (index series i)
  | None =>
      if inherited uid then Normal None
      else Throw "TypeError: cannot read properties of undefined"
  end.

(** [v || 1] on a possibly missing number. *)
Definition or_one (o : option Q) : Q :=
  match o with
  | Some q => if Qeq_bool q 0 then 1 else q
  | None => 1
  end.

Fixpoint mapM {A B : Type} (f : A -> completion B) (l : list A)
  : completion (list B) :=
  match l with
  | [] => Normal []
  | a :: l' =>
      match f a with
      | Throw e => Throw e
      | Normal b =>
          match mapM f l' with
          | Throw e => Throw e
          | Normal bs => Normal (b :: bs)
          end
      end
  end.

Module RateRow.
Record t : Type := mk { name : string; rate : num; color : string }.
End RateRow.

(** One bar of "Disconnection Rate for Bill Discount Participants". *)
Definition bdDiscRateRow (billDiscountDisconnections billDiscountParticipants
                          : gmap string (list Q))
    (currentMonth : Z) (u : Utility.t) : completion RateRow.t :=
  match strict_index billDiscountDisconnections (Utility.id u) currentMonth with
  | Throw e => Throw e
  | Normal d =>
      match strict_index billDiscountParticipants (Utility.id u) currentMonth with
      | Throw e => Throw e
      | Normal p =>
          let discCount := or_zero d in
          let partCount := or_one p in
          Normal (RateRow.mk (Utility.short u)
                    (mul (div (Fin discCount) (Fin partCount)) (Fin 100))
                    (Utility.color u))
      end
  end.

Module BarRow.
Record t : Type := mk { name : string; rate : Q; color : string }.
End BarRow.

(** One bar of "Bill Discount Arrears Rate".  [totalPart] is [v || 1],
    never zero, so the quotient is the rational one. *)
Definition bdArrearsRateRow (billDiscountParticipantsWithArrears
                             billDiscountParticipants : gmap string (list Q))
    (currentMonth : Z) (u : Utility.t) : completion BarRow.t :=
  match strict_index billDiscountParticipantsWithArrears (Utility.id u) currentMonth with
  | Throw e => Throw e
  | Normal w =>
      match strict_index billDiscountParticipants (Utility.id u) currentMonth with
      | Throw e => Throw e
      | Normal p =>
          let withArrears := or_zero w in
          let totalPart := or_one p in
          Normal (BarRow.mk (Utility.short u)
                    (if Qltb 0 withArrears then withArrears / totalPart * 100 else 0)
                    (Utility.color u))
      end
  end.

(** The data of the chart:
    [utilities.map(...).filter(d => d.rate > 0).sort((a, b) => b.rate - a.rate)]. *)
Definition bdArrearsRateChart (utilities : list Utility.t)
    (billDiscountParticipantsWithArrears billDiscountParticipants
     : gmap string (list Q))
    (currentMonth : Z) : completion (list BarRow.t) :=
  match mapM (bdArrearsRateRow billDiscountParticipantsWithArrears
                billDiscountParticipants currentMonth) utilities with
  | Throw e => Throw e
  | Normal rows =>
      Normal (Array_sort (fun a b => BarRow.rate b - BarRow.rate a)
                (List.filter (fun d => Qltb 0 (BarRow.rate d)) rows))
  end.

(** *** [formatCurrency] *)

(** [x >= y]; false when either side is [NaN]. *)
Definition num_ge (x y : num) : bool :=
  match x, y with
  | NaN, _ | _, NaN => false
  | Fin a, Fin b => Qle_bool b a
  | PInf, _ => true
  | _, NInf => true
  | _, _ => false
  end.

(** [Number.prototype.toFixed(0)]: the sign, then the digits of the integer
    nearest to the magnitude (the larger one on a tie); as for [toFixed1],
    [None] from [1e21] on. *)
Definition toFixed0 (x : num) : option string :=
  match x with
  | NaN => Some "NaN"%string
  | PInf => Some "Infinity"%string
  | NInf => Some "-Infinity"%string
  | Fin q =>
      let a := Qabs q in
      if Qle_bool (inject_Z (10 ^ 21)) a then None
      else
        let n := Qfloor (a + (1 # 2)) in
        let body := NilZero.string_of_uint (N.to_uint (Z.to_N n)) in
        Some (if Qltb q 0 then String.append "-" body else body)
  end.

(** [formatCurrency(val)]; [None] as argument stands for a missing value,
    for which both comparisons are false and [val?.toFixed(0) || 0] is [0].
    A string made by [toFixed] is never empty, so [||] keeps it. *)
Definition formatCurrency (val : option num) : option string :=
  match val with
  | None => Some "$0"%string
  | Some v =>
      if num_ge v (Fin 1000000) then
        option_map (fun s => String.append "$" (String.append s "M"))
                   (toFixed1 (div v (Fin 1000000)))
      else if num_ge v (Fin 1000) then
        option_map (fun s => String.append "$" (String.append s "K"))
                   (toFixed0 (div v (Fin 1000)))
      else option_map (fun s => String.append "$" s) (toFixed0 v)
  end.

(** *** The "Active Accounts" sheet of the export *)

Inductive Cell : Type :=
  | CText (s : string)
  | CNumber (q : Q)
  | CUndefined.

Definition cell_of (o : option Q) : Cell :=
  match o with
  | Some q => CNumber q
  | None => CUndefined
  end.

(** One data row: [[month, ...utilities.map(u => accounts[u.id][i])]]. *)
Definition accountsRow (utilities : list Utility.t)
    (accounts : gmap string (list Q)) (im : nat * string)
  : completion (list Cell) :=
  match mapM (fun u =>
                match strict_index accounts (Utility.id u) (Z.of_nat (fst im)) with
                | Throw e => Throw e
                | Normal c => Normal (cell_of c)
                end)
             utilities with
  | Throw e => Throw e
  | Normal cells => Normal (CText (snd im) :: cells)
  end.

(** [accountsData]: a title row, an empty row, the header and one row per
    month. *)
Definition accountsData (utilities : list Utility.t) (months : list string)
    (accounts : gmap string (list Q)) : completion (list (list Cell)) :=
  match mapM (accountsRow utilities accounts)
             (imap (fun i month => (i, month)) months) with
  | Throw e => Throw e
  | Normal rows =>
      Normal ([ CText "Active Residential Accounts by Utility" ]
              :: []
              :: (CText "Month" :: List.map (fun u => CText (Utility.name u)) utilities)
              :: rows)
  end.

(* ===================================================================== *)
(** * Properties *)
(* ===================================================================== *)

(** ** Numbers *)

Lemma Qltb_lt (a b : Q) : Qltb a b = true <-> a < b.
Proof.
  unfold Qltb. rewrite Bool.negb_true_iff.
  split.
  - intros H. apply Qnot_le_lt. intros Hle.
    apply Qle_bool_iff in Hle. congruence.
  - intros H. destruct (Qle_bool b a) eqn:E; [|reflexivity].
    apply Qle_bool_iff in E. lra.
Qed.

Lemma Qltb_ge (a b : Q) : Qltb a b = false <-> b <= a.
Proof.
  unfold Qltb. rewrite Bool.negb_false_iff. apply Qle_bool_iff.
Qed.

Lemma Qeq_bool_false (a b : Q) : Qeq_bool a b = false <-> ~ a == b.
Proof.
  split.
  - intros H Heq. apply Qeq_bool_iff in Heq. congruence.
  - intros H. destruct (Qeq_bool a b) eqn:E; [|reflexivity].
    apply Qeq_bool_iff in E. contradiction.
Qed.

(** A division by a non-zero divisor is the rational quotient. *)
Lemma Qdiv_js_nonzero (a b : Q) : ~ b == 0 -> Qdiv_js a b = Fin (a / b).
Proof.
  intros H. unfold Qdiv_js.
  apply Qeq_bool_false in H. rewrite H. reflexivity.
Qed.

(** A division by zero is never finite. *)
Lemma Qdiv_js_zero (a b : Q) : b == 0 -> is_finite (Qdiv_js a b) = false.
Proof.
  intros H. unfold Qdiv_js.
  apply Qeq_bool_iff in H. rewrite H.
  destruct (Qltb 0 a); [reflexivity|]. destruct (Qltb a 0); reflexivity.
Qed.

Lemma Qdiv_js_zero_zero (a b : Q) : a == 0 -> b == 0 -> Qdiv_js a b = NaN.
Proof.
  intros Ha Hb. unfold Qdiv_js.
  apply Qeq_bool_iff in Hb. rewrite Hb.
  assert (H1 : Qltb 0 a = false) by (apply Qltb_ge; lra).
  assert (H2 : Qltb a 0 = false) by (apply Qltb_ge; lra).
  rewrite H1, H2. reflexivity.
Qed.

Lemma Math_round_nearest (q : Q) :
  nearest_integer (Qfloor (q + (1 # 2))) q.
Proof.
  unfold nearest_integer.
  pose proof (Qfloor_le (q + (1 # 2))) as Hle.
  pose proof (Qlt_floor (q + (1 # 2))) as Hlt.
  rewrite inject_Z_plus in Hlt. change (inject_Z 1) with 1 in Hlt.
  split; lra.
Qed.

(** ** Sums *)

Lemma fold_left_Qsum {A : Type} (f : A -> Q) (l : list A) (a : Q) :
  fold_left (fun s u => s + f u) l a == a + Qsum (List.map f l).
Proof.
  revert a. induction l as [|x l IH]; intros a; simpl.
  - lra.
  - rewrite IH. lra.
Qed.

Section AggregationFacts.

Variable us : list Utility.t.
Variables accts bills : gmap string (list Q).
Variable m : Z.

Let w (u : Utility.t) : Q := entry accts (Utility.id u) m.
Let v (u : Utility.t) : Q := entry bills (Utility.id u) m.

Lemma totalAccounts_Qsum :
  totalAccounts us accts m == Qsum (List.map w us).
Proof.
  transitivity (0 + Qsum (List.map w us)).
  - exact (fold_left_Qsum w us 0).
  - lra.
Qed.

Lemma weightedSum_Qsum :
  weightedSum us accts bills m == Qsum (List.map (fun u => w u * v u) us).
Proof.
  transitivity (0 + Qsum (List.map (fun u => w u * v u) us)).
  - exact (fold_left_Qsum (fun u => w u * v u) us 0).
  - lra.
Qed.

(** C1.  The customer-weighted average bill is Σ(accounts × bill) /
    Σ(accounts) over the utilities, with the active-account counts of the
    month as weights; the figure shown in [totals] is that ratio rounded to
    the nearest integer; both are 0 when the account sum is 0, and both are
    finite numbers whatever the tables hold. *)
Theorem weighted_average_bill :
  let W := Qsum (List.map w us) in
  let S := Qsum (List.map (fun u => w u * v u) us) in
  (0 < W ->
   exists (q : Q) (n : Z),
     getWeightedAvgBillByMonth us accts bills m = Fin q /\ q == S / W /\
     avgBillWeighted us accts bills m = Fin (inject_Z n) /\
     nearest_integer n (S / W))
  /\ (W == 0 ->
      getWeightedAvgBillByMonth us accts bills m = Fin 0 /\
      avgBillWeighted us accts bills m = Fin 0)
  /\ is_finite (getWeightedAvgBillByMonth us accts bills m) = true
  /\ is_finite (avgBillWeighted us accts bills m) = true.
Proof.
  intros W S.
  pose proof totalAccounts_Qsum as HW. fold W in HW.
  pose proof weightedSum_Qsum as HS. fold S in HS.
  unfold getWeightedAvgBillByMonth, avgBillWeighted.
  destruct (Qltb 0 (totalAccounts us accts m)) eqn:E.
  - apply Qltb_lt in E.
    assert (Hnz : ~ totalAccounts us accts m == 0) by lra.
    change (div (Fin (weightedSum us accts bills m))
                (Fin (totalAccounts us accts m)))
      with (Qdiv_js (weightedSum us accts bills m) (totalAccounts us accts m)).
    rewrite (Qdiv_js_nonzero _ _ Hnz).
    assert (Hq : weightedSum us accts bills m / totalAccounts us accts m == S / W).
    { rewrite HS, HW. reflexivity. }
    split; [|split; [|split; reflexivity]].
    + intros _.
      exists (weightedSum us accts bills m / totalAccounts us accts m).
      eexists.
      split; [reflexivity|]. split; [exact Hq|]. split; [reflexivity|].
      pose proof (Math_round_nearest
                    (weightedSum us accts bills m / totalAccounts us accts m)) as Hn.
      unfold nearest_integer in *. lra.
    + intros HW0. lra.
  - apply Qltb_ge in E.
    split; [|split; [|split; reflexivity]].
    + intros HW0. lra.
    + intros _. split; reflexivity.
Qed.

End AggregationFacts.

(** The statewide figure of the dashboard: $83 in September 2025. *)
Lemma weighted_average_bill_witness :
  0 < Qsum (List.map (fun u => entry accounts (Utility.id u) 20) utilities) /\
  exists (q : Q) (n : Z),
    getWeightedAvgBillByMonth utilities accounts avgBill 20 = Fin q /\
    q == Qsum (List.map (fun u => entry accounts (Utility.id u) 20
                                  * entry avgBill (Utility.id u) 20) utilities)
         / Qsum (List.map (fun u => entry accounts (Utility.id u) 20) utilities) /\
    avgBillWeighted utilities accounts avgBill 20 = Fin (inject_Z n) /\
    nearest_integer n
      (Qsum (List.map (fun u => entry accounts (Utility.id u) 20
                                * entry avgBill (Utility.id u) 20) utilities)
       / Qsum (List.map (fun u => entry accounts (Utility.id u) 20) utilities)).
Proof.
  assert (H : 0 < Qsum (List.map (fun u => entry accounts (Utility.id u) 20) utilities))
    by (vm_compute; reflexivity).
  split; [exact H|].
  exact (proj1 (weighted_average_bill utilities accounts avgBill 20) H).
Defined.

Example totals_avgBill_value : totals_avgBill = Fin 83.
Proof. vm_compute. reflexivity. Qed.

(** The scenario of two utilities of very different size. *)
Example weighted_average_two_utilities :
  let us := [ Utility.mk "A" "Utility A" "A" "Electric" "#111111";
              Utility.mk "B" "Utility B" "B" "Gas" "#222222" ]%string in
  let accts : gmap string (list Q) :=
    list_to_map [ ("A"%string, [1000000]); ("B"%string, [10000]) ] in
  let bills : gmap string (list Q) :=
    list_to_map [ ("A"%string, [100]); ("B"%string, [200]) ] in
  eqv (getWeightedAvgBillByMonth us accts bills 0) (Fin (10200 # 101)) /\
  avgBillWeighted us accts bills 0 = Fin 101.
Proof. vm_compute. split; reflexivity. Qed.

(** ** Slices *)

Lemma slice_last (A : Type) (pre tail : list A) :
  (0 < List.length tail)%nat ->
  slice (pre ++ tail) (- Z.of_nat (List.length tail))%Z None = tail.
Proof.
  intros Hpos. unfold slice. rewrite length_app.
  replace (- Z.of_nat (List.length tail) <? 0)%Z with true
    by (symmetry; apply Z.ltb_lt; lia).
  replace (Z.max (Z.of_nat (List.length pre + List.length tail)
                  + - Z.of_nat (List.length tail)) 0)%Z
    with (Z.of_nat (List.length pre)) by lia.
  rewrite Nat2Z.id.
  replace (Z.to_nat (Z.of_nat (List.length pre + List.length tail)
                     - Z.of_nat (List.length pre))%Z)
    with (List.length tail) by lia.
  rewrite skipn_app, skipn_all, Nat.sub_diag, skipn_O. simpl.
  apply firstn_all.
Qed.

Lemma slice_before_last (A : Type) (pre mid tail : list A) :
  (0 < List.length mid)%nat -> (0 < List.length tail)%nat ->
  slice (pre ++ mid ++ tail)
        (- Z.of_nat (List.length mid + List.length tail))%Z
        (Some (- Z.of_nat (List.length tail))%Z) = mid.
Proof.
  intros Hmid Htail. unfold slice. rewrite !length_app.
  replace (- Z.of_nat (List.length mid + List.length tail) <? 0)%Z with true
    by (symmetry; apply Z.ltb_lt; lia).
  replace (- Z.of_nat (List.length tail) <? 0)%Z with true
    by (symmetry; apply Z.ltb_lt; lia).
  replace (Z.max (Z.of_nat (List.length pre + (List.length mid + List.length tail))
                  + - Z.of_nat (List.length mid + List.length tail)) 0)%Z
    with (Z.of_nat (List.length pre)) by lia.
  replace (Z.max (Z.of_nat (List.length pre + (List.length mid + List.length tail))
                  + - Z.of_nat (List.length tail)) 0 - Z.of_nat (List.length pre))%Z
    with (Z.of_nat (List.length mid)) by lia.
  rewrite !Nat2Z.id.
  rewrite skipn_app, skipn_all, Nat.sub_diag, skipn_O. simpl.
  rewrite firstn_app, firstn_all, Nat.sub_diag. simpl.
  apply app_nil_r.
Qed.

Lemma slice_top (A : Type) (l : list A) (n : nat) :
  slice l 0%Z (Some (Z.of_nat n)) = firstn n l.
Proof.
  unfold slice. change (0 <? 0)%Z with false. cbv iota.
  assert (E : (Z.of_nat n <? 0)%Z = false) by (apply Z.ltb_ge; lia).
  rewrite E, (Z.min_l 0) by lia.
  change (Z.to_nat 0) with 0%nat. rewrite skipn_O, Z.sub_0_r.
  destruct (Nat.le_gt_cases n (List.length l)) as [Hle|Hgt].
  - rewrite Z.min_l by lia. rewrite Nat2Z.id. reflexivity.
  - rewrite Z.min_r by lia.
    rewrite Nat2Z.id, firstn_all. symmetry. apply firstn_all2. lia.
Qed.

(** ** The trend classifier *)

(** The early return: a series of fewer than four values. *)
Lemma getTrend3_under_four (data : list Q) :
  (List.length data < 4)%nat -> getTrend3 data = mkTrend flat ChangeZero.
Proof.
  intros H. unfold getTrend3, getTrend.
  replace (Z.of_nat (List.length data) <? 3 + 1)%Z with true
    by (symmetry; apply Z.ltb_lt; lia).
  reflexivity.
Qed.

(** With six values or more the two windows are the last three values and
    the three before them, and the change is their relative difference. *)
Lemma getTrend3_six_or_more (pre : list Q) (a b c d e f : Q) :
  getTrend3 (pre ++ [a; b; c; d; e; f]) =
  let recent := Fin ((0 + d + e + f) / 3) in
  let change :=
    mul (div (sub recent (Fin ((0 + a + b + c) / 3))) (Fin ((0 + a + b + c) / 3)))
        (Fin 100) in
  mkTrend (classify change) (ChangeFixed change).
Proof.
  unfold getTrend3, getTrend.
  replace (Z.of_nat (List.length (pre ++ [a; b; c; d; e; f])) <? 3 + 1)%Z
    with false by (symmetry; apply Z.ltb_ge; rewrite length_app; simpl; lia).
  assert (H1 : slice (pre ++ [a; b; c; d; e; f]) (-3)%Z None = [d; e; f]).
  { pose proof (slice_last Q (pre ++ [a; b; c]) [d; e; f]) as H.
    rewrite <- app_assoc in H. apply H. simpl. lia. }
  assert (H2 : slice (pre ++ [a; b; c; d; e; f]) (-6)%Z (Some (-3)%Z) = [a; b; c]).
  { apply (slice_before_last Q pre [a; b; c] [d; e; f]); simpl; lia. }
  change (- (3))%Z with (-3)%Z. change (- (3 * 2))%Z with (-6)%Z.
  rewrite H1, H2. reflexivity.
Qed.

(** A prior window that sums to zero: the change is not a finite number. *)
Lemma getTrend3_prior_zero (pre : list Q) (a b c d e f : Q) :
  0 + a + b + c == 0 ->
  exists ch : num,
    change (getTrend3 (pre ++ [a; b; c; d; e; f])) = ChangeFixed ch /\
    is_finite ch = false.
Proof.
  intros H0. rewrite getTrend3_six_or_more. cbv zeta. simpl change.
  eexists. split; [reflexivity|].
  assert (Hp : (0 + a + b + c) / 3 == 0) by (rewrite H0; reflexivity).
  simpl sub. simpl div.
  pose proof (Qdiv_js_zero ((0 + d + e + f) / 3 - (0 + a + b + c) / 3) _ Hp) as Hd.
  destruct (Qdiv_js _ _); simpl in Hd; try discriminate; reflexivity.
Qed.

(** C2.  The series [0, 0, 0, 5, 5, 5] has prior mean 0; the classifier
    divides by it, reports the direction up and the change [Infinity]. *)
Theorem getTrend_prior_mean_zero :
  direction (getTrend3 [0; 0; 0; 5; 5; 5]) = up /\
  change (getTrend3 [0; 0; 0; 5; 5; 5]) = ChangeFixed PInf /\
  change_text (change (getTrend3 [0; 0; 0; 5; 5; 5])) = Some "Infinity"%string.
Proof. vm_compute. repeat split; reflexivity. Qed.

Example getTrend_all_zero :
  direction (getTrend3 [0; 0; 0; 0; 0; 0]) = flat /\
  change (getTrend3 [0; 0; 0; 0; 0; 0]) = ChangeFixed NaN.
Proof. vm_compute. split; reflexivity. Qed.

(** C3.  The constant series [1, 1, 1, 1, 1] has five values: the early
    return does not take it, the prior window holds two values whose sum is
    divided by three, and the classifier reports up, "50.0". *)
Theorem getTrend_five_values :
  direction (getTrend3 [1; 1; 1; 1; 1]) = up /\
  change_text (change (getTrend3 [1; 1; 1; 1; 1])) = Some "50.0"%string /\
  slice [1; 1; 1; 1; 1] (-6)%Z (Some (-3)%Z) = [1; 1].
Proof. vm_compute. repeat split; reflexivity. Qed.

Example getTrend_four_values :
  direction (getTrend3 [1; 1; 1; 1]) = up /\
  change_text (change (getTrend3 [1; 1; 1; 1])) = Some "200.0"%string.
Proof. vm_compute. split; reflexivity. Qed.

Example getTrend_spec_scenario :
  let t := getTrend3 [100; 100; 100; 100; 100; 100; 130; 130; 130] in
  direction t = up /\ change_text (change t) = Some "30.0"%string.
Proof. vm_compute. split; reflexivity. Qed.

(** ** Sorting by a descending key *)

Section SortFacts.

Context {A : Type}.
Variable key : A -> Q.

Let cmp (a b : A) : Q := key b - key a.
Let desc (a b : A) : Prop := key b <= key a.

Lemma sort_insert_perm (x : A) (l : list A) :
  Permutation (sort_insert cmp x l) (x :: l).
Proof.
  induction l as [|y l IH]; simpl.
  - apply Permutation_refl.
  - destruct (Qle_bool (cmp x y) 0).
    + apply Permutation_refl.
    + eapply perm_trans; [apply perm_skip, IH | apply perm_swap].
Qed.

Lemma Array_sort_perm (l : list A) : Permutation (Array_sort cmp l) l.
Proof.
  induction l as [|x l IH]; simpl.
  - apply perm_nil.
  - eapply perm_trans; [apply sort_insert_perm | apply perm_skip, IH].
Qed.

Lemma sort_insert_sorted (x : A) (l : list A) :
  StronglySorted desc l -> StronglySorted desc (sort_insert cmp x l).
Proof.
  induction l as [|y l IH]; intros Hs; simpl.
  - constructor; [constructor | constructor].
  - inversion Hs as [|y' l' Hs' Hall]; subst.
    destruct (Qle_bool (cmp x y)) eqn:E.
    + apply Qle_bool_iff in E. unfold cmp in E.
      constructor; [exact Hs|].
      constructor.
      * unfold desc. lra.
      * eapply List.Forall_impl; [|exact Hall].
        intros z Hz. unfold desc in *. lra.
    + assert (Hlt : key x < key y).
      { destruct (Qlt_le_dec (key x) (key y)) as [H|H]; [exact H|].
        assert (Hle : cmp x y <= 0) by (unfold cmp; lra).
        apply Qle_bool_iff in Hle. congruence. }
      constructor; [apply IH; exact Hs'|].
      eapply Permutation_Forall.
      * apply Permutation_sym, sort_insert_perm.
      * constructor; [unfold desc; lra | exact Hall].
Qed.

Lemma Array_sort_sorted (l : list A) : StronglySorted desc (Array_sort cmp l).
Proof.
  induction l as [|x l IH]; simpl.
  - constructor.
  - apply sort_insert_sorted, IH.
Qed.

(** Stability: the elements of one key value keep their relative order. *)
Lemma sort_insert_stable (v : Q) (x : A) (l : list A) :
  List.filter (fun p => Qeq_bool (key p) v) (sort_insert cmp x l)
  = List.filter (fun p => Qeq_bool (key p) v) (x :: l).
Proof.
  induction l as [|y l IH].
  - reflexivity.
  - cbn [sort_insert].
    destruct (Qle_bool (cmp x y) 0) eqn:E; [reflexivity|].
    assert (Hlt : key x < key y).
    { destruct (Qlt_le_dec (key x) (key y)) as [H|H]; [exact H|].
      assert (Hle : cmp x y <= 0) by (unfold cmp; lra).
      apply Qle_bool_iff in Hle. congruence. }
    cbn [List.filter] in *. rewrite IH.
    destruct (Qeq_bool (key x) v) eqn:Ex; [|reflexivity].
    apply Qeq_bool_iff in Ex.
    assert (Ey : Qeq_bool (key y) v = false) by (apply Qeq_bool_false; lra).
    rewrite Ey. reflexivity.
Qed.

Lemma Array_sort_stable (v : Q) (l : list A) :
  List.filter (fun p => Qeq_bool (key p) v) (Array_sort cmp l)
  = List.filter (fun p => Qeq_bool (key p) v) l.
Proof.
  induction l as [|x l IH].
  - reflexivity.
  - cbn [Array_sort fold_right]. rewrite sort_insert_stable.
    cbn [List.filter]. fold (Array_sort cmp l). rewrite IH. reflexivity.
Qed.

Lemma sorted_filter (f : A -> bool) (l : list A) :
  StronglySorted desc l -> StronglySorted desc (List.filter f l).
Proof.
  induction 1 as [|x l Hs IH Hall]; simpl.
  - constructor.
  - destruct (f x); [|exact IH].
    constructor; [exact IH|].
    apply List.Forall_forall. intros z Hz. apply filter_In in Hz.
    rewrite List.Forall_forall in Hall. apply Hall. tauto.
Qed.

Lemma sorted_firstn (n : nat) (l : list A) :
  StronglySorted desc l -> StronglySorted desc (firstn n l).
Proof.
  intros Hs. revert n. induction Hs as [|x l Hs IH Hall]; intros [|n]; simpl;
    try constructor.
  - apply IH.
  - apply List.Forall_forall. intros z Hz.
    rewrite List.Forall_forall in Hall. apply Hall.
    rewrite <- (firstn_skipn n l). apply in_or_app. left. exact Hz.
Qed.

End SortFacts.

(** ** The geographic tab *)

Lemma forEach_pushes {A : Type} (g : A -> list GeoPoint.t) (f : A -> GeoM unit) :
  forall l,
    (forall a, In a l -> forall s, f a s = (Normal tt, s ++ g a)) ->
    forall s, forEach l f s = (Normal tt, s ++ flat_map g l).
Proof.
  induction l as [|a l IH]; intros Hf s; simpl.
  - unfold ret. rewrite app_nil_r. reflexivity.
  - unfold bind. rewrite (Hf a (or_introl eq_refl)).
    rewrite IH, <- app_assoc; [reflexivity|].
    intros b Hb. apply Hf. right. exact Hb.
Qed.

Section GeoFacts.

Variable data : gmap string (list GeoRecord.t).
Variables month metric util region : string.
Variable bounds : Region.t.

Let by_value (a b : GeoPoint.t) : Q := GeoPoint.value b - GeoPoint.value a.

Lemma enough_accounts_spec (d : GeoRecord.t) (uk : string) (v : Q) :
  enough_accounts month d = true <-> has_accounts month (GeoPoint.mk d uk v).
Proof.
  unfold enough_accounts, has_accounts. simpl.
  destruct (month_entry d month) as [s|].
  - rewrite Qltb_lt. split.
    + intros H. exists s. split; [reflexivity | exact H].
    + intros [s' [Hs' H]]. injection Hs' as <-. exact H.
  - split; [discriminate|]. intros [s' [Hs' _]]. discriminate.
Qed.

Lemma records_pushed (uk : string) (ds : list GeoRecord.t) (s : list GeoPoint.t) :
  forEach ds
    (fun d => if enough_accounts month d
              then push (GeoPoint.mk d uk (getGeoMetricValue d month metric))
              else ret tt) s
  = (Normal tt, s ++ flat_map (points_of month metric uk) ds).
Proof.
  apply forEach_pushes. intros d _ s'. unfold points_of.
  destruct (enough_accounts month d); unfold push, ret.
  - reflexivity.
  - rewrite app_nil_r. reflexivity.
Qed.

(** The loops run from the empty array: they throw for an inherited key,
    before anything is pushed, and otherwise collect, utility by utility and
    record by record, the points of the records that pass the account
    test. *)
Lemma collect_run :
  collect data month metric util [] =
  ((if collect_throws data util
    then Throw "TypeError: geoZipData[uk].forEach is not a function"
    else Normal tt),
   flat_map
     (fun uk => match data !! uk with
                | Some ds => flat_map (points_of month metric uk) ds
                | None => []
                end)
     (utilKeys util)).
Proof.
  unfold collect, collect_throws, utilKeys.
  destruct (String.eqb util "all") eqn:Hall; simpl negb; cbv beta iota.
  - rewrite andb_false_l.
    rewrite (forEach_pushes
               (fun uk => match data !! uk with
                          | Some ds => flat_map (points_of month metric uk) ds
                          | None => []
                          end)); [reflexivity|].
    intros uk Huk s. destruct (data !! uk) as [ds|].
    + apply records_pushed.
    + assert (Hi : inherited uk = false).
      { simpl in Huk.
        repeat (destruct Huk as [<-|Huk]; [reflexivity|]). contradiction. }
      rewrite Hi. unfold ret. rewrite app_nil_r. reflexivity.
  - rewrite andb_true_l. simpl forEach. unfold bind. simpl flat_map.
    destruct (data !! util) as [ds|].
    + rewrite records_pushed. unfold ret. rewrite app_nil_r. reflexivity.
    + destruct (inherited util); reflexivity.
Qed.

Lemma allGeoData_pushed_eq :
  allGeoData_pushed data month metric util =
  flat_map
    (fun uk => match data !! uk with
               | Some ds => flat_map (points_of month metric uk) ds
               | None => []
               end)
    (utilKeys util).
Proof. unfold allGeoData_pushed. rewrite collect_run. reflexivity. Qed.

Lemma allGeoData_eq :
  allGeoData data month metric util =
  Array_sort by_value (allGeoData_pushed data month metric util).
Proof. reflexivity. Qed.

Lemma allGeoData_perm :
  Permutation (allGeoData data month metric util)
              (allGeoData_pushed data month metric util).
Proof. rewrite allGeoData_eq. apply (Array_sort_perm GeoPoint.value). Qed.

Lemma allGeoData_sorted :
  StronglySorted (fun a b => GeoPoint.value b <= GeoPoint.value a)
                 (allGeoData data month metric util).
Proof. rewrite allGeoData_eq. apply (Array_sort_sorted GeoPoint.value). Qed.

Lemma filteredGeoData_points :
  List.map Projected.pt (filteredGeoData data month metric util bounds)
  = List.filter (in_bounds bounds) (allGeoData data month metric util).
Proof.
  unfold filteredGeoData. rewrite List.map_map. simpl. apply List.map_id.
Qed.

(** The whole body run from the empty array: the view it produces, and the
    content of [allGeoData] when it ends. *)
Lemma geoTab_run :
  geoTab data month metric util region bounds [] =
  ((if collect_throws data util
    then Throw "TypeError: geoZipData[uk].forEach is not a function"
    else Normal
           (GeoView.mk (allGeoData data month metric util)
                       (filteredGeoData data month metric util bounds)
                       (geoMinVal data month metric util)
                       (geoMaxVal data month metric util)
                       (ranking data month metric util region bounds))),
   allGeoData data month metric util).
Proof.
  assert (Hc : collect data month metric util []
               = ((if collect_throws data util
                   then Throw "TypeError: geoZipData[uk].forEach is not a function"
                   else Normal tt),
                  allGeoData_pushed data month metric util)).
  { rewrite allGeoData_pushed_eq. apply collect_run. }
  destruct (collect_throws data util) eqn:Ht.
  - assert (Hp : allGeoData_pushed data month metric util = []).
    { rewrite allGeoData_pushed_eq. unfold collect_throws in Ht.
      apply andb_prop in Ht. destruct Ht as [Hall Hk].
      unfold utilKeys. destruct (String.eqb util "all"); [discriminate|].
      simpl. destruct (data !! util); [discriminate | reflexivity]. }
    unfold geoTab, bind. rewrite Hc.
    unfold allGeoData. rewrite Hp. reflexivity.
  - unfold geoTab, bind. rewrite Hc.
    unfold sort_in_place, read, ret, ranking.
    destruct (isStatewide region); reflexivity.
Qed.

Lemma pushed_has_accounts :
  Forall (has_accounts month) (allGeoData_pushed data month metric util).
Proof.
  rewrite allGeoData_pushed_eq.
  apply List.Forall_forall. intros p Hp.
  apply in_flat_map in Hp. destruct Hp as [uk [_ Hp]].
  destruct (data !! uk) as [ds|]; [|contradiction].
  apply in_flat_map in Hp. destruct Hp as [d [_ Hp]].
  unfold points_of in Hp.
  destruct (enough_accounts month d) eqn:E; [|contradiction].
  destruct Hp as [<-|[]]. apply enough_accounts_spec. exact E.
Qed.

Lemma ranking_incl (p : GeoPoint.t) :
  In p (ranking data month metric util region bounds) ->
  In p (allGeoData data month metric util).
Proof.
  unfold ranking. destruct (isStatewide region).
  - rewrite (slice_top _ _ 50). intros H.
    rewrite <- (firstn_skipn 50 (allGeoData data month metric util)).
    apply in_or_app. left. exact H.
  - rewrite (slice_top _ _ 50), <- firstn_map, filteredGeoData_points.
    intros H.
    assert (Hin : In p (List.filter (in_bounds bounds)
                          (allGeoData data month metric util))).
    { rewrite <- (firstn_skipn 50 (List.filter _ _)).
      apply in_or_app. left. exact H. }
    apply filter_In in Hin. tauto.
Qed.

End GeoFacts.

(** C10.  Every point of the active geographic set comes from a record
    whose snapshot for the selected month exists and counts strictly more
    than 20 active accounts; so do the projected points, the rows of the
    ranking and the values of the colour-scale population.  A record with at
    most 20 active accounts, or without a snapshot for the month, is in none
    of them. *)
Theorem geographic_outputs_need_accounts
    (data : gmap string (list GeoRecord.t))
    (month metric util region : string) (bounds : Region.t) :
  Forall (has_accounts month) (allGeoData data month metric util) /\
  Forall (fun d => has_accounts month (Projected.pt d))
         (filteredGeoData data month metric util bounds) /\
  Forall (has_accounts month) (ranking data month metric util region bounds) /\
  Forall (fun v => exists p : GeoPoint.t,
                     In p (allGeoData data month metric util) /\
                     has_accounts month p /\ GeoPoint.value p = v)
         (geoValues data month metric util).
Proof.
  assert (Hall : Forall (has_accounts month) (allGeoData data month metric util)).
  { eapply Permutation_Forall.
    - apply Permutation_sym, allGeoData_perm.
    - apply pushed_has_accounts. }
  pose proof Hall as Hin. rewrite List.Forall_forall in Hin.
  split; [exact Hall|]. split; [|split].
  - apply List.Forall_forall. intros d Hd.
    apply Hin.
    assert (Hp : In (Projected.pt d)
                   (List.map Projected.pt
                      (filteredGeoData data month metric util bounds)))
      by (apply in_map; exact Hd).
    rewrite filteredGeoData_points in Hp. apply filter_In in Hp. tauto.
  - apply List.Forall_forall. intros p Hp.
    apply Hin. eapply ranking_incl. exact Hp.
  - apply List.Forall_forall. intros v Hv.
    unfold geoValues in Hv. apply filter_In in Hv. destruct Hv as [Hv _].
    apply in_map_iff in Hv. destruct Hv as [p [Hpv Hp]].
    exists p. split; [exact Hp|]. split; [apply Hin; exact Hp | exact Hpv].
Qed.

(** Conversely, a record that passes the test under a selected utility key
    is in the active set. *)
Lemma records_with_accounts_included
    (data : gmap string (list GeoRecord.t))
    (month metric util uk : string) (ds : list GeoRecord.t) (d : GeoRecord.t) :
  In uk (utilKeys util) -> data !! uk = Some ds -> In d ds ->
  enough_accounts month d = true ->
  In (GeoPoint.mk d uk (getGeoMetricValue d month metric))
     (allGeoData data month metric util).
Proof.
  intros Huk Hds Hd He.
  eapply Permutation_in; [apply Permutation_sym, allGeoData_perm|].
  rewrite allGeoData_pushed_eq. apply in_flat_map.
  exists uk. split; [exact Huk|]. rewrite Hds.
  apply in_flat_map. exists d. split; [exact Hd|].
  unfold points_of. rewrite He. left. reflexivity.
Qed.

Example allGeoData_june_size :
  List.length (allGeoData geoZipData "jun" "arrears_rate" "all") = 109%nat.
Proof. vm_compute. reflexivity. Qed.

(** C4, as stated: with Pacific Power, April and the disconnection count,
    ZIP 97333 is ranked immediately before ZIP 97330, both with 23
    disconnections, so the ranking is not in the order of value descending
    and then ZIP ascending. *)
Lemma ranking_ties_not_by_zip :
  exists v : GeoView.t,
    geographicView geoZipData geoRegions "apr" "disconnections" "pac" "statewide"
      = Normal v /\
    List.map (fun p => (GeoRecord.zip (GeoPoint.rec p), GeoPoint.value p))
             (firstn 2 (skipn 18 (GeoView.top v)))
      = [ ("97333"%string, 23); ("97330"%string, 23) ] /\
    sortedb spec_rank_before (GeoView.top v) = false.
Proof.
  eexists. split; [reflexivity|]. vm_compute. split; reflexivity.
Qed.

(** C4, amended.  The ranking is in descending order of the metric value;
    points of equal value stay in the order in which they were collected
    (utility by utility, then in the order of the data table), whatever
    their ZIP codes; the list shown is the first 50 points of the sorted set
    (of its part inside the region, off the statewide view); and taking it
    leaves the array as the sort left it, with every collected point. *)
Theorem ranking_descending_stable
    (data : gmap string (list GeoRecord.t))
    (month metric util region : string) (bounds : Region.t) :
  StronglySorted (fun a b => GeoPoint.value b <= GeoPoint.value a)
                 (ranking data month metric util region bounds) /\
  (forall v : Q,
     List.filter (fun p => Qeq_bool (GeoPoint.value p) v)
                 (allGeoData data month metric util)
     = List.filter (fun p => Qeq_bool (GeoPoint.value p) v)
                   (allGeoData_pushed data month metric util)) /\
  ranking data month metric util region bounds
    = firstn 50 (if isStatewide region
                 then allGeoData data month metric util
                 else List.filter (in_bounds bounds)
                                  (allGeoData data month metric util)) /\
  allGeoData_pushed data month metric util
    = flat_map
        (fun uk => match data !! uk with
                   | Some ds => flat_map (points_of month metric uk) ds
                   | None => []
                   end)
        (utilKeys util) /\
  snd (geoTab data month metric util region bounds [])
    = allGeoData data month metric util /\
  Permutation (allGeoData data month metric util)
              (allGeoData_pushed data month metric util).
Proof.
  assert (Hrank : ranking data month metric util region bounds
                  = firstn 50 (if isStatewide region
                               then allGeoData data month metric util
                               else List.filter (in_bounds bounds)
                                      (allGeoData data month metric util))).
  { unfold ranking. destruct (isStatewide region).
    - apply (slice_top _ _ 50).
    - rewrite (slice_top _ _ 50), <- firstn_map, filteredGeoData_points.
      reflexivity. }
  split; [|split; [|split; [exact Hrank|split; [apply allGeoData_pushed_eq|split]]]].
  - rewrite Hrank. apply (sorted_firstn GeoPoint.value).
    destruct (isStatewide region).
    + apply allGeoData_sorted.
    + apply (sorted_filter GeoPoint.value), allGeoData_sorted.
  - intros v. rewrite allGeoData_eq.
    apply (Array_sort_stable GeoPoint.value).
  - rewrite geoTab_run. reflexivity.
  - apply allGeoData_perm.
Qed.

(** ** The colour scale *)

Lemma fold_Qmin_spec (vs : list Q) (v : Q) :
  In (fold_left Qmin vs v) (v :: vs) /\
  forall x, In x (v :: vs) -> fold_left Qmin vs v <= x.
Proof.
  revert v. induction vs as [|a vs IH]; intros v; simpl.
  - split; [left; reflexivity|]. intros x [<-|[]]. lra.
  - destruct (IH (Qmin v a)) as [Hin Hle]. split.
    + destruct Hin as [Hm|Hm]; [|right; right; exact Hm].
      rewrite <- Hm. unfold Qmin, GenericMinMax.gmin.
      destruct (v ?= a); [left | left | right; left]; reflexivity.
    + intros x [<-|[<-|Hx]].
      * eapply Qle_trans; [apply Hle; left; reflexivity | apply Q.le_min_l].
      * eapply Qle_trans; [apply Hle; left; reflexivity | apply Q.le_min_r].
      * apply Hle. right. exact Hx.
Qed.

Lemma fold_Qmax_spec (vs : list Q) (v : Q) :
  In (fold_left Qmax vs v) (v :: vs) /\
  forall x, In x (v :: vs) -> x <= fold_left Qmax vs v.
Proof.
  revert v. induction vs as [|a vs IH]; intros v; simpl.
  - split; [left; reflexivity|]. intros x [<-|[]]. lra.
  - destruct (IH (Qmax v a)) as [Hin Hle]. split.
    + destruct Hin as [Hm|Hm]; [|right; right; exact Hm].
      rewrite <- Hm. unfold Qmax, GenericMinMax.gmax.
      destruct (v ?= a); [left | right; left | left]; reflexivity.
    + intros x [<-|[<-|Hx]].
      * eapply Qle_trans; [apply Q.le_max_l | apply Hle; left; reflexivity].
      * eapply Qle_trans; [apply Q.le_max_r | apply Hle; left; reflexivity].
      * apply Hle. right. exact Hx.
Qed.

Section ScaleFacts.

Variable data : gmap string (list GeoRecord.t).
Variables month metric util : string.

Lemma geoValues_positive (v : Q) :
  In v (geoValues data month metric util) -> 0 < v.
Proof.
  unfold geoValues. intros H. apply filter_In in H.
  apply Qltb_lt. tauto.
Qed.

Lemma geoValues_of_points (p : GeoPoint.t) :
  In p (allGeoData data month metric util) -> 0 < GeoPoint.value p ->
  In (GeoPoint.value p) (geoValues data month metric util).
Proof.
  intros Hp Hpos. unfold geoValues. apply filter_In. split.
  - apply in_map. exact Hp.
  - apply Qltb_lt. exact Hpos.
Qed.

(** The two ends of the scale: the least and the greatest positive value of
    the sorted set, or 0 and 1 when it has no positive value. *)
Lemma geo_scale_ends :
  exists lo hi : Q,
    geoMinVal data month metric util = Fin lo /\
    geoMaxVal data month metric util = Fin hi /\
    0 <= lo /\ lo <= hi /\
    (forall v, In v (geoValues data month metric util) -> lo <= v /\ v <= hi) /\
    (geoValues data month metric util = [] -> lo = 0 /\ hi = 1) /\
    (geoValues data month metric util <> [] ->
     In lo (geoValues data month metric util) /\
     In hi (geoValues data month metric util)).
Proof.
  unfold geoMinVal, geoMaxVal.
  pose proof geoValues_positive as Hpos.
  destruct (geoValues data month metric util) as [|v vs] eqn:E.
  - exists 0, 1. simpl.
    split; [reflexivity|]. split; [reflexivity|].
    split; [lra|]. split; [lra|].
    split; [intros x []|].
    split; [intros _; split; reflexivity|].
    intros H. contradiction.
  - destruct (fold_Qmin_spec vs v) as [Hmin_in Hmin_le].
    destruct (fold_Qmax_spec vs v) as [Hmax_in Hmax_le].
    exists (fold_left Qmin vs v), (fold_left Qmax vs v).
    split; [reflexivity|]. split; [reflexivity|].
    split; [apply Qlt_le_weak, Hpos, Hmin_in|].
    split; [eapply Qle_trans; [apply Hmin_le | apply Hmax_le]; left; reflexivity|].
    split; [intros x Hx; split; [apply Hmin_le | apply Hmax_le]; exact Hx|].
    split; [discriminate|].
    intros _. split; assumption.
Qed.

End ScaleFacts.

Lemma Qltb_ext (a b c d : Q) : (a < b <-> c < d) -> Qltb a b = Qltb c d.
Proof.
  intros H. destruct (Qltb a b) eqn:E1, (Qltb c d) eqn:E2; try reflexivity.
  - apply Qltb_lt, H, Qltb_lt in E1. congruence.
  - apply Qltb_lt, H, Qltb_lt in E2. congruence.
Qed.

Lemma Qeq_bool_ext (a b c d : Q) : (a == b <-> c == d) -> Qeq_bool a b = Qeq_bool c d.
Proof.
  intros H. destruct (Qeq_bool a b) eqn:E1, (Qeq_bool c d) eqn:E2; try reflexivity.
  - apply Qeq_bool_iff, H, Qeq_bool_iff in E1. congruence.
  - apply Qeq_bool_iff, H, Qeq_bool_iff in E2. congruence.
Qed.

Lemma Qdiv_unit (n d : Q) :
  0 < d -> (0 <= n / d <-> 0 <= n) /\ (n / d <= 1 <-> n <= d).
Proof.
  intros Hd.
  assert (Hm : d * (n / d) == n) by (apply Qmult_div_r; lra).
  set (t := n / d) in *. clearbody t.
  split; split; intros H; nra.
Qed.

Lemma Qle_bool_ext (a b c d : Q) :
  (a <= b <-> c <= d) -> Qle_bool a b = Qle_bool c d.
Proof.
  intros H. destruct (Qle_bool a b) eqn:E1, (Qle_bool c d) eqn:E2;
    try reflexivity.
  - apply Qle_bool_iff, H, Qle_bool_iff in E1. congruence.
  - apply Qle_bool_iff, H, Qle_bool_iff in E2. congruence.
Qed.

(** C5, as stated: in June, with all utilities and the count of accounts in
    arrears, the Portland view shows values from 645 to 4428, yet the scale
    runs from 27 to 4846 as it does statewide: the two extremal points are
    outside the region and the ends of the scale did not move. *)
Lemma color_scale_not_of_visible_points :
  exists v1 v2 : GeoView.t,
    geographicView geoZipData geoRegions "jun" "arrears_count" "all" "statewide"
      = Normal v1 /\
    geographicView geoZipData geoRegions "jun" "arrears_count" "all" "portland"
      = Normal v2 /\
    GeoView.minVal v2 = Fin 27 /\ GeoView.maxVal v2 = Fin 4846 /\
    spec_minVal (GeoView.filtered v2) = Fin 645 /\
    spec_maxVal (GeoView.filtered v2) = Fin 4428 /\
    GeoView.minVal v1 = GeoView.minVal v2 /\
    GeoView.maxVal v1 = GeoView.maxVal v2.
Proof.
  eexists. eexists.
  split; [reflexivity|]. split; [reflexivity|].
  vm_compute. repeat split; reflexivity.
Qed.

(** C5, amended.  The ends of the colour scale are the least and the
    greatest positive metric value of the points selected by utility and
    month (0 and 1 when there is none); the region takes no part in them, so
    two views that differ only in the region have the same scale. *)
Theorem color_scale_ignores_region
    (data : gmap string (list GeoRecord.t)) (regions : gmap string Region.t)
    (month metric util r1 r2 : string) (v1 v2 : GeoView.t) :
  geographicView data regions month metric util r1 = Normal v1 ->
  geographicView data regions month metric util r2 = Normal v2 ->
  GeoView.minVal v1 = GeoView.minVal v2 /\
  GeoView.maxVal v1 = GeoView.maxVal v2 /\
  GeoView.all v1 = GeoView.all v2 /\
  exists lo hi : Q,
    GeoView.minVal v1 = Fin lo /\ GeoView.maxVal v1 = Fin hi /\
    Forall (fun p => 0 < GeoPoint.value p ->
                     lo <= GeoPoint.value p /\ GeoPoint.value p <= hi)
           (GeoView.all v1) /\
    ((exists p, In p (GeoView.all v1) /\ 0 < GeoPoint.value p) ->
     0 < lo /\
     exists p q, In p (GeoView.all v1) /\ In q (GeoView.all v1) /\
                 GeoPoint.value p = lo /\ GeoPoint.value q = hi) /\
    ((forall p, In p (GeoView.all v1) -> GeoPoint.value p <= 0) ->
     lo = 0 /\ hi = 1).
Proof.
  unfold geographicView. intros H1 H2.
  destruct (regions !! r1) as [b1|]; [|discriminate].
  destruct (regions !! r2) as [b2|]; [|discriminate].
  rewrite geoTab_run in H1, H2. cbn [fst] in H1, H2.
  destruct (collect_throws data util); [discriminate|].
  destruct (geoMetricConfig !! metric);
    [|destruct (inherited metric); discriminate].
  injection H1 as <-. injection H2 as <-. simpl.
  split; [reflexivity|]. split; [reflexivity|]. split; [reflexivity|].
  destruct (geo_scale_ends data month metric util)
    as (lo & hi & Hlo & Hhi & _ & _ & Hrange & Hempty & Hattained).
  exists lo, hi. split; [exact Hlo|]. split; [exact Hhi|].
  split; [|split].
  - apply List.Forall_forall. intros p Hp Hpos.
    apply Hrange, geoValues_of_points; assumption.
  - intros [p [Hp Hpos]].
    destruct Hattained as [Hinlo Hinhi].
    { intros Hnil.
      pose proof (geoValues_of_points data month metric util p Hp Hpos) as Hin.
      rewrite Hnil in Hin. contradiction. }
    split; [exact (geoValues_positive data month metric util lo Hinlo)|].
    unfold geoValues in Hinlo, Hinhi.
    apply filter_In in Hinlo. destruct Hinlo as [Hinlo _].
    apply filter_In in Hinhi. destruct Hinhi as [Hinhi _].
    apply in_map_iff in Hinlo. destruct Hinlo as [pl [Hpl Hl]].
    apply in_map_iff in Hinhi. destruct Hinhi as [ph [Hph Hh]].
    exists pl, ph. repeat split; assumption.
  - intros Hnone. apply Hempty.
    destruct (geoValues data month metric util) as [|x xs] eqn:E; [reflexivity|].
    assert (Hx : In x (geoValues data month metric util))
      by (rewrite E; left; reflexivity).
    pose proof (geoValues_positive _ _ _ _ _ Hx) as Hxpos.
    unfold geoValues in Hx. apply filter_In in Hx. destruct Hx as [Hx _].
    apply in_map_iff in Hx. destruct Hx as [p [Hpx Hp]].
    specialize (Hnone p Hp). rewrite Hpx in Hnone. lra.
Qed.

Lemma color_scale_ignores_region_witness :
  exists v1 v2 : GeoView.t,
    geographicView geoZipData geoRegions "jun" "arrears_count" "all" "statewide"
      = Normal v1 /\
    geographicView geoZipData geoRegions "jun" "arrears_count" "all" "portland"
      = Normal v2 /\
    GeoView.minVal v1 = GeoView.minVal v2 /\
    GeoView.maxVal v1 = GeoView.maxVal v2.
Proof.
  eexists. eexists.
  split; [reflexivity|]. split; [reflexivity|].
  pose proof (color_scale_ignores_region geoZipData geoRegions
                "jun" "arrears_count" "all" "statewide" "portland" _ _
                eq_refl eq_refl) as H.
  split; [exact (proj1 H) | exact (proj1 (proj2 H))].
Defined.

(** The position on a scale from [lo] to [hi], as [getGeoColor] computes
    it, and when it falls inside the unit interval. *)
Lemma scale_position (lo hi value : Q) :
  let t := if gt (Fin hi) (Fin lo)
           then div (sub (Fin value) (Fin lo)) (sub (Fin hi) (Fin lo))
           else Fin 0 in
  t = (if Qltb lo hi then Fin ((value - lo) / (hi - lo)) else Fin 0) /\
  in_unit_interval t
  = (negb (Qltb lo hi) || (Qle_bool lo value && Qle_bool value hi)).
Proof.
  cbn [gt sub div].
  destruct (Qltb lo hi) eqn:E.
  - apply Qltb_lt in E.
    rewrite Qdiv_js_nonzero by lra.
    split; [reflexivity|]. cbn [in_unit_interval negb orb].
    destruct (Qdiv_unit (value - lo) (hi - lo)) as [H0 H1]; [lra|].
    f_equal; apply Qle_bool_ext.
    + rewrite H0. split; intros; lra.
    + rewrite H1. split; intros; lra.
  - split; reflexivity.
Qed.

Lemma getGeoColor_lightness (data : gmap string (list GeoRecord.t))
    (month metric util uk : string) (value : num) :
  Hsl.lightness (getGeoColor data month metric util value uk)
  = sub (Fin 82) (mul (geoColor_t data month metric util value) (Fin 42)).
Proof.
  unfold getGeoColor.
  repeat match goal with
         | |- context [String.eqb ?a ?b] => destruct (String.eqb a b)
         end; reflexivity.
Qed.



(** Without a positive value the scale runs from 0 to 1, and a value of 0
    sits at its low end. *)
Example geoColor_without_positive_value :
  geoValues quiet_table "jun" "disconnections" "ipco" = [] /\
  geoMinVal quiet_table "jun" "disconnections" "ipco" = Fin 0 /\
  geoMaxVal quiet_table "jun" "disconnections" "ipco" = Fin 1 /\
  eqv (geoColor_t quiet_table "jun" "disconnections" "ipco" (Fin 0)) (Fin 0) /\
  eqv (Hsl.lightness
         (getGeoColor quiet_table "jun" "disconnections" "ipco" (Fin 0) "ipco"))
      (Fin 82).
Proof. vm_compute. repeat split; reflexivity. Qed.

Example geoColor_lightness_of_zero :
  Hsl.lightness (getGeoColor geoZipData "jun" "disconnections" "all" (Fin 0) "ipco")
  = Fin (17426 # 212).
Proof. vm_compute. reflexivity. Qed.

(** ** The projector *)

Lemma in_bounds_spec (b : Region.t) (p : GeoPoint.t) :
  in_bounds b p = true <-> inside_box b (GeoPoint.rec p).
Proof.
  unfold in_bounds, inside_box.
  rewrite !Bool.andb_true_iff, !Qle_bool_iff. tauto.
Qed.

Lemma xScale_finite (b : Region.t) (lng : Q) :
  Region.lngMin b < Region.lngMax b ->
  xScale b lng
  = Fin ((lng - Region.lngMin b) / (Region.lngMax b - Region.lngMin b)
         * (mapWidth - 60) + 30).
Proof.
  intros H. unfold xScale. cbn [sub div].
  rewrite Qdiv_js_nonzero by lra. reflexivity.
Qed.

Lemma yScale_finite (b : Region.t) (lat : Q) :
  Region.latMin b < Region.latMax b ->
  yScale b lat
  = Fin (mapHeight - 30
         - (lat - Region.latMin b) / (Region.latMax b - Region.latMin b)
           * (mapHeight - 60)).
Proof.
  intros H. unfold yScale. cbn [sub div].
  rewrite Qdiv_js_nonzero by lra. reflexivity.
Qed.

Lemma xScale_degenerate (b : Region.t) (lng : Q) :
  Region.lngMax b == Region.lngMin b -> is_finite (xScale b lng) = false.
Proof.
  intros H. unfold xScale. cbn [sub div].
  assert (H0 : Region.lngMax b - Region.lngMin b == 0) by lra.
  pose proof (Qdiv_js_zero (lng - Region.lngMin b) _ H0) as Hd.
  destruct (Qdiv_js _ _); [discriminate| | |]; reflexivity.
Qed.

Lemma yScale_degenerate (b : Region.t) (lat : Q) :
  Region.latMax b == Region.latMin b -> is_finite (yScale b lat) = false.
Proof.
  intros H. unfold yScale. cbn [sub div].
  assert (H0 : Region.latMax b - Region.latMin b == 0) by lra.
  pose proof (Qdiv_js_zero (lat - Region.latMin b) _ H0) as Hd.
  destruct (Qdiv_js _ _); [discriminate| | |]; reflexivity.
Qed.

(** Every region of the dashboard has positive width and height. *)
Lemma geoRegions_nondegenerate :
  map_Forall (fun (_ : string) (b : Region.t) => nondegenerate b) geoRegions.
Proof.
  apply map_Forall_to_list. vm_compute.
  repeat (constructor; [split; reflexivity|]). constructor.
Qed.

(** C7.  On a region of positive width and height, every projected point
    comes from a point of the active set whose location is inside the
    bounding box, and carries
    x = (lng - lngMin) / (lngMax - lngMin) * (W - 2 margin) + margin and
    y = H - margin - (lat - latMin) / (latMax - latMin) * (H - 2 margin)
    with W = 850, H = 520, margin = 30; the sides of the box go to the
    margins of the canvas; every point inside the box is projected, and no
    point outside it is. *)
Theorem projection_of_points_in_bounds
    (data : gmap string (list GeoRecord.t)) (month metric util : string)
    (bounds : Region.t) :
  nondegenerate bounds ->
  let W := 850 in
  let H := 520 in
  let margin := 30 in
  let latMin := Region.latMin bounds in
  let latMax := Region.latMax bounds in
  let lngMin := Region.lngMin bounds in
  let lngMax := Region.lngMax bounds in
  Forall (fun d : Projected.t =>
            let r := GeoPoint.rec (Projected.pt d) in
            In (Projected.pt d) (allGeoData data month metric util) /\
            inside_box bounds r /\
            eqv (Projected.x d)
                (Fin ((GeoRecord.lng r - lngMin) / (lngMax - lngMin)
                      * (W - 2 * margin) + margin)) /\
            eqv (Projected.y d)
                (Fin (H - margin
                      - (GeoRecord.lat r - latMin) / (latMax - latMin)
                        * (H - 2 * margin))))
         (filteredGeoData data month metric util bounds) /\
  Forall (fun p : GeoPoint.t =>
            (inside_box bounds (GeoPoint.rec p) ->
             exists d, In d (filteredGeoData data month metric util bounds) /\
                       Projected.pt d = p) /\
            (~ inside_box bounds (GeoPoint.rec p) ->
             forall d, In d (filteredGeoData data month metric util bounds) ->
                       Projected.pt d <> p))
         (allGeoData data month metric util) /\
  eqv (xScale bounds lngMin) (Fin margin) /\
  eqv (xScale bounds lngMax) (Fin (W - margin)) /\
  eqv (yScale bounds latMin) (Fin (H - margin)) /\
  eqv (yScale bounds latMax) (Fin margin).
Proof.
  intros [Hlat Hlng] W H margin latMin latMax lngMin lngMax.
  assert (Hmem : forall d, In d (filteredGeoData data month metric util bounds) ->
                 In (Projected.pt d) (allGeoData data month metric util) /\
                 in_bounds bounds (Projected.pt d) = true /\
                 Projected.x d = xScale bounds (GeoRecord.lng (GeoPoint.rec (Projected.pt d))) /\
                 Projected.y d = yScale bounds (GeoRecord.lat (GeoPoint.rec (Projected.pt d)))).
  { intros d Hd. unfold filteredGeoData in Hd.
    apply in_map_iff in Hd. destruct Hd as [p [<- Hp]].
    apply filter_In in Hp. simpl. tauto. }
  split; [|split].
  - apply List.Forall_forall. intros d Hd.
    destruct (Hmem d Hd) as (Hin & Hb & Hx & Hy).
    cbv zeta. split; [exact Hin|]. split; [apply in_bounds_spec; exact Hb|].
    rewrite Hx, Hy, xScale_finite, yScale_finite by assumption.
    unfold eqv, mapWidth, mapHeight, W, H, margin, lngMin, lngMax, latMin, latMax.
    split.
    + set (r := (_ / _)). lra.
    + set (r := (_ / _)). lra.
  - apply List.Forall_forall. intros p Hp. split.
    + intros Hbox.
      exists (Projected.mk p (xScale bounds (GeoRecord.lng (GeoPoint.rec p)))
                             (yScale bounds (GeoRecord.lat (GeoPoint.rec p)))).
      split; [|reflexivity].
      unfold filteredGeoData.
      apply (in_map
               (fun d => Projected.mk d
                           (xScale bounds (GeoRecord.lng (GeoPoint.rec d)))
                           (yScale bounds (GeoRecord.lat (GeoPoint.rec d))))).
      apply filter_In. split; [exact Hp | apply in_bounds_spec; exact Hbox].
    + intros Hout d Hd Heq.
      destruct (Hmem d Hd) as (_ & Hb & _).
      apply Hout. rewrite <- Heq. apply in_bounds_spec. exact Hb.
  - rewrite !xScale_finite, !yScale_finite by assumption.
    unfold eqv, mapWidth, mapHeight, W, H, margin, lngMin, lngMax, latMin, latMax.
    repeat split.
    + field. lra.
    + field. lra.
    + field. lra.
    + field. lra.
Qed.

Lemma projection_of_points_in_bounds_witness :
  nondegenerate portland_bounds /\
  Forall (fun d : Projected.t =>
            inside_box portland_bounds (GeoPoint.rec (Projected.pt d)))
         (filteredGeoData geoZipData "jun" "arrears_rate" "all" portland_bounds) /\
  eqv (xScale portland_bounds (-123.15)) (Fin 30) /\
  eqv (xScale portland_bounds (-122.25)) (Fin (850 - 30)) /\
  eqv (yScale portland_bounds 45.30) (Fin (520 - 30)) /\
  eqv (yScale portland_bounds 45.75) (Fin 30).
Proof.
  assert (Hnd : nondegenerate portland_bounds) by (split; reflexivity).
  split; [exact Hnd|].
  pose proof (projection_of_points_in_bounds
                geoZipData "jun" "arrears_rate" "all" portland_bounds Hnd) as T.
  cbv zeta in T. destruct T as (T1 & _ & T3).
  split; [|exact T3].
  eapply List.Forall_impl; [|exact T1].
  intros d Hd. exact (proj1 (proj2 Hd)).
Defined.

Example portland_view_size :
  geoRegions !! "portland"%string = Some portland_bounds /\
  List.length (filteredGeoData geoZipData "jun" "arrears_rate" "all" portland_bounds)
  = 42%nat.
Proof. split; vm_compute; reflexivity. Qed.

(** C8, as stated: a region of zero height.  The projector returns a pair
    of coordinates, the second of which is [NaN]; nothing is thrown. *)
Lemma degenerate_region_returns_NaN :
  Region.latMax flat_region == Region.latMin flat_region /\
  (exists x : num,
     call_project flat_region 45 (-122.5) = Normal (x, NaN) /\ eqv x (Fin 425)) /\
  (forall msg : string, call_project flat_region 45 (-122.5) <> Throw msg).
Proof.
  split; [reflexivity|]. split.
  - eexists. split; [vm_compute; reflexivity|]. reflexivity.
  - intros msg. discriminate.
Qed.

(** C8, amended.  For a region with latMax = latMin or lngMax = lngMin the
    projector raises no error: it returns the two coordinates, and the one
    computed along a side of zero length is the result of a division by
    zero, [NaN] or an infinity. *)
Theorem degenerate_region_not_rejected (bounds : Region.t) (lat lng : Q) :
  Region.latMax bounds == Region.latMin bounds \/
  Region.lngMax bounds == Region.lngMin bounds ->
  call_project bounds lat lng = Normal (xScale bounds lng, yScale bounds lat) /\
  is_finite (xScale bounds lng) && is_finite (yScale bounds lat) = false /\
  (Region.latMax bounds == Region.latMin bounds ->
   is_finite (yScale bounds lat) = false) /\
  (Region.lngMax bounds == Region.lngMin bounds ->
   is_finite (xScale bounds lng) = false).
Proof.
  intros Hdeg. split; [reflexivity|]. split.
  - destruct Hdeg as [H|H].
    + rewrite (yScale_degenerate bounds lat H). apply Bool.andb_false_r.
    + rewrite (xScale_degenerate bounds lng H). reflexivity.
  - split.
    + apply yScale_degenerate.
    + apply xScale_degenerate.
Qed.

Lemma degenerate_region_not_rejected_witness :
  (Region.latMax flat_region == Region.latMin flat_region \/
   Region.lngMax flat_region == Region.lngMin flat_region) /\
  call_project flat_region 46 (-122.5)
    = Normal (xScale flat_region (-122.5), yScale flat_region 46) /\
  is_finite (yScale flat_region 46) = false.
Proof.
  assert (H : Region.latMax flat_region == Region.latMin flat_region \/
              Region.lngMax flat_region == Region.lngMin flat_region)
    by (left; reflexivity).
  split; [exact H|].
  pose proof (degenerate_region_not_rejected flat_region 46 (-122.5) H) as T.
  destruct T as (T1 & _ & T3 & _).
  split; [exact T1|]. apply T3. reflexivity.
Defined.

(** ** Month indices outside the series *)

Lemma entry_out_of_range (obj : gmap string (list Q)) (uid : string) (idx : Z) :
  map_Forall (fun (_ : string) (series : list Q) => List.length series = 21%nat) obj ->
  (idx < 0 \/ 21 <= idx)%Z ->
  entry obj uid idx = 0.
Proof.
  intros Hlen Hidx. unfold entry, opt_index.
  destruct (obj !! uid) as [series|] eqn:E; [|reflexivity].
  specialize (Hlen uid series E). simpl in Hlen.
  unfold index. destruct (idx <? 0)%Z eqn:Eneg; [reflexivity|].
  apply Z.ltb_ge in Eneg.
  assert (Hnone : nth_error series (Z.to_nat idx) = None)
    by (apply nth_error_None; lia).
  rewrite Hnone. reflexivity.
Qed.

Lemma fold_left_zero {A : Type} (f : A -> Q) (l : list A) :
  (forall a, f a = 0) -> fold_left (fun s u => s + f u) l 0 = 0.
Proof.
  intros Hf. induction l as [|a l IH]; simpl.
  - reflexivity.
  - rewrite Hf. exact IH.
Qed.

(** C9, as stated: index 21 is one past the last month.  The sum over the
    account series and the lookup in one utility's series both return 0. *)
Lemma month_21_returns_zero :
  call_sumArray utilities accounts 21 = Normal 0 /\
  call_chartValue utilities accounts "pge" 21 = Normal 0 /\
  call_chartValue utilities accounts "all" (-1) = Normal 0 /\
  (forall msg : string, call_sumArray utilities accounts 21 <> Throw msg).
Proof.
  split; [vm_compute; reflexivity|].
  split; [vm_compute; reflexivity|].
  split; [vm_compute; reflexivity|].
  intros msg. discriminate.
Qed.

(** C9, amended.  On tables of 21-month series, for every month index
    outside the range from 0 to 20 the sum across utilities is 0 and the
    chart value is 0, for one utility as for all: a missing entry counts as
    0 and nothing fails. *)
Theorem out_of_range_month_counts_zero
    (us : list Utility.t) (obj : gmap string (list Q))
    (selectedUtility : string) (idx : Z) :
  map_Forall (fun (_ : string) (series : list Q) => List.length series = 21%nat) obj ->
  (idx < 0 \/ 21 <= idx)%Z ->
  call_sumArray us obj idx = Normal 0 /\
  call_chartValue us obj selectedUtility idx = Normal 0.
Proof.
  intros Hlen Hidx.
  assert (Hsum : fold_left (fun s u => s + entry obj (Utility.id u) idx) us 0 = 0).
  { apply (fold_left_zero (fun u => entry obj (Utility.id u) idx)).
    intros u. apply entry_out_of_range; assumption. }
  unfold call_sumArray, call_chartValue, sumArray, chartValue. split.
  - rewrite Hsum. reflexivity.
  - destruct (String.eqb selectedUtility "all").
    + rewrite Hsum. reflexivity.
    + rewrite entry_out_of_range by assumption. reflexivity.
Qed.

Lemma out_of_range_month_counts_zero_witness :
  map_Forall (fun (_ : string) (series : list Q) => List.length series = 21%nat)
             accounts /\
  (21 < 0 \/ 21 <= 21)%Z /\
  call_sumArray utilities accounts 21 = Normal 0 /\
  call_chartValue utilities accounts "nwn" 21 = Normal 0.
Proof.
  assert (Hlen : map_Forall
                   (fun (_ : string) (series : list Q) => List.length series = 21%nat)
                   accounts).
  { apply map_Forall_to_list. vm_compute.
    repeat (constructor; [reflexivity|]). constructor. }
  assert (Hidx : (21 < 0 \/ 21 <= 21)%Z) by (right; lia).
  split; [exact Hlen|]. split; [exact Hidx|].
  exact (out_of_range_month_counts_zero utilities accounts "nwn" 21 Hlen Hidx).
Defined.

(** Within the range the chart rows carry the table's values. *)
Example getChartData_in_range :
  List.map ChartRow.value
    (firstn 3 (getChartData utilities months disconnections "cng"))
  = [1; 3; 29].
Proof. vm_compute. reflexivity. Qed.

(* ===================================================================== *)
(** * Further properties of the modelled code *)
(* ===================================================================== *)

(** ** Bounds of a weighted sum *)

Lemma weighted_sum_bounds {A : Type} (w v : A -> Q) (l : list A) (lo hi : Q) :
  (forall a, In a l -> 0 <= w a) ->
  (forall a, In a l -> 0 < w a -> lo <= v a /\ v a <= hi) ->
  lo * Qsum (List.map w l) <= Qsum (List.map (fun a => w a * v a) l) /\
  Qsum (List.map (fun a => w a * v a) l) <= hi * Qsum (List.map w l).
Proof.
  intros Hw Hv. induction l as [|a l IH]; simpl.
  - split; lra.
  - destruct IH as [IH1 IH2].
    + intros x Hx. apply Hw. right. exact Hx.
    + intros x Hx. apply Hv. right. exact Hx.
    + assert (Ha : 0 <= w a) by (apply Hw; left; reflexivity).
      destruct (Qlt_le_dec 0 (w a)) as [Hpos|Hzero].
      * destruct (Hv a (or_introl eq_refl) Hpos) as [H1 H2].
        split; nra.
      * assert (Hz : w a == 0) by lra.
        split; rewrite Hz; lra.
Qed.

(** ** The trend classifier: the band of two percent *)

(** X3.  With six values or more, the last six of them whole numbers from 0
    to 2^48 and the prior window not all zero, the direction is up as soon
    as the sum of the last three values exceeds that of the three before by
    2.01 percent, down as soon as it falls short of it by 2.01 percent, and
    flat while the two differ by no more than 1.99 percent.  Between these
    margins lies the edge of the band, where the last place of the quotient
    decides. *)
Theorem getTrend_two_percent_band (pre : list Q) (a b c d e f : Z) :
  Forall (fun n => (0 <= n <= 2 ^ 48)%Z) [a; b; c; d; e; f] ->
  (0 < a + b + c)%Z ->
  let prior := inject_Z (a + b + c) in
  let recent := inject_Z (d + e + f) in
  let t := getTrend3 (pre ++ List.map inject_Z [a; b; c; d; e; f]) in
  (10201 * prior <= 10000 * recent -> direction t = up) /\
  (10000 * recent <= 9799 * prior -> direction t = down) /\
  (9801 * prior <= 10000 * recent /\ 10000 * recent <= 10199 * prior ->
   direction t = flat).
Proof.
  intros _ Hpos prior recent t.
  assert (HP : prior == inject_Z a + inject_Z b + inject_Z c)
    by (unfold prior; rewrite !inject_Z_plus; reflexivity).
  assert (HR : recent == inject_Z d + inject_Z e + inject_Z f)
    by (unfold recent; rewrite !inject_Z_plus; reflexivity).
  assert (Hprior : 0 < prior).
  { unfold prior. change 0 with (inject_Z 0). rewrite <- Zlt_Qlt. exact Hpos. }
  assert (Hd : direction t =
               if Qltb (102 * prior) (100 * recent) then up
               else if Qltb (100 * recent) (98 * prior) then down
               else flat).
  { unfold t. cbn [List.map]. rewrite getTrend3_six_or_more.
    cbv zeta. simpl direction. cbn [sub div].
    set (p3 := (0 + inject_Z a + inject_Z b + inject_Z c) / 3).
    set (r3 := (0 + inject_Z d + inject_Z e + inject_Z f) / 3).
    assert (Hp3 : 3 * p3 == prior) by (rewrite HP; unfold p3; field).
    assert (Hr3 : 3 * r3 == recent) by (rewrite HR; unfold r3; field).
    rewrite Qdiv_js_nonzero by lra. cbn [mul]. unfold classify, lt, gt.
    assert (Ht : p3 * ((r3 - p3) / p3) == r3 - p3) by (apply Qmult_div_r; lra).
    set (q := (r3 - p3) / p3) in *. clearbody q.
    rewrite (Qltb_ext 2 (q * 100) (102 * prior) (100 * recent))
      by (split; intros H; nra).
    rewrite (Qltb_ext (q * 100) (- (2)) (100 * recent) (98 * prior))
      by (split; intros H; nra).
    reflexivity. }
  rewrite Hd. split; [|split].
  - intros H.
    assert (E : Qltb (102 * prior) (100 * recent) = true) by (apply Qltb_lt; lra).
    rewrite E. reflexivity.
  - intros H.
    assert (E1 : Qltb (102 * prior) (100 * recent) = false) by (apply Qltb_ge; lra).
    assert (E2 : Qltb (100 * recent) (98 * prior) = true) by (apply Qltb_lt; lra).
    rewrite E1, E2. reflexivity.
  - intros [H1 H2].
    assert (E1 : Qltb (102 * prior) (100 * recent) = false) by (apply Qltb_ge; lra).
    assert (E2 : Qltb (100 * recent) (98 * prior) = false) by (apply Qltb_ge; lra).
    rewrite E1, E2. reflexivity.
Qed.

Lemma getTrend_two_percent_band_witness :
  Forall (fun n => (0 <= n <= 2 ^ 48)%Z) [100; 100; 100; 100; 101; 102]%Z /\
  (0 < 100 + 100 + 100)%Z /\
  direction (getTrend3 ([100; 100; 100]
                        ++ List.map inject_Z [100; 100; 100; 100; 101; 102]%Z))
  = flat /\
  direction (getTrend3 ([100; 100; 100]
                        ++ List.map inject_Z [100; 100; 100; 110; 110; 110]%Z))
  = up.
Proof.
  assert (H1 : Forall (fun n => (0 <= n <= 2 ^ 48)%Z)
                      [100; 100; 100; 100; 101; 102]%Z)
    by (repeat constructor; discriminate).
  assert (H2 : Forall (fun n => (0 <= n <= 2 ^ 48)%Z)
                      [100; 100; 100; 110; 110; 110]%Z)
    by (repeat constructor; discriminate).
  assert (Hpos : (0 < 100 + 100 + 100)%Z) by reflexivity.
  split; [exact H1|]. split; [exact Hpos|]. split.
  - apply (getTrend_two_percent_band [100; 100; 100] 100 100 100 100 101 102
             H1 Hpos).
    split; apply Qle_bool_imp_le; reflexivity.
  - apply (getTrend_two_percent_band [100; 100; 100] 100 100 100 110 110 110
             H2 Hpos).
    apply Qle_bool_imp_le. reflexivity.
Defined.

(** ** The projector on the canvas *)

Lemma filteredGeoData_member (data : gmap string (list GeoRecord.t))
    (month metric util : string) (bounds : Region.t) (d : Projected.t) :
  In d (filteredGeoData data month metric util bounds) ->
  In (Projected.pt d) (allGeoData data month metric util) /\
  inside_box bounds (GeoPoint.rec (Projected.pt d)) /\
  Projected.x d = xScale bounds (GeoRecord.lng (GeoPoint.rec (Projected.pt d))) /\
  Projected.y d = yScale bounds (GeoRecord.lat (GeoPoint.rec (Projected.pt d))).
Proof.
  intros Hd. unfold filteredGeoData in Hd.
  apply in_map_iff in Hd. destruct Hd as [p [<- Hp]].
  apply filter_In in Hp. destruct Hp as [Hp Hb].
  apply in_bounds_spec in Hb. simpl. tauto.
Qed.

(** X4.  On a region of positive width and height every projected point
    falls on the canvas inside its margins: x between 30 and 820, y between
    30 and 490. *)
Theorem projected_points_inside_canvas
    (data : gmap string (list GeoRecord.t)) (month metric util : string)
    (bounds : Region.t) :
  nondegenerate bounds ->
  Forall (fun d : Projected.t =>
            exists x y : Q,
              Projected.x d = Fin x /\ Projected.y d = Fin y /\
              30 <= x /\ x <= 820 /\ 30 <= y /\ y <= 490)
         (filteredGeoData data month metric util bounds).
Proof.
  intros [Hlat Hlng]. apply List.Forall_forall. intros d Hd.
  destruct (filteredGeoData_member _ _ _ _ _ _ Hd) as (_ & Hbox & Hx & Hy).
  destruct Hbox as (B1 & B2 & B3 & B4).
  rewrite Hx, Hy, xScale_finite, yScale_finite by assumption.
  eexists. eexists. split; [reflexivity|]. split; [reflexivity|].
  set (lat := GeoRecord.lat (GeoPoint.rec (Projected.pt d))) in *.
  set (lng := GeoRecord.lng (GeoPoint.rec (Projected.pt d))) in *.
  destruct (Qdiv_unit (lng - Region.lngMin bounds)
                      (Region.lngMax bounds - Region.lngMin bounds)) as [X0 X1]; [lra|].
  destruct (Qdiv_unit (lat - Region.latMin bounds)
                      (Region.latMax bounds - Region.latMin bounds)) as [Y0 Y1]; [lra|].
  assert (Hx0 : 0 <= (lng - Region.lngMin bounds)
                     / (Region.lngMax bounds - Region.lngMin bounds)) by (apply X0; lra).
  assert (Hx1 : (lng - Region.lngMin bounds)
                / (Region.lngMax bounds - Region.lngMin bounds) <= 1) by (apply X1; lra).
  assert (Hy0 : 0 <= (lat - Region.latMin bounds)
                     / (Region.latMax bounds - Region.latMin bounds)) by (apply Y0; lra).
  assert (Hy1 : (lat - Region.latMin bounds)
                / (Region.latMax bounds - Region.latMin bounds) <= 1) by (apply Y1; lra).
  unfold mapWidth, mapHeight.
  set (rx := (lng - _) / _) in *. set (ry := (lat - _) / _) in *.
  repeat split; lra.
Qed.

Lemma projected_points_inside_canvas_witness :
  nondegenerate portland_bounds /\
  Forall (fun d : Projected.t =>
            exists x y : Q,
              Projected.x d = Fin x /\ Projected.y d = Fin y /\
              30 <= x /\ x <= 820 /\ 30 <= y /\ y <= 490)
         (filteredGeoData geoZipData "jun" "disc_rate" "all" portland_bounds).
Proof.
  assert (Hnd : nondegenerate portland_bounds) by (split; reflexivity).
  split; [exact Hnd|].
  exact (projected_points_inside_canvas geoZipData "jun" "disc_rate" "all"
           portland_bounds Hnd).
Defined.

(** X5.  On a region of positive width and height the projection keeps the
    geographic order: a point further east is drawn further right, and a
    point further north is drawn higher (its y is smaller). *)
Theorem projection_keeps_order (bounds : Region.t) (lat1 lat2 lng1 lng2 : Q) :
  nondegenerate bounds ->
  exists x1 x2 y1 y2 : Q,
    xScale bounds lng1 = Fin x1 /\ xScale bounds lng2 = Fin x2 /\
    yScale bounds lat1 = Fin y1 /\ yScale bounds lat2 = Fin y2 /\
    (lng1 < lng2 <-> x1 < x2) /\ (lat1 < lat2 <-> y2 < y1).
Proof.
  intros [Hlat Hlng].
  rewrite !xScale_finite, !yScale_finite by assumption.
  do 4 eexists. repeat (split; [reflexivity|]).
  unfold mapWidth, mapHeight.
  set (w := Region.lngMax bounds - Region.lngMin bounds).
  set (h := Region.latMax bounds - Region.latMin bounds).
  assert (Hw : 0 < w) by (unfold w; lra).
  assert (Hh : 0 < h) by (unfold h; lra).
  assert (E1 : w * ((lng1 - Region.lngMin bounds) / w) == lng1 - Region.lngMin bounds)
    by (apply Qmult_div_r; lra).
  assert (E2 : w * ((lng2 - Region.lngMin bounds) / w) == lng2 - Region.lngMin bounds)
    by (apply Qmult_div_r; lra).
  assert (E3 : h * ((lat1 - Region.latMin bounds) / h) == lat1 - Region.latMin bounds)
    by (apply Qmult_div_r; lra).
  assert (E4 : h * ((lat2 - Region.latMin bounds) / h) == lat2 - Region.latMin bounds)
    by (apply Qmult_div_r; lra).
  set (a1 := (lng1 - _) / w) in *. set (a2 := (lng2 - _) / w) in *.
  set (b1 := (lat1 - _) / h) in *. set (b2 := (lat2 - _) / h) in *.
  clearbody a1 a2 b1 b2.
  split; split; intros H; nra.
Qed.

Lemma projection_keeps_order_witness :
  nondegenerate portland_bounds /\
  exists x1 x2 y1 y2 : Q,
    xScale portland_bounds (-122.887) = Fin x1 /\
    xScale portland_bounds (-122.791) = Fin x2 /\
    yScale portland_bounds 45.527 = Fin y1 /\
    yScale portland_bounds 45.492 = Fin y2 /\
    (-122.887 < -122.791 <-> x1 < x2) /\ (45.527 < 45.492 <-> y2 < y1).
Proof.
  assert (Hnd : nondegenerate portland_bounds) by (split; reflexivity).
  split; [exact Hnd|].
  exact (projection_keeps_order portland_bounds 45.527 45.492
           (-122.887) (-122.791) Hnd).
Defined.

(** ** The colour of a point *)

(** X6.  For one state of the controls the lightness of a colour falls as
    the value grows, whatever the utility, and every positive value of the
    active set gets a lightness between 40 and 82 percent. *)
Theorem lightness_darkens_with_value
    (data : gmap string (list GeoRecord.t)) (month metric util uk : string)
    (v1 v2 : Q) :
  exists l1 l2 : Q,
    Hsl.lightness (getGeoColor data month metric util (Fin v1) uk) = Fin l1 /\
    Hsl.lightness (getGeoColor data month metric util (Fin v2) uk) = Fin l2 /\
    (v1 <= v2 -> l2 <= l1) /\
    (In v1 (geoValues data month metric util) -> 40 <= l1 /\ l1 <= 82).
Proof.
  destruct (geo_scale_ends data month metric util)
    as (lo & hi & Hlo & Hhi & _ & Hle & Hrange & _).
  rewrite !getGeoColor_lightness. unfold geoColor_t. rewrite Hlo, Hhi.
  rewrite (proj1 (scale_position lo hi v1)), (proj1 (scale_position lo hi v2)).
  destruct (Qltb lo hi) eqn:E.
  - apply Qltb_lt in E. cbn [sub mul].
    eexists. eexists. split; [reflexivity|]. split; [reflexivity|].
    assert (E1 : (hi - lo) * ((v1 - lo) / (hi - lo)) == v1 - lo)
      by (apply Qmult_div_r; lra).
    assert (E2 : (hi - lo) * ((v2 - lo) / (hi - lo)) == v2 - lo)
      by (apply Qmult_div_r; lra).
    set (t1 := (v1 - lo) / (hi - lo)) in *.
    set (t2 := (v2 - lo) / (hi - lo)) in *.
    clearbody t1 t2. split.
    + intros H. nra.
    + intros Hin. destruct (Hrange v1 Hin) as [H1 H2]. split; nra.
  - cbn [sub mul].
    eexists. eexists. split; [reflexivity|]. split; [reflexivity|].
    split; intros; lra.
Qed.

Lemma lightness_darkens_with_value_witness :
  exists l1 l2 : Q,
    Hsl.lightness (getGeoColor geoZipData "jun" "disconnections" "all" (Fin 5) "pge")
    = Fin l1 /\
    Hsl.lightness (getGeoColor geoZipData "jun" "disconnections" "all" (Fin 213) "pge")
    = Fin l2 /\
    l2 <= l1.
Proof.
  destruct (lightness_darkens_with_value
              geoZipData "jun" "disconnections" "all" "pge" 5 213)
    as (l1 & l2 & H1 & H2 & Hmono & _).
  exists l1, l2. split; [exact H1|]. split; [exact H2|].
  apply Hmono. apply Qle_bool_imp_le. reflexivity.
Defined.

(** ** Sorting again, and sorting a selection *)

Section SortMoreFacts.

Context {A : Type}.
Variable key : A -> Q.

Let cmp (a b : A) : Q := key b - key a.
Let desc (a b : A) : Prop := key b <= key a.

Lemma sort_insert_first (x : A) (l : list A) :
  Forall (desc x) l -> sort_insert cmp x l = x :: l.
Proof.
  intros H. destruct l as [|y l]; [reflexivity|].
  inversion H as [|? ? Hy _]; subst. simpl.
  assert (E : Qle_bool (cmp x y) 0 = true).
  { apply Qle_bool_iff. unfold cmp, desc in *. lra. }
  rewrite E. reflexivity.
Qed.

Lemma Array_sort_of_sorted (l : list A) :
  StronglySorted desc l -> Array_sort cmp l = l.
Proof.
  induction 1 as [|x l Hs IH Hall]; [reflexivity|].
  cbn [Array_sort fold_right]. fold (Array_sort cmp l).
  rewrite IH. apply sort_insert_first. exact Hall.
Qed.

Lemma sort_insert_filter (f : A -> bool) (x : A) (l : list A) :
  StronglySorted desc l ->
  List.filter f (sort_insert cmp x l)
  = if f x then sort_insert cmp x (List.filter f l) else List.filter f l.
Proof.
  induction 1 as [|y l Hs IH Hall].
  - simpl. destruct (f x); reflexivity.
  - cbn [sort_insert]. destruct (Qle_bool (cmp x y) 0) eqn:E.
    + cbn [List.filter]. destruct (f x) eqn:Ex; [|reflexivity].
      destruct (f y) eqn:Ey.
      * cbn [sort_insert]. rewrite E. reflexivity.
      * symmetry. apply sort_insert_first.
        apply Qle_bool_iff in E. unfold cmp in E.
        apply List.Forall_forall. intros z Hz.
        apply filter_In in Hz. destruct Hz as [Hz _].
        rewrite List.Forall_forall in Hall. specialize (Hall z Hz).
        unfold desc in *. lra.
    + cbn [List.filter]. rewrite IH.
      destruct (f x) eqn:Ex, (f y) eqn:Ey; try reflexivity.
      cbn [sort_insert]. rewrite E. reflexivity.
Qed.

Lemma Array_sort_filter (f : A -> bool) (l : list A) :
  List.filter f (Array_sort cmp l) = Array_sort cmp (List.filter f l).
Proof.
  induction l as [|x l IH]; [reflexivity|].
  cbn [Array_sort fold_right]. fold (Array_sort cmp l).
  rewrite sort_insert_filter by apply (Array_sort_sorted key).
  cbn [List.filter]. destruct (f x).
  - cbn [Array_sort fold_right]. fold (Array_sort cmp (List.filter f l)).
    rewrite IH. reflexivity.
  - exact IH.
Qed.

End SortMoreFacts.

(** X7.  Sorting the sorted set once more changes nothing: a second pass
    over the same selection shows the points in the same order. *)
Theorem allGeoData_sort_idempotent
    (data : gmap string (list GeoRecord.t)) (month metric util : string) :
  snd (sort_in_place (fun a b => GeoPoint.value b - GeoPoint.value a)
         (allGeoData data month metric util))
  = allGeoData data month metric util.
Proof.
  unfold sort_in_place. simpl snd.
  apply (Array_sort_of_sorted GeoPoint.value). apply allGeoData_sorted.
Qed.

(** ** Selecting a utility *)

Section BlockFacts.

Variable data : gmap string (list GeoRecord.t).
Variables month metric : string.

(** The points one utility key contributes to [allGeoData]. *)
Let block (uk : string) : list GeoPoint.t :=
  match data !! uk with
  | Some ds => flat_map (points_of month metric uk) ds
  | None => []
  end.

Lemma block_utility (uk : string) :
  Forall (fun p => GeoPoint.utility p = uk) (block uk).
Proof.
  unfold block. destruct (data !! uk) as [ds|]; [|constructor].
  apply List.Forall_forall. intros p Hp.
  apply in_flat_map in Hp. destruct Hp as [d [_ Hp]].
  unfold points_of in Hp. destruct (enough_accounts month d); [|contradiction].
  destruct Hp as [<-|[]]. reflexivity.
Qed.

Lemma filter_block (uk uk' : string) :
  List.filter (fun p => String.eqb (GeoPoint.utility p) uk') (block uk)
  = if String.eqb uk uk' then block uk else [].
Proof.
  pose proof (block_utility uk) as H.
  induction H as [|p l Hp Hl IH]; simpl.
  - destruct (String.eqb uk uk'); reflexivity.
  - rewrite Hp, IH. destruct (String.eqb uk uk'); reflexivity.
Qed.

Lemma pushed_single (uk : string) :
  String.eqb uk "all" = false ->
  allGeoData_pushed data month metric uk = block uk.
Proof.
  intros H. rewrite allGeoData_pushed_eq. unfold utilKeys. rewrite H.
  simpl. apply app_nil_r.
Qed.

Lemma pushed_all :
  allGeoData_pushed data month metric "all"
  = block "pge" ++ block "nwn" ++ block "avista" ++ block "cng"
    ++ block "pac" ++ block "ipco".
Proof.
  rewrite allGeoData_pushed_eq. simpl. rewrite app_nil_r. reflexivity.
Qed.

(** X8.  Selecting one of the six utilities shows exactly the points of
    that utility from the all-utilities view, in the same order and with
    the same values. *)
Theorem single_utility_is_filter_of_all (uk : string) :
  In uk [ "pge"; "nwn"; "avista"; "cng"; "pac"; "ipco" ]%string ->
  allGeoData data month metric uk
  = List.filter (fun p => String.eqb (GeoPoint.utility p) uk)
                (allGeoData data month metric "all").
Proof.
  intros Huk.
  rewrite (allGeoData_eq data month metric uk),
          (allGeoData_eq data month metric "all").
  rewrite (Array_sort_filter GeoPoint.value).
  f_equal. rewrite pushed_all, !List.filter_app, !filter_block.
  simpl in Huk.
  repeat (destruct Huk as [<-|Huk];
          [rewrite pushed_single by reflexivity; simpl;
           rewrite ?app_nil_r; reflexivity|]).
  contradiction.
Qed.

End BlockFacts.

Lemma single_utility_is_filter_of_all_witness :
  In "pac"%string [ "pge"; "nwn"; "avista"; "cng"; "pac"; "ipco" ]%string /\
  allGeoData geoZipData "apr" "disconnections" "pac"
  = List.filter (fun p => String.eqb (GeoPoint.utility p) "pac")
                (allGeoData geoZipData "apr" "disconnections" "all").
Proof.
  assert (H : In "pac"%string [ "pge"; "nwn"; "avista"; "cng"; "pac"; "ipco" ]%string)
    by (simpl; tauto).
  split; [exact H|].
  exact (single_utility_is_filter_of_all geoZipData "apr" "disconnections" "pac" H).
Defined.

(** ** Keys the tables do not have *)

(** X9.  For a region and a metric the tables have.  Under a utility key
    that the data lacks but every object inherits ("constructor",
    "toString", "__proto__" and the like) the tab throws: the inherited
    member passes the test of the loop and has no [forEach].  Otherwise,
    under a month key other than the three of the data, or under a utility
    key that is neither "all" nor a key of the data, the tab shows an empty
    view: no point is collected, the sorted set, the projected set and the
    ranking are empty and the scale falls back to 0 and 1. *)
Theorem unknown_month_or_utility_shows_nothing
    (data : gmap string (list GeoRecord.t)) (regions : gmap string Region.t)
    (month metric util region : string) (bounds : Region.t)
    (cfg : MetricConfig.t) :
  regions !! region = Some bounds ->
  geoMetricConfig !! metric = Some cfg ->
  (util <> "all"%string /\ data !! util = None /\ inherited util = true ->
   geographicView data regions month metric util region
   = Throw "TypeError: geoZipData[uk].forEach is not a function") /\
  ((util = "all"%string \/ data !! util <> None \/ inherited util = false) ->
   (month <> "apr"%string /\ month <> "may"%string /\ month <> "jun"%string) \/
   (util <> "all"%string /\ data !! util = None) ->
   allGeoData data month metric util = [] /\
   filteredGeoData data month metric util bounds = [] /\
   ranking data month metric util region bounds = [] /\
   geoMinVal data month metric util = Fin 0 /\
   geoMaxVal data month metric util = Fin 1 /\
   geographicView data regions month metric util region
   = Normal (GeoView.mk [] [] (Fin 0) (Fin 1) [])).
Proof.
  intros Hregion Hcfg.
  assert (Hview : geographicView data regions month metric util region
                  = if collect_throws data util
                    then Throw "TypeError: geoZipData[uk].forEach is not a function"
                    else Normal
                           (GeoView.mk
                              (allGeoData data month metric util)
                              (filteredGeoData data month metric util bounds)
                              (geoMinVal data month metric util)
                              (geoMaxVal data month metric util)
                              (ranking data month metric util region bounds))).
  { unfold geographicView. rewrite Hregion, geoTab_run. cbn [fst].
    destruct (collect_throws data util); [reflexivity|].
    rewrite Hcfg. reflexivity. }
  split.
  - intros (Hall & Hnone & Hinh).
    rewrite Hview. unfold collect_throws.
    apply String.eqb_neq in Hall. rewrite Hall, Hnone, Hinh. reflexivity.
  - intros Hquiet H.
    assert (Hthrows : collect_throws data util = false).
    { unfold collect_throws.
      destruct Hquiet as [->|[Hsome|Hinh]].
      - reflexivity.
      - destruct (data !! util); [apply andb_false_r | contradiction].
      - rewrite Hinh. destruct (data !! util); apply andb_false_r. }
    assert (Hpushed : allGeoData_pushed data month metric util = []).
    { rewrite allGeoData_pushed_eq. destruct H as [(H1 & H2 & H3)|[H1 H2]].
      - apply String.eqb_neq in H1, H2, H3.
        assert (Hnone : forall uk ds, flat_map (points_of month metric uk) ds = []).
        { intros uk ds. induction ds as [|d ds IH]; [reflexivity|].
          simpl. rewrite IH. unfold points_of, enough_accounts, month_entry.
          rewrite H1, H2, H3. reflexivity. }
        induction (utilKeys util) as [|uk l IH]; [reflexivity|].
        simpl. rewrite IH. destruct (data !! uk); [rewrite Hnone|]; reflexivity.
      - apply String.eqb_neq in H1. unfold utilKeys. rewrite H1.
        simpl. rewrite H2. reflexivity. }
    assert (Hall : allGeoData data month metric util = []).
    { rewrite allGeoData_eq, Hpushed. reflexivity. }
    assert (Hrest : filteredGeoData data month metric util bounds = [] /\
                    ranking data month metric util region bounds = [] /\
                    geoMinVal data month metric util = Fin 0 /\
                    geoMaxVal data month metric util = Fin 1).
    { unfold ranking, filteredGeoData, geoMinVal, geoMaxVal, geoValues.
      rewrite Hall. simpl. repeat split; try reflexivity.
      destruct (isStatewide region); reflexivity. }
    destruct Hrest as (Hf & Hr & Hmin & Hmax).
    rewrite Hview, Hthrows, Hall, Hf, Hr, Hmin, Hmax.
    repeat split; reflexivity.
Qed.

Lemma unknown_month_or_utility_shows_nothing_witness :
  geoRegions !! "portland"%string = Some portland_bounds /\
  geoMetricConfig !! "arrears_rate"%string
  = Some (MetricConfig.mk "Arrears Rate (%)" (MetricConfig.Percent 1)) /\
  geographicView geoZipData geoRegions "jul" "arrears_rate" "all" "portland"
  = Normal (GeoView.mk [] [] (Fin 0) (Fin 1) []) /\
  geographicView geoZipData geoRegions "jun" "arrears_rate" "solar" "portland"
  = Normal (GeoView.mk [] [] (Fin 0) (Fin 1) []) /\
  geographicView geoZipData geoRegions "jun" "arrears_rate" "toString" "portland"
  = Throw "TypeError: geoZipData[uk].forEach is not a function".
Proof.
  assert (Hregion : geoRegions !! "portland"%string = Some portland_bounds)
    by reflexivity.
  assert (Hcfg : geoMetricConfig !! "arrears_rate"%string
                 = Some (MetricConfig.mk "Arrears Rate (%)" (MetricConfig.Percent 1)))
    by reflexivity.
  split; [exact Hregion|]. split; [exact Hcfg|].
  split; [|split].
  - apply (proj2 (unknown_month_or_utility_shows_nothing
                    geoZipData geoRegions "jul" "arrears_rate" "all" "portland"
                    _ _ Hregion Hcfg)).
    + left. reflexivity.
    + left. repeat split; discriminate.
  - apply (proj2 (unknown_month_or_utility_shows_nothing
                    geoZipData geoRegions "jun" "arrears_rate" "solar" "portland"
                    _ _ Hregion Hcfg)).
    + right. right. reflexivity.
    + right. split; [discriminate | reflexivity].
  - apply (proj1 (unknown_month_or_utility_shows_nothing
                    geoZipData geoRegions "jun" "arrears_rate" "toString"
                    "portland" _ _ Hregion Hcfg)).
    split; [discriminate|]. split; reflexivity.
Defined.

(** ** The metric of a point *)

Lemma allGeoData_point (data : gmap string (list GeoRecord.t))
    (month metric util : string) (p : GeoPoint.t) :
  In p (allGeoData data month metric util) ->
  exists (d : GeoRecord.t) (s : Snapshot.t),
    GeoPoint.rec p = d /\
    GeoPoint.value p = getGeoMetricValue d month metric /\
    month_entry d month = Some s /\ 20 < Snapshot.active s.
Proof.
  intros Hp.
  apply (Permutation_in _ (allGeoData_perm data month metric util)) in Hp.
  rewrite allGeoData_pushed_eq in Hp.
  apply in_flat_map in Hp. destruct Hp as [uk [_ Hp]].
  destruct (data !! uk) as [ds|]; [|contradiction].
  apply in_flat_map in Hp. destruct Hp as [d [_ Hp]].
  unfold points_of in Hp.
  destruct (enough_accounts month d) eqn:E; [|contradiction].
  destruct Hp as [<-|[]].
  unfold enough_accounts in E.
  destruct (month_entry d month) as [s|] eqn:Es; [|discriminate].
  apply Qltb_lt in E.
  exists d, s. repeat split; assumption.
Qed.

(** X10.  Under the two rate metrics the value of every point of the
    active set is the plain ratio times 100 (the zero guards of
    [getGeoMetricValue] never fire there, the account count being above
    20), and it is a percentage between 0 and 100 whenever the count in the
    numerator is between 0 and the number of active accounts. *)
Theorem rate_metrics_are_percentages
    (data : gmap string (list GeoRecord.t))
    (month metric util : string) (p : GeoPoint.t) :
  metric = "arrears_rate"%string \/ metric = "disc_rate"%string ->
  In p (allGeoData data month metric util) ->
  exists s : Snapshot.t,
    month_entry (GeoPoint.rec p) month = Some s /\
    let n := if String.eqb metric "arrears_rate"
             then Snapshot.arrears s else Snapshot.disc s in
    GeoPoint.value p = n / Snapshot.active s * 100 /\
    (0 <= n -> n <= Snapshot.active s ->
     0 <= GeoPoint.value p /\ GeoPoint.value p <= 100).
Proof.
  intros Hm Hp.
  destruct (allGeoData_point _ _ _ _ _ Hp) as (d & s & Hd & Hv & Hs & Hact).
  exists s. rewrite Hd. split; [exact Hs|]. cbv zeta.
  assert (Hval : GeoPoint.value p
                 = (if String.eqb metric "arrears_rate"
                    then Snapshot.arrears s else Snapshot.disc s)
                   / Snapshot.active s * 100).
  { rewrite Hv. unfold getGeoMetricValue. rewrite Hs.
    assert (E0 : Qeq_bool (Snapshot.active s) 0 = false)
      by (apply Qeq_bool_false; lra).
    assert (E1 : Qltb 0 (Snapshot.active s) = true) by (apply Qltb_lt; lra).
    rewrite E0, E1. destruct Hm as [-> | ->]; reflexivity. }
  split; [exact Hval|].
  intros H0 H1. rewrite Hval.
  destruct (Qdiv_unit (if String.eqb metric "arrears_rate"
                       then Snapshot.arrears s else Snapshot.disc s)
                      (Snapshot.active s)) as [D0 D1]; [lra|].
  apply D0 in H0. apply D1 in H1.
  set (r := _ / Snapshot.active s) in *. split; lra.
Qed.

Lemma rate_metrics_are_percentages_witness :
  exists p : GeoPoint.t,
    ("arrears_rate" = "arrears_rate" \/ "arrears_rate" = "disc_rate")%string /\
    In p (allGeoData geoZipData "jun" "arrears_rate" "ipco") /\
    exists s : Snapshot.t,
      month_entry (GeoPoint.rec p) "jun" = Some s /\
      GeoPoint.value p = Snapshot.arrears s / Snapshot.active s * 100.
Proof.
  assert (Hm : ("arrears_rate" = "arrears_rate" \/ "arrears_rate" = "disc_rate")%string)
    by (left; reflexivity).
  destruct (nth_error (allGeoData geoZipData "jun" "arrears_rate" "ipco") 0)
    as [p|] eqn:E; [|vm_compute in E; discriminate E].
  assert (Hin : In p (allGeoData geoZipData "jun" "arrears_rate" "ipco"))
    by (eapply nth_error_In; exact E).
  exists p. split; [exact Hm|]. split; [exact Hin|].
  destruct (rate_metrics_are_percentages geoZipData "jun" "arrears_rate" "ipco" p Hm Hin)
    as (s & Hs & Hv & _).
  exists s. split; [exact Hs | exact Hv].
Defined.

(** X11.  Under a metric key other than the four of the switch every point
    of the active set has value 0, no value enters the colour population,
    and the scale falls back to 0 and 1. *)
Theorem unknown_metric_values_zero
    (data : gmap string (list GeoRecord.t)) (month metric util : string) :
  metric <> "arrears_rate"%string -> metric <> "disc_rate"%string ->
  metric <> "arrears_count"%string -> metric <> "disconnections"%string ->
  Forall (fun p => GeoPoint.value p = 0) (allGeoData data month metric util) /\
  geoValues data month metric util = [] /\
  geoMinVal data month metric util = Fin 0 /\
  geoMaxVal data month metric util = Fin 1.
Proof.
  intros H1 H2 H3 H4.
  apply String.eqb_neq in H1, H2, H3, H4.
  assert (Hzero : Forall (fun p => GeoPoint.value p = 0)
                         (allGeoData data month metric util)).
  { apply List.Forall_forall. intros p Hp.
    destruct (allGeoData_point _ _ _ _ _ Hp) as (d & s & _ & Hv & Hs & _).
    rewrite Hv. unfold getGeoMetricValue. rewrite Hs, H1, H2, H3, H4.
    destruct (Qeq_bool (Snapshot.active s) 0); reflexivity. }
  assert (Hvals : geoValues data month metric util = []).
  { unfold geoValues.
    induction Hzero as [|p l Hp Hl IH]; [reflexivity|].
    simpl. rewrite Hp, IH. reflexivity. }
  split; [exact Hzero|]. split; [exact Hvals|].
  unfold geoMinVal, geoMaxVal. rewrite Hvals. split; reflexivity.
Qed.

Lemma unknown_metric_values_zero_witness :
  ("balance" <> "arrears_rate" /\ "balance" <> "disc_rate" /\
   "balance" <> "arrears_count" /\ "balance" <> "disconnections")%string /\
  geoValues geoZipData "jun" "balance" "all" = [] /\
  geoMaxVal geoZipData "jun" "balance" "all" = Fin 1.
Proof.
  assert (H : ("balance" <> "arrears_rate" /\ "balance" <> "disc_rate" /\
               "balance" <> "arrears_count" /\ "balance" <> "disconnections")%string)
    by (repeat split; discriminate).
  split; [exact H|].
  destruct H as (H1 & H2 & H3 & H4).
  destruct (unknown_metric_values_zero geoZipData "jun" "balance" "all" H1 H2 H3 H4)
    as (_ & Hv & _ & Hmax).
  split; [exact Hv | exact Hmax].
Defined.

(** ** The trend indicator of the arrears tab *)

Lemma slice_middle (A : Type) (pre mid tail : list A) :
  slice (pre ++ mid ++ tail) (Z.of_nat (List.length pre))
        (Some (Z.of_nat (List.length pre) + Z.of_nat (List.length mid))%Z) = mid.
Proof.
  unfold slice. rewrite !length_app.
  assert (E1 : (Z.of_nat (List.length pre) <? 0)%Z = false) by (apply Z.ltb_ge; lia).
  assert (E2 : (Z.of_nat (List.length pre) + Z.of_nat (List.length mid) <? 0)%Z = false)
    by (apply Z.ltb_ge; lia).
  rewrite E1, E2, !Z.min_l by lia.
  replace (Z.of_nat (List.length pre) + Z.of_nat (List.length mid)
           - Z.of_nat (List.length pre))%Z
    with (Z.of_nat (List.length mid)) by lia.
  rewrite !Nat2Z.id.
  rewrite skipn_app, skipn_all, Nat.sub_diag, skipn_O. simpl.
  rewrite firstn_app, firstn_all, Nat.sub_diag. simpl.
  apply app_nil_r.
Qed.

(** X12.  On a series of six values or more the indicator of the arrears tab
    ([getAvg], [getTrendIcon]) and [getTrend] agree: the same percent
    change, and the label "Trending Up", "Trending Down" or "Flat" for the
    direction up, down or flat. *)
Theorem arrears_tab_agrees_with_getTrend (pre : list Q) (a b c d e f : Q) :
  change (getTrend3 (pre ++ [a; b; c; d; e; f]))
  = ChangeFixed (tabChange (pre ++ [a; b; c; d; e; f])) /\
  TrendIcon.text (getTrendIcon (tabChange (pre ++ [a; b; c; d; e; f])))
  = match direction (getTrend3 (pre ++ [a; b; c; d; e; f])) with
    | up => "Trending Up"%string
    | down => "Trending Down"%string
    | flat => "Flat"%string
    end.
Proof.
  assert (Ht : tabChange (pre ++ [a; b; c; d; e; f])
               = mul (div (sub (Fin ((0 + d + e + f) / 3)) (Fin ((0 + a + b + c) / 3)))
                          (Fin ((0 + a + b + c) / 3)))
                     (Fin 100)).
  { unfold tabChange, getAvg, recentMonths.
    replace (Z.of_nat (List.length (pre ++ [a; b; c; d; e; f])) - 3)%Z
      with (Z.of_nat (List.length (pre ++ [a; b; c])))
      by (rewrite !length_app; simpl; lia).
    replace (Z.of_nat (List.length (pre ++ [a; b; c; d; e; f])) - 3 * 2)%Z
      with (Z.of_nat (List.length pre))
      by (rewrite !length_app; simpl; lia).
    pose proof (slice_middle Q (pre ++ [a; b; c]) [d; e; f] []) as H1.
    rewrite <- app_assoc in H1.
    change (Z.of_nat (List.length [d; e; f])) with 3%Z in H1.
    change ((pre ++ [a; b; c] ++ [d; e; f] ++ []))
      with (pre ++ [a; b; c; d; e; f]) in H1.
    rewrite H1.
    pose proof (slice_middle Q pre [a; b; c] [d; e; f]) as H2.
    change (Z.of_nat (List.length [a; b; c])) with 3%Z in H2.
    change ((pre ++ [a; b; c] ++ [d; e; f]))
      with (pre ++ [a; b; c; d; e; f]) in H2.
    rewrite H2. reflexivity. }
  rewrite Ht, getTrend3_six_or_more. cbv zeta. simpl change. simpl direction.
  split; [reflexivity|].
  unfold getTrendIcon, classify.
  destruct (gt _ (Fin 2)); [reflexivity|].
  destruct (lt _ (Fin (- (2)))); reflexivity.
Qed.

(** ** Markers that share a ZIP code *)

Lemma nth_error_two {A : Type} (l : list A) (i j : nat) (a b : A) :
  (i < j)%nat -> nth_error l i = Some a -> nth_error l j = Some b ->
  exists l1 m l2, l = l1 ++ a :: m ++ b :: l2 /\
                  List.length l1 = i /\ List.length (l1 ++ a :: m) = j.
Proof.
  intros Hij Hi Hj.
  destruct (nth_error_split l i Hi) as (l1 & r & Hl & Hlen).
  subst l.
  assert (Hj' : nth_error r (j - i - 1) = Some b).
  { rewrite nth_error_app2 in Hj by lia.
    rewrite Hlen in Hj.
    replace (j - i)%nat with (S (j - i - 1)) in Hj by lia.
    exact Hj. }
  destruct (nth_error_split r (j - i - 1) Hj') as (m & l2 & Hr & Hm).
  subst r. exists l1, m, l2. split; [reflexivity|]. split; [exact Hlen|].
  rewrite length_app. simpl. lia.
Qed.

(** The later of two elements of one ZIP code has an offset at least one
    step greater than the earlier. *)
Lemma markerOffset_grows
    (isStatewide : bool) (l : list Projected.t) (i j : nat) (di dj : Projected.t) :
  (i < j)%nat ->
  nth_error l i = Some di -> nth_error l j = Some dj ->
  GeoRecord.zip (GeoPoint.rec (Projected.pt di))
  = GeoRecord.zip (GeoPoint.rec (Projected.pt dj)) ->
  (if isStatewide then 6 else 12)
  <= markerOffset isStatewide l j dj - markerOffset isStatewide l i di.
Proof.
  intros Hij Hi Hj Hzip.
  destruct (nth_error_two l i j di dj Hij Hi Hj) as (l1 & m & l2 & Hl & H1 & H2).
  unfold markerOffset. rewrite Hzip.
  set (same := fun x : Projected.t =>
                 String.eqb (GeoRecord.zip (GeoPoint.rec (Projected.pt x)))
                            (GeoRecord.zip (GeoPoint.rec (Projected.pt dj)))).
  assert (Sdi : same di = true) by (unfold same; rewrite Hzip; apply String.eqb_refl).
  assert (Sdj : same dj = true) by (unfold same; apply String.eqb_refl).
  assert (Fi : firstn i l = l1).
  { subst l. rewrite <- H1. rewrite firstn_app, firstn_all, Nat.sub_diag.
    simpl. apply app_nil_r. }
  assert (Fj : firstn j l = l1 ++ di :: m).
  { subst l. rewrite <- H2.
    replace (l1 ++ di :: m ++ dj :: l2) with ((l1 ++ di :: m) ++ dj :: l2)
      by (rewrite <- app_assoc; reflexivity).
    rewrite firstn_app, firstn_all, Nat.sub_diag. simpl. apply app_nil_r. }
  rewrite Fi, Fj.
  assert (Hn : List.length (List.filter same l)
               = (List.length (List.filter same l1) + 1
                  + List.length (List.filter same m) + 1
                  + List.length (List.filter same l2))%nat).
  { rewrite Hl. rewrite List.filter_app. cbn [List.filter]. rewrite Sdi.
    rewrite List.filter_app. cbn [List.filter]. rewrite Sdj.
    rewrite !length_app. simpl. rewrite !length_app. simpl. lia. }
  assert (Hzj : List.length (List.filter same (l1 ++ di :: m))
                = (List.length (List.filter same l1) + 1
                   + List.length (List.filter same m))%nat).
  { rewrite List.filter_app. cbn [List.filter]. rewrite Sdi.
    rewrite length_app. simpl. lia. }
  assert (Hmany : (1 <? List.length (List.filter same l))%nat = true)
    by (apply Nat.ltb_lt; lia).
  rewrite Hmany, Hzj.
  set (zi := List.length (List.filter same l1)).
  set (k := List.length (List.filter same m)).
  assert (Hstep : inject_Z (Z.of_nat zi) + 1 <= inject_Z (Z.of_nat (zi + 1 + k))).
  { change 1 with (inject_Z 1). rewrite <- inject_Z_plus.
    rewrite <- Zle_Qle. lia. }
  set (c := (inject_Z (Z.of_nat (List.length (List.filter same l))) - 1) / 2).
  clearbody c.
  destruct isStatewide; nra.
Qed.

(** X13.  On a region of positive width and height, of two markers of one
    ZIP code the later one in the projected set has an offset at least one
    step greater than the earlier one, 6 units on the statewide view and 12
    on a regional one.  The centre of a marker is its projected [x] plus
    its offset: when the two records have the same longitude the centre of
    the later marker lies to the right of the centre of the earlier one, so
    that the two never fall on each other. *)
Theorem markers_of_one_zip_are_apart
    (data : gmap string (list GeoRecord.t)) (month metric util : string)
    (bounds : Region.t) (isStatewide : bool) (i j : nat) (di dj : Projected.t) :
  nondegenerate bounds ->
  (i < j)%nat ->
  nth_error (filteredGeoData data month metric util bounds) i = Some di ->
  nth_error (filteredGeoData data month metric util bounds) j = Some dj ->
  GeoRecord.zip (GeoPoint.rec (Projected.pt di))
  = GeoRecord.zip (GeoPoint.rec (Projected.pt dj)) ->
  (if isStatewide then 6 else 12)
  <= markerOffset isStatewide (filteredGeoData data month metric util bounds) j dj
     - markerOffset isStatewide (filteredGeoData data month metric util bounds) i di /\
  (GeoRecord.lng (GeoPoint.rec (Projected.pt di))
   == GeoRecord.lng (GeoPoint.rec (Projected.pt dj)) ->
   exists ci cj : Q,
     markerCx isStatewide (filteredGeoData data month metric util bounds) i di
     = Fin ci /\
     markerCx isStatewide (filteredGeoData data month metric util bounds) j dj
     = Fin cj /\
     ci < cj).
Proof.
  intros [_ Hwide] Hij Hi Hj Hzip.
  pose proof (markerOffset_grows isStatewide _ i j di dj Hij Hi Hj Hzip) as Hoff.
  split; [exact Hoff|].
  intros Hlng.
  destruct (filteredGeoData_member _ _ _ _ _ _ (nth_error_In _ _ Hi))
    as (_ & _ & Hxi & _).
  destruct (filteredGeoData_member _ _ _ _ _ _ (nth_error_In _ _ Hj))
    as (_ & _ & Hxj & _).
  unfold markerCx. rewrite Hxi, Hxj, !xScale_finite by exact Hwide.
  cbn [add]. eexists. eexists.
  split; [reflexivity|]. split; [reflexivity|].
  rewrite Hlng.
  set (oi := markerOffset isStatewide _ i di) in *.
  set (oj := markerOffset isStatewide _ j dj) in *.
  clearbody oi oj.
  destruct isStatewide; lra.
Qed.

Lemma markers_of_one_zip_are_apart_witness :
  exists (di dj : Projected.t) (ci cj : Q),
    nondegenerate portland_bounds /\
    (16 < 25)%nat /\
    nth_error (filteredGeoData geoZipData "jun" "arrears_count" "all" portland_bounds) 16
      = Some di /\
    nth_error (filteredGeoData geoZipData "jun" "arrears_count" "all" portland_bounds) 25
      = Some dj /\
    GeoRecord.zip (GeoPoint.rec (Projected.pt di)) = "97229"%string /\
    GeoRecord.zip (GeoPoint.rec (Projected.pt dj)) = "97229"%string /\
    GeoRecord.lng (GeoPoint.rec (Projected.pt di))
    == GeoRecord.lng (GeoPoint.rec (Projected.pt dj)) /\
    markerCx false
      (filteredGeoData geoZipData "jun" "arrears_count" "all" portland_bounds) 16 di
    = Fin ci /\
    markerCx false
      (filteredGeoData geoZipData "jun" "arrears_count" "all" portland_bounds) 25 dj
    = Fin cj /\
    ci < cj.
Proof.
  assert (Hnd : nondegenerate portland_bounds) by (split; reflexivity).
  destruct (nth_error (filteredGeoData geoZipData "jun" "arrears_count" "all"
                         portland_bounds) 16) as [di|] eqn:Ei;
    [|vm_compute in Ei; discriminate Ei].
  destruct (nth_error (filteredGeoData geoZipData "jun" "arrears_count" "all"
                         portland_bounds) 25) as [dj|] eqn:Ej;
    [|vm_compute in Ej; discriminate Ej].
  assert (Zi : GeoRecord.zip (GeoPoint.rec (Projected.pt di)) = "97229"%string).
  { vm_compute in Ei. injection Ei as <-. reflexivity. }
  assert (Zj : GeoRecord.zip (GeoPoint.rec (Projected.pt dj)) = "97229"%string).
  { vm_compute in Ej. injection Ej as <-. reflexivity. }
  assert (Hlng : GeoRecord.lng (GeoPoint.rec (Projected.pt di))
                 == GeoRecord.lng (GeoPoint.rec (Projected.pt dj))).
  { vm_compute in Ei. injection Ei as <-.
    vm_compute in Ej. injection Ej as <-. reflexivity. }
  assert (Hlt : (16 < 25)%nat) by lia.
  assert (Hzip : GeoRecord.zip (GeoPoint.rec (Projected.pt di))
                 = GeoRecord.zip (GeoPoint.rec (Projected.pt dj)))
    by (rewrite Zi, Zj; reflexivity).
  destruct (markers_of_one_zip_are_apart geoZipData "jun" "arrears_count" "all"
              portland_bounds false 16 25 di dj Hnd Hlt Ei Ej Hzip)
    as [_ Hcentres].
  destruct (Hcentres Hlng) as (ci & cj & Hci & Hcj & Hsep).
  exists di, dj, ci, cj.
  split; [exact Hnd|]. split; [exact Hlt|].
  split; [reflexivity|]. split; [reflexivity|].
  split; [exact Zi|]. split; [exact Zj|]. split; [exact Hlng|].
  split; [exact Hci|]. split; [exact Hcj|]. exact Hsep.
Defined.

(** In the data of the dashboard every ZIP code has one location, whatever
    the utility that reports it: its markers start from the same point. *)
Example geoZipData_one_location_per_zip :
  one_location_per_zip
    (geoZipData_pge ++ geoZipData_nwn ++ geoZipData_avista
     ++ geoZipData_cng ++ geoZipData_pac ++ geoZipData_ipco) = true.
Proof. vm_compute. reflexivity. Qed.

(** ** Electric and gas accounts *)

(** X14.  Whatever the accounts table and the month, the account total of
    the six utilities is the sum of the electric and the gas totals: the
    two groups of [totals] split the utilities with nothing left out and
    nothing counted twice. *)
Theorem accounts_split_electric_gas (accts : gmap string (list Q)) (m : Z) :
  totalAccounts utilities accts m == electricAccounts accts m + gasAccounts accts m.
Proof.
  unfold totalAccounts, electricAccounts, gasAccounts, utilities,
    electricUtils, gasUtils.
  simpl. ring.
Qed.

(** ** Chart rows *)

Lemma imap_chart_rows (g : Z -> Q) (ms : list string) :
  forall (k : nat) (s : list Q),
    List.length s = List.length ms ->
    (forall i q, nth_error s i = Some q -> g (Z.of_nat (k + i)) == q) ->
    Forall2 (fun (row : ChartRow.t) (q : Q) => ChartRow.value row == q)
            (imap (fun i month => ChartRow.mk month (g (Z.of_nat (k + i)))) ms) s /\
    List.map ChartRow.month
             (imap (fun i month => ChartRow.mk month (g (Z.of_nat (k + i)))) ms) = ms.
Proof.
  induction ms as [|month ms IH]; intros k s Hlen Hs.
  - destruct s; [|discriminate]. split; [constructor | reflexivity].
  - destruct s as [|q s]; [discriminate|].
    simpl in Hlen. injection Hlen as Hlen.
    destruct (IH (S k) s Hlen) as [IH1 IH2].
    { intros i x Hi. replace (S k + i)%nat with (k + S i)%nat by lia.
      apply Hs. exact Hi. }
    assert (Hext : imap ((fun i m0 => ChartRow.mk m0 (g (Z.of_nat (k + i)))) ∘ S) ms
                   = imap (fun i m0 => ChartRow.mk m0 (g (Z.of_nat (S k + i)))) ms).
    { apply imap_ext. intros i x _. simpl.
      replace (k + S i)%nat with (S (k + i)) by lia. reflexivity. }
    cbn [imap]. rewrite Hext. split.
    + constructor; [|exact IH1]. simpl. apply (Hs 0%nat q). reflexivity.
    + simpl. f_equal. exact IH2.
Qed.

(** X15.  For a single utility whose series has one value per month, the
    chart rows reproduce the series: one row per month, in order, labelled
    with the month and carrying the value of the table. *)
Theorem getChartData_reproduces_series
    (us : list Utility.t) (ms : list string) (dataObj : gmap string (list Q))
    (selectedUtility : string) (series : list Q) :
  selectedUtility <> "all"%string ->
  dataObj !! selectedUtility = Some series ->
  List.length series = List.length ms ->
  Forall2 (fun (row : ChartRow.t) (q : Q) => ChartRow.value row == q)
          (getChartData us ms dataObj selectedUtility) series /\
  List.map ChartRow.month (getChartData us ms dataObj selectedUtility) = ms.
Proof.
  intros Hsel Hs Hlen. unfold getChartData.
  apply (imap_chart_rows (chartValue us dataObj selectedUtility) ms 0 series Hlen).
  intros i q Hi. unfold chartValue.
  apply String.eqb_neq in Hsel. rewrite Hsel.
  unfold entry, opt_index. rewrite Hs. unfold index.
  simpl Nat.add.
  assert (E : (Z.of_nat i <? 0)%Z = false) by (apply Z.ltb_ge; lia).
  rewrite E, Nat2Z.id, Hi. simpl.
  destruct (Qeq_bool q 0) eqn:Eq; [|reflexivity].
  apply Qeq_bool_iff in Eq. rewrite Eq. reflexivity.
Qed.

Lemma getChartData_reproduces_series_witness :
  exists series : list Q,
    "cng"%string <> "all"%string /\
    disconnections !! "cng"%string = Some series /\
    List.length series = List.length months /\
    Forall2 (fun (row : ChartRow.t) (q : Q) => ChartRow.value row == q)
            (getChartData utilities months disconnections "cng") series.
Proof.
  destruct (disconnections !! "cng"%string) as [series|] eqn:E;
    [|vm_compute in E; discriminate E].
  assert (Hlen : List.length series = List.length months).
  { vm_compute in E. injection E as <-. reflexivity. }
  assert (Hsel : "cng"%string <> "all"%string) by discriminate.
  exists series. split; [exact Hsel|]. split; [reflexivity|]. split; [exact Hlen|].
  exact (proj1 (getChartData_reproduces_series utilities months disconnections
                  "cng" series Hsel E Hlen)).
Defined.

(** ** Bill-discount rates *)

Lemma or_one_nonzero (o : option Q) : ~ or_one o == 0.
Proof.
  unfold or_one. destruct o as [q|]; [|intros H; discriminate H].
  destruct (Qeq_bool q 0) eqn:E.
  - intros H; discriminate H.
  - apply Qeq_bool_false. exact E.
Qed.

Lemma or_one_or_zero (o : option Q) :
  (~ or_zero o == 0 -> or_one o = or_zero o) /\
  (or_zero o == 0 -> or_one o = 1).
Proof.
  unfold or_one, or_zero. destruct o as [q|].
  - destruct (Qeq_bool q 0) eqn:E.
    + split; [intros H; exfalso; apply H; reflexivity | reflexivity].
    + apply Qeq_bool_false in E.
      split; [reflexivity | intros H; contradiction].
  - split; [intros H; exfalso; apply H; reflexivity | reflexivity].
Qed.

(** X16.  For a utility present in both tables the disconnection rate of
    bill-discount participants is a finite number: disconnections over
    participants times 100 when the participant count is not zero, and 100
    times the disconnections when the count is zero or missing, the divisor
    being replaced by 1. *)
Theorem bdDiscRateRow_never_divides_by_zero
    (bdDisc bdPart : gmap string (list Q)) (m : Z) (u : Utility.t)
    (ds ps : list Q) :
  bdDisc !! Utility.id u = Some ds ->
  bdPart !! Utility.id u = Some ps ->
  exists r : Q,
    bdDiscRateRow bdDisc bdPart m u
    = Normal (RateRow.mk (Utility.short u) (Fin r) (Utility.color u)) /\
    (~ entry bdPart (Utility.id u) m == 0 ->
     r == entry bdDisc (Utility.id u) m / entry bdPart (Utility.id u) m * 100) /\
    (entry bdPart (Utility.id u) m == 0 ->
     r == entry bdDisc (Utility.id u) m * 100).
Proof.
  intros Hd Hp. unfold bdDiscRateRow, strict_index. rewrite Hd, Hp.
  cbv zeta. cbn [div].
  rewrite Qdiv_js_nonzero by apply or_one_nonzero. cbn [mul].
  eexists. split; [reflexivity|].
  unfold entry, opt_index. rewrite Hd, Hp.
  destruct (or_one_or_zero (index ps m)) as [Hnz Hz].
  split.
  - intros H. rewrite (Hnz H). reflexivity.
  - intros H. rewrite (Hz H). field.
Qed.

Lemma bdDiscRateRow_never_divides_by_zero_witness :
  exists (u : Utility.t) (ds ps : list Q) (r : Q),
    billDiscountDisconnections !! Utility.id u = Some ds /\
    billDiscountParticipants !! Utility.id u = Some ps /\
    Utility.id u = "ipco"%string /\
    entry billDiscountParticipants (Utility.id u) 5 == 0 /\
    bdDiscRateRow billDiscountDisconnections billDiscountParticipants 5 u
    = Normal (RateRow.mk (Utility.short u) (Fin r) (Utility.color u)) /\
    r == entry billDiscountDisconnections (Utility.id u) 5 * 100.
Proof.
  set (u := Utility.mk "ipco" "Idaho Power" "IPCO" "Electric" "#059669").
  destruct (billDiscountDisconnections !! Utility.id u) as [ds|] eqn:Ed;
    [|vm_compute in Ed; discriminate Ed].
  destruct (billDiscountParticipants !! Utility.id u) as [ps|] eqn:Ep;
    [|vm_compute in Ep; discriminate Ep].
  destruct (bdDiscRateRow_never_divides_by_zero
              billDiscountDisconnections billDiscountParticipants 5 u
              ds ps Ed Ep) as (r & Hrow & _ & Hzero).
  assert (H0 : entry billDiscountParticipants (Utility.id u) 5 == 0) by reflexivity.
  exists u, ds, ps, r.
  split; [exact Ed|]. split; [exact Ep|]. split; [reflexivity|].
  split; [exact H0|]. split; [exact Hrow|]. exact (Hzero H0).
Defined.

Lemma mapM_Normal {A B : Type} (f : A -> completion B) (l : list A) (bs : list B) :
  mapM f l = Normal bs -> Forall2 (fun a b => f a = Normal b) l bs.
Proof.
  revert bs. induction l as [|a l IH]; intros bs H; simpl in H.
  - injection H as <-. constructor.
  - destruct (f a) as [b|e] eqn:Ea; [|discriminate].
    destruct (mapM f l) as [bs'|e]; [|discriminate].
    injection H as <-. constructor; [exact Ea | apply IH; reflexivity].
Qed.

Lemma mapM_Throw {A B : Type} (f : A -> completion B) (l : list A) (e : string) :
  mapM f l = Throw e -> exists a, In a l /\ f a = Throw e.
Proof.
  induction l as [|a l IH]; intros H; simpl in H; [discriminate|].
  destruct (f a) as [b|e'] eqn:Ea.
  - destruct (mapM f l) as [bs'|e'] eqn:El; [discriminate|].
    injection H as ->. destruct (IH eq_refl) as [x [Hx Hfx]].
    exists x. split; [right; exact Hx | exact Hfx].
  - injection H as ->. exists a. split; [left; reflexivity | exact Ea].
Qed.

Lemma bdArrearsRateRow_Normal (withArr part : gmap string (list Q)) (m : Z)
    (u : Utility.t) (row : BarRow.t) :
  bdArrearsRateRow withArr part m u = Normal row ->
  BarRow.name row = Utility.short u /\
  (0 < BarRow.rate row -> 0 < entry withArr (Utility.id u) m).
Proof.
  unfold bdArrearsRateRow, entry.
  assert (Hw : forall w, strict_index withArr (Utility.id u) m = Normal w ->
                         or_zero w = or_zero (opt_index (withArr !! Utility.id u) m)).
  { unfold strict_index, opt_index. intros w.
    destruct (withArr !! Utility.id u) as [ws|].
    - intros H. injection H as <-. reflexivity.
    - destruct (inherited (Utility.id u)); [|discriminate].
      intros H. injection H as <-. reflexivity. }
  destruct (strict_index withArr (Utility.id u) m) as [w|]; [|discriminate].
  destruct (strict_index part (Utility.id u) m) as [p|]; [|discriminate].
  cbv zeta. intros H. injection H as <-. simpl.
  split; [reflexivity|].
  rewrite <- (Hw w eq_refl).
  destruct (Qltb 0 (or_zero w)) eqn:E.
  - intros _. apply Qltb_lt. exact E.
  - intros H. lra.
Qed.

Lemma bdArrearsRateRow_Throw (withArr part : gmap string (list Q)) (m : Z)
    (u : Utility.t) (e : string) :
  bdArrearsRateRow withArr part m u = Throw e ->
  withArr !! Utility.id u = None \/ part !! Utility.id u = None.
Proof.
  unfold bdArrearsRateRow, strict_index.
  destruct (withArr !! Utility.id u) as [ws|]; [|left; reflexivity].
  destruct (part !! Utility.id u) as [ps|]; [discriminate | right; reflexivity].
Qed.

(** X17.  The bars of the bill-discount arrears rate chart are in
    descending order of rate, every bar has a positive rate, and a bar is
    drawn only for a utility that has participants with arrears in that
    month: the others are dropped.  The chart fails only when a utility has
    no series in one of the two tables. *)
Theorem bdArrearsRateChart_sorted_positive
    (us : list Utility.t) (withArr part : gmap string (list Q)) (m : Z) :
  match bdArrearsRateChart us withArr part m with
  | Normal rows =>
      StronglySorted (fun a b => BarRow.rate b <= BarRow.rate a) rows /\
      Forall (fun d => 0 < BarRow.rate d) rows /\
      Forall (fun d => exists u, In u us /\ BarRow.name d = Utility.short u /\
                                 0 < entry withArr (Utility.id u) m) rows /\
      (List.length rows <= List.length us)%nat
  | Throw _ =>
      exists u, In u us /\
                (withArr !! Utility.id u = None \/ part !! Utility.id u = None)
  end.
Proof.
  unfold bdArrearsRateChart.
  destruct (mapM (bdArrearsRateRow withArr part m) us) as [rows|e] eqn:E.
  - apply mapM_Normal in E.
    set (kept := List.filter (fun d => Qltb 0 (BarRow.rate d)) rows).
    pose proof (Array_sort_perm BarRow.rate kept) as Hperm.
    assert (Hkept : forall d, In d kept ->
              0 < BarRow.rate d /\
              exists u, In u us /\ BarRow.name d = Utility.short u /\
                        0 < entry withArr (Utility.id u) m).
    { intros d Hd. unfold kept in Hd. apply filter_In in Hd.
      destruct Hd as [Hd Hpos]. apply Qltb_lt in Hpos.
      split; [exact Hpos|].
      clear Hperm kept.
      induction E as [|u row us' rows' Hrow Hrest IH]; [contradiction|].
      destruct Hd as [<-|Hd].
      - destruct (bdArrearsRateRow_Normal _ _ _ _ _ Hrow) as [Hn Hw].
        exists u. split; [left; reflexivity|]. split; [exact Hn | exact (Hw Hpos)].
      - destruct (IH Hd) as (u' & Hu' & Hrest').
        exists u'. split; [right; exact Hu' | exact Hrest']. }
    split; [apply (Array_sort_sorted BarRow.rate)|].
    split; [|split].
    + apply List.Forall_forall. intros d Hd.
      apply (Permutation_in _ Hperm) in Hd. apply Hkept. exact Hd.
    + apply List.Forall_forall. intros d Hd.
      apply (Permutation_in _ Hperm) in Hd. apply Hkept. exact Hd.
    + assert (Hlen : List.length us = List.length rows)
        by (clear - E; induction E; simpl; congruence).
      rewrite (Permutation_length Hperm), Hlen. unfold kept.
      apply List.filter_length_le.
  - apply mapM_Throw in E. destruct E as [u [Hu Hthrow]].
    exists u. split; [exact Hu|].
    eapply bdArrearsRateRow_Throw. exact Hthrow.
Qed.

(** The chart on the tables of the dashboard: Idaho Power had no
    participant with arrears in June 2024 and gets no bar. *)
Example bdArrearsRateChart_june_2024 :
  match bdArrearsRateChart utilities billDiscountParticipantsWithArrears
          billDiscountParticipants 5 with
  | Normal rows => List.map BarRow.name rows
                   = [ "PacifiCorp"; "Cascade"; "PGE"; "Avista"; "NWN" ]%string
  | Throw _ => False
  end.
Proof. vm_compute. reflexivity. Qed.

(** ** [formatCurrency] near one million *)

Lemma Qfloor_unique (n : Z) (x : Q) :
  inject_Z n <= x -> x < inject_Z (n + 1) -> Qfloor x = n.
Proof.
  intros Hlo Hhi.
  pose proof (Qfloor_le x) as H1. pose proof (Qlt_floor x) as H2.
  assert (A : (Qfloor x < n + 1)%Z).
  { rewrite Zlt_Qlt. lra. }
  assert (B : (n < Qfloor x + 1)%Z).
  { rewrite Zlt_Qlt. lra. }
  lia.
Qed.

(** X18.  An amount from 999,500 up to, but not including, one million is
    shown as "$1000K": it is still below the threshold of the "M" form, and
    its thousands round up to 1000. *)
Theorem formatCurrency_just_below_a_million (q : Q) :
  999500 <= q -> q < 1000000 ->
  formatCurrency (Some (Fin q)) = Some "$1000K"%string.
Proof.
  intros Hlo Hhi. unfold formatCurrency, num_ge.
  assert (E1 : Qle_bool 1000000 q = false).
  { destruct (Qle_bool 1000000 q) eqn:E; [|reflexivity].
    apply Qle_bool_iff in E. lra. }
  assert (E2 : Qle_bool 1000 q = true) by (apply Qle_bool_iff; lra).
  rewrite E1, E2. cbn [div].
  rewrite Qdiv_js_nonzero by (intros H; discriminate H).
  assert (Ht : 1000 * (q / 1000) == q) by (apply Qmult_div_r; intros H; discriminate H).
  set (t := q / 1000) in *.
  assert (Habs : Qabs t == t) by (apply Qabs_pos; lra).
  unfold toFixed0.
  assert (E3 : Qle_bool (inject_Z (10 ^ 21)) (Qabs t) = false).
  { destruct (Qle_bool (inject_Z (10 ^ 21)) (Qabs t)) eqn:E; [|reflexivity].
    apply Qle_bool_iff in E. rewrite Habs in E.
    assert (Hbig : 1000000 <= inject_Z (10 ^ 21)) by (apply Qle_bool_imp_le; reflexivity).
    lra. }
  assert (E4 : Qltb t 0 = false) by (apply Qltb_ge; lra).
  assert (E5 : Qfloor (Qabs t + (1 # 2)) = 1000%Z).
  { apply Qfloor_unique.
    - rewrite Habs. change (inject_Z 1000) with 1000. lra.
    - rewrite Habs. change (inject_Z (1000 + 1)) with 1001. lra. }
  rewrite E3, E4, E5. reflexivity.
Qed.

Lemma formatCurrency_just_below_a_million_witness :
  999500 <= 999700 /\ 999700 < 1000000 /\
  formatCurrency (Some (Fin 999700)) = Some "$1000K"%string.
Proof.
  assert (H1 : 999500 <= 999700) by (apply Qle_bool_imp_le; reflexivity).
  assert (H2 : 999700 < 1000000) by reflexivity.
  split; [exact H1|]. split; [exact H2|].
  exact (formatCurrency_just_below_a_million 999700 H1 H2).
Defined.

Example formatCurrency_samples :
  formatCurrency (Some (Fin 2500000)) = Some "$2.5M"%string /\
  formatCurrency (Some (Fin 45250)) = Some "$45K"%string /\
  formatCurrency (Some (Fin 83)) = Some "$83"%string /\
  formatCurrency None = Some "$0"%string /\
  formatCurrency (Some NaN) = Some "$NaN"%string.
Proof. vm_compute. repeat split; reflexivity. Qed.

(** ** The exported sheet *)

Lemma mapM_all_Normal {A B : Type} (f : A -> completion B) (g : A -> B) (l : list A) :
  (forall a, In a l -> f a = Normal (g a)) -> mapM f l = Normal (List.map g l).
Proof.
  induction l as [|a l IH]; intros H; simpl; [reflexivity|].
  rewrite (H a (or_introl eq_refl)), IH; [reflexivity|].
  intros x Hx. apply H. right. exact Hx.
Qed.

Lemma imap_indexed_nth (ms : list string) :
  forall (k i : nat) (month : string),
    nth_error ms i = Some month ->
    nth_error (imap (fun i month => ((k + i)%nat, month)) ms) i
    = Some ((k + i)%nat, month).
Proof.
  induction ms as [|m ms IH]; intros k i month H.
  - destruct i; discriminate.
  - cbn [imap]. destruct i as [|i].
    + simpl in H. injection H as <-. reflexivity.
    + simpl in H. simpl nth_error.
      assert (Hext : imap ((fun i month => ((k + i)%nat, month)) ∘ S) ms
                     = imap (fun i month => ((S k + i)%nat, month)) ms).
      { apply imap_ext. intros j x _. simpl. f_equal. lia. }
      rewrite Hext, (IH (S k) i month H). f_equal. f_equal. lia.
Qed.

(** X19.  When every utility has a series in the table, the "Active
    Accounts" sheet is built without failure and is a proper table: under
    the title row and the empty row, the header and each of the rows, one
    per month, have one cell more than there are utilities; the row of
    month [i] starts with the label of the month and holds in column
    [j + 1] the entry of the table for utility [j] and month [i]. *)
Theorem accountsData_is_the_table
    (us : list Utility.t) (ms : list string) (accts : gmap string (list Q)) :
  (forall u, In u us -> exists series, accts !! Utility.id u = Some series) ->
  exists (header : list Cell) (rows : list (list Cell)),
    accountsData us ms accts
    = Normal ([ CText "Active Residential Accounts by Utility" ] :: [] :: header :: rows) /\
    List.length header = S (List.length us) /\
    List.length rows = List.length ms /\
    Forall (fun r => List.length r = S (List.length us)) rows /\
    forall (i j : nat) (month : string) (u : Utility.t),
      nth_error ms i = Some month -> nth_error us j = Some u ->
      exists r, nth_error rows i = Some r /\
                nth_error r 0 = Some (CText month) /\
                nth_error r (S j)
                = Some (cell_of (opt_index (accts !! Utility.id u) (Z.of_nat i))).
Proof.
  intros Hpresent.
  set (rowOf := fun im : nat * string =>
                  CText (snd im)
                  :: List.map (fun u => cell_of (opt_index (accts !! Utility.id u)
                                                           (Z.of_nat (fst im)))) us).
  assert (Hrow : forall im, accountsRow us accts im = Normal (rowOf im)).
  { intros im. unfold accountsRow.
    rewrite (mapM_all_Normal _
               (fun u => cell_of (opt_index (accts !! Utility.id u)
                                            (Z.of_nat (fst im))))).
    - reflexivity.
    - intros u Hu. destruct (Hpresent u Hu) as [series Hs].
      unfold strict_index, opt_index. rewrite Hs. reflexivity. }
  unfold accountsData.
  rewrite (mapM_all_Normal _ rowOf) by (intros im _; apply Hrow).
  eexists. eexists. split; [reflexivity|].
  split; [simpl; rewrite length_map; reflexivity|].
  split; [rewrite length_map, length_imap; reflexivity|].
  split.
  - apply List.Forall_forall. intros r Hr.
    apply in_map_iff in Hr. destruct Hr as [im [<- _]].
    unfold rowOf. simpl. rewrite length_map. reflexivity.
  - intros i j month u Hi Hj.
    exists (rowOf (i, month)). split.
    + pose proof (imap_indexed_nth ms 0 i month Hi) as H. simpl in H.
      apply (map_nth_error rowOf) in H. exact H.
    + unfold rowOf. simpl. split; [reflexivity|].
      apply (map_nth_error
               (fun u0 => cell_of (opt_index (accts !! Utility.id u0) (Z.of_nat i)))).
      exact Hj.
Qed.

Lemma accountsData_is_the_table_witness :
  (forall u, In u utilities -> exists series, accounts !! Utility.id u = Some series) /\
  exists (header : list Cell) (rows : list (list Cell)),
    accountsData utilities months accounts
    = Normal ([ CText "Active Residential Accounts by Utility" ] :: [] :: header :: rows) /\
    List.length header = 7%nat /\ List.length rows = 21%nat.
Proof.
  assert (H : forall u, In u utilities ->
                        exists series, accounts !! Utility.id u = Some series).
  { intros u Hu. simpl in Hu.
    repeat (destruct Hu as [<-|Hu]; [eexists; vm_compute; reflexivity|]).
    contradiction. }
  split; [exact H|].
  destruct (accountsData_is_the_table utilities months accounts H)
    as (header & rows & Hsheet & Hh & Hr & _).
  exists header, rows. split; [exact Hsheet|]. split; [exact Hh | exact Hr].
Defined.

(** ** The rounded average, and the line of all utilities *)

Lemma weighted_ratio_within
    (us : list Utility.t) (accts bills : gmap string (list Q)) (m : Z)
    (lo hi : Q) :
  (forall u, In u us -> 0 <= entry accts (Utility.id u) m) ->
  (forall u, In u us -> 0 < entry accts (Utility.id u) m ->
             lo <= entry bills (Utility.id u) m /\
             entry bills (Utility.id u) m <= hi) ->
  0 < totalAccounts us accts m ->
  lo <= weightedSum us accts bills m / totalAccounts us accts m /\
  weightedSum us accts bills m / totalAccounts us accts m <= hi.
Proof.
  intros Hw Hv Hpos.
  pose proof (totalAccounts_Qsum us accts m) as HW.
  pose proof (weightedSum_Qsum us accts bills m) as HS.
  destruct (weighted_sum_bounds
              (fun u => entry accts (Utility.id u) m)
              (fun u => entry bills (Utility.id u) m) us lo hi Hw Hv)
    as [Hlo Hhi].
  split.
  - apply Qle_shift_div_l; [exact Hpos|]. rewrite HS, HW. exact Hlo.
  - apply Qle_shift_div_r; [exact Hpos|]. rewrite HS, HW. exact Hhi.
Qed.

(** X20.  With non-negative account counts, a positive account sum and
    bills between two whole numbers, the rounded statewide bill of [totals]
    is a whole number between the same two: rounding never takes the
    displayed figure outside the range of the utilities' bills. *)
Theorem rounded_average_within_bills
    (us : list Utility.t) (accts bills : gmap string (list Q)) (m : Z)
    (lo hi : Z) :
  (forall u, In u us -> 0 <= entry accts (Utility.id u) m) ->
  (forall u, In u us -> 0 < entry accts (Utility.id u) m ->
             inject_Z lo <= entry bills (Utility.id u) m /\
             entry bills (Utility.id u) m <= inject_Z hi) ->
  0 < totalAccounts us accts m ->
  exists n : Z,
    avgBillWeighted us accts bills m = Fin (inject_Z n) /\ (lo <= n <= hi)%Z.
Proof.
  intros Hw Hv Hpos.
  destruct (weighted_ratio_within us accts bills m _ _ Hw Hv Hpos) as [Hlo Hhi].
  unfold avgBillWeighted.
  assert (E : Qltb 0 (totalAccounts us accts m) = true) by (apply Qltb_lt; exact Hpos).
  rewrite E.
  change (div (Fin (weightedSum us accts bills m)) (Fin (totalAccounts us accts m)))
    with (Qdiv_js (weightedSum us accts bills m) (totalAccounts us accts m)).
  rewrite Qdiv_js_nonzero by lra. cbn [Math_round].
  set (q := weightedSum us accts bills m / totalAccounts us accts m) in *.
  eexists. split; [reflexivity|]. split.
  - rewrite <- (Qfloor_Z lo). apply Qfloor_resp_le. lra.
  - pose proof (Qfloor_le (q + (1 # 2))) as Hf.
    assert (Hlt : (Qfloor (q + (1 # 2)) < hi + 1)%Z).
    { rewrite Zlt_Qlt, inject_Z_plus. change (inject_Z 1) with 1. lra. }
    lia.
Qed.

Lemma rounded_average_within_bills_witness :
  0 < totalAccounts utilities accounts 20 /\
  exists n : Z,
    avgBillWeighted utilities accounts avgBill 20 = Fin (inject_Z n) /\
    (23 <= n <= 138)%Z.
Proof.
  assert (Hpos : 0 < totalAccounts utilities accounts 20) by reflexivity.
  split; [exact Hpos|].
  apply (rounded_average_within_bills utilities accounts avgBill 20 23 138).
  - intros u Hu. simpl in Hu.
    repeat (destruct Hu as [<-|Hu]; [apply Qle_bool_imp_le; reflexivity|]).
    contradiction.
  - intros u Hu _. simpl in Hu.
    repeat (destruct Hu as [<-|Hu];
            [split; apply Qle_bool_imp_le; reflexivity|]).
    contradiction.
  - exact Hpos.
Defined.

(** X21.  When no utility is named "all", the chart value of the
    all-utilities selection is the sum over the utilities of the chart
    values of the single selections, for every table and every month
    index. *)
Theorem chart_of_all_is_sum_of_utilities
    (us : list Utility.t) (dataObj : gmap string (list Q)) (i : Z) :
  (forall u, In u us -> Utility.id u <> "all"%string) ->
  chartValue us dataObj "all" i
  == Qsum (List.map (fun u => chartValue us dataObj (Utility.id u) i) us).
Proof.
  intros Hids. unfold chartValue at 1. simpl String.eqb.
  transitivity (0 + Qsum (List.map (fun u => entry dataObj (Utility.id u) i) us)).
  - exact (fold_left_Qsum (fun u => entry dataObj (Utility.id u) i) us 0).
  - assert (Hmap : List.map (fun u => chartValue us dataObj (Utility.id u) i) us
                   = List.map (fun u => entry dataObj (Utility.id u) i) us).
    { apply map_ext_in. intros u Hu. unfold chartValue.
      specialize (Hids u Hu). apply String.eqb_neq in Hids.
      rewrite Hids. reflexivity. }
    rewrite Hmap. lra.
Qed.

Lemma chart_of_all_is_sum_of_utilities_witness :
  (forall u, In u utilities -> Utility.id u <> "all"%string) /\
  chartValue utilities disconnections "all" 20
  == Qsum (List.map (fun u => chartValue utilities disconnections (Utility.id u) 20)
                    utilities).
Proof.
  assert (H : forall u, In u utilities -> Utility.id u <> "all"%string).
  { intros u Hu. simpl in Hu.
    repeat (destruct Hu as [<-|Hu]; [discriminate|]). contradiction. }
  split; [exact H|].
  exact (chart_of_all_is_sum_of_utilities utilities disconnections 20 H).
Defined.
